(** * Render-layer collection of reveries-config: attribute override
      resolver ([reveries/maya/lib.py], [query_by_renderlayer]) and the
      render-layer instance collector
      ([plugins/maya/publish/collect_renderlayers.py]).

    The Maya session is a record of the answers its query commands give;
    Python exceptions are values of [exn]; code that reads the session runs
    in a state-and-error monad over it, code that fills a publish instance
    runs in the same monad over the session paired with that instance, and
    the collection pass over the session paired with the publish context. *)

From Stdlib Require Import QArith Ascii String.
From stdpp Require Import base strings list sorting gmap.

Local Open Scope string_scope.
Local Open Scope list_scope.
Local Set Warnings "-register-all,-clear-no-such-hyp".

(** ** Python values and exceptions *)

(** What [cmds.getAttr] returns and what [instance.data] holds. *)
Inductive value : Type :=
| VNone
| VBool (b : bool)
| VInt (z : Z)
| VFloat (q : Q)
| VStr (s : string)
| VList (l : list value)
| VDict (d : list (string * value)).

(** Python truth value, as tested by [if x:] and [x or []]. *)
Definition truthy (v : value) : bool :=
  match v with
  | VNone => false
  | VBool b => b
  | VInt z => negb (Z.eqb z 0)
  | VFloat q => negb (Qeq_bool q 0)
  | VStr s => negb (String.eqb s "")
  | VList l => match l with [] => false | _ => true end
  | VDict d => match d with [] => false | _ => true end
  end.

Definition VStrs (l : list string) : value := VList (VStr <$> l).

Inductive exn : Type :=
| ValueError (msg : string)
| AttributeError (msg : string)
| TypeError (msg : string)
| KeyError (key : string)
| AssertionError (msg : string).

Inductive result (A : Type) : Type :=
| Ok (a : A)
| Raise (e : exn).
Arguments Ok {A} a.
Arguments Raise {A} e.

(** ** String operations of the source *)

(** [s.startswith(p)] *)
Definition startswith (p s : string) : bool := String.prefix p s.

(** [s.endswith(suffix)] *)
Definition endswith (suffix s : string) : bool :=
  let n := String.length s in
  let m := String.length suffix in
  if (m <=? n)%nat then String.eqb (String.substring (n - m) m s) suffix else false.

(** What precedes the last occurrence of [c] in [s], when there is one. *)
Fixpoint rsplit_head (c : ascii) (s : string) : option string :=
  match s with
  | EmptyString => None
  | String a s' =>
      match rsplit_head c s' with
      | Some h => Some (String a h)
      | None => if Ascii.eqb a c then Some EmptyString else None
      end
  end.

(** [s.rsplit(c, 1)[0]]: the whole string when [c] does not occur. *)
Definition rsplit1 (c : ascii) (s : string) : string :=
  default s (rsplit_head c s).

(** [s.replace("\\", "/")] *)
Fixpoint replace_backslash (s : string) : string :=
  match s with
  | EmptyString => EmptyString
  | String a s' =>
      String (if Ascii.eqb a "\"%char then "/"%char else a) (replace_backslash s')
  end.

(** ** The Maya session *)

(** A DAG node under its full path, ["|grp|sub|meshShape"]. *)
Record DagNode : Type := {
  dag_path : string;
  dag_type : string;
  dag_intermediate : bool;
}.

Record Scene : Type := {
  (** [cmds.objExists(plug)] *)
  objExists : string → bool;
  (** [cmds.getAttr("{}.renderable".format(layer))], tested for truth *)
  renderable : string → bool;
  (** [cmds.getAttr("%s.displayOrder" % layer)], an integer attribute *)
  displayOrder : string → Z;
  (** [cmds.getAttr(plug, asString=True)] *)
  getAttr_asString : string → value;
  (** [cmds.getAttr(plug, type=True)] *)
  getAttr_type : string → string;
  (** [cmds.listConnections(plug, type="renderLayer", source=False,
      plugs=True)]; Maya answers [None] when there is nothing to list. *)
  renderLayer_plugs : string → option (list string);
  (** [cmds.listConnections("renderLayerManager.renderLayerId")] *)
  renderLayerManager_links : option (list string);
  (** [cmds.ls(type="renderLayer")] *)
  renderLayers : list string;
  (** [cmds.editRenderLayerGlobals(query=True, currentRenderLayer=True)] *)
  currentRenderLayer : string;
  (** [cmds.referenceQuery(node, isNodeReferenced=True)] *)
  isNodeReferenced : string → bool;
  (** [cmds.editRenderLayerMembers(layer, query=True)] *)
  renderLayerMembers : string → option (list string);
  (** the DAG, in the order [cmds.ls] enumerates it *)
  dag : list DagNode;
  (** the active selection, on which a command given no object works *)
  selection : list string;
  (** [avalon.maya.is_locked()] *)
  is_locked : bool;
  (** [cmds.mayaHasRenderSetup()] *)
  mayaHasRenderSetup : bool;
}.

(** ** What the embedding takes from outside the translated files

    Python's own [eval] and [os.path], and the helpers of
    [reveries.maya.utils], [reveries.maya.vray.utils] and
    [reveries.maya.arnold.utils], whose sources are not part of the
    translated files. *)
Record PyEnv : Type := {
  (** [eval(name)] in the scope of [lib.py]: the callable a type name is
      bound to ([bool], [float], [long]), [None] where Python raises
      [NameError]. The constructors are applied to the value stored in an
      adjustment of an attribute of that very type, on which they return. *)
  py_eval : string → option (value → value);
  (** [os.path.join(a, b)] *)
  os_path_join : value → string → result string;
  (** [os.path.splitext(p)[-1]] *)
  os_path_ext : string → string;
  (** [utils.compose_render_filename(layer, aov)], and
      [utils.compose_render_filename(layer)] when [aov] is [None] *)
  compose_render_filename : Scene → value → option string → string;
  (** [utils.get_render_filename_prefix(layer)] *)
  get_render_filename_prefix : Scene → string → value;
  (** [get_vray_element_names(layer)] *)
  get_vray_element_names : Scene → value → list string;
  (** [get_arnold_aov_names(layer)] *)
  get_arnold_aov_names : Scene → value → list string;
}.

(** ** Commands on the session: state and exceptions *)

(** A computation over a state [St] that returns or raises; what it did to
    the state before raising stays done. *)
Definition SE (St A : Type) : Type := St → St * result A.

#[global] Instance se_ret {St} : MRet (SE St) := λ A a s, (s, Ok a).
#[global] Instance se_bind {St} : MBind (SE St) := λ A B f m s,
  match m s with
  | (s', Ok a) => f a s'
  | (s', Raise e) => (s', Raise e)
  end.

Definition raise {St A} (e : exn) : SE St A := λ s, (s, Raise e).

(** The outcome of a computation that does not touch the state. *)
Definition lift {St A} (r : result A) : SE St A := λ s, (s, r).

(** Run a computation on the first, or on the second, part of a pair. *)
Definition on_fst {S X A} (m : SE S A) : SE (S * X) A := λ st,
  let '(s', r) := m st.1 in ((s', st.2), r).
Definition on_snd {S X A} (m : SE X A) : SE (S * X) A := λ st,
  let '(x', r) := m st.2 in ((st.1, x'), r).

Abbreviation Maya := (SE Scene).

(** A query command: answers from the session and leaves it as it is. *)
Definition query {A} (f : Scene → A) : Maya A := λ s, (s, Ok (f s)).

(** The one command that changes the active layer,
    [cmds.editRenderLayerGlobals(currentRenderLayer=layer)]. *)
Definition set_currentRenderLayer (layer : string) : Maya () := λ s,
  ({| objExists := objExists s; renderable := renderable s;
      displayOrder := displayOrder s;
      getAttr_asString := getAttr_asString s; getAttr_type := getAttr_type s;
      renderLayer_plugs := renderLayer_plugs s;
      renderLayerManager_links := renderLayerManager_links s;
      renderLayers := renderLayers s; currentRenderLayer := layer;
      isNodeReferenced := isNodeReferenced s;
      renderLayerMembers := renderLayerMembers s;
      dag := dag s; selection := selection s; is_locked := is_locked s;
      mayaHasRenderSetup := mayaHasRenderSetup s |}, Ok ()).

(** [cmds.ls(layer, type="renderLayer")] *)
Definition ls_renderLayer (layer : string) (s : Scene) : list string :=
  filter (λ l, l = layer) (renderLayers s).

(** [x or []] on what a listing command returned. *)
Definition or_nil {A} (x : option (list A)) : list A := default [] x.

(** ** [query_by_renderlayer] *)

(** [conn.startswith("%s.adjustments" % layer)]: the plug [conn] belongs
    to the adjustments of [layer]. *)
Definition from_adjustments (layer conn : string) : bool :=
  startswith (layer +:+ ".adjustments") conn.

(** [cmds.getAttr(conn.rsplit(".", 1)[0] + ".value", asString=True)]: the
    value stored next to the plug [layer.adjustments[i].plug]. *)
Definition adjustment_value (s : Scene) (conn : string) : value :=
  getAttr_asString s (rsplit1 "." conn +:+ ".value").

Section Resolver.
Context (env : PyEnv).

(** [type_]: the constructor named by the attribute's type, the identity
    when [eval] raises [NameError]. *)
Definition type_ (node_attr : string) : Maya (value → value) :=
  name ← query (λ s, getAttr_type s node_attr);
  mret (default (λ v, v) (py_eval env name)).

(** [get_value(conn)] *)
Definition get_value (ty : value → value) (conn : string) : Maya value :=
  v ← query (λ s, adjustment_value s conn);
  mret (ty v).

(** The [for conn in ...] loop together with the two returns after it. *)
Fixpoint scan_connections (ty : value → value) (node_attr layer : string)
    (conns : list string) (origin_value : value) : Maya value :=
  match conns with
  | [] =>
      match origin_value with
      | VNone => query (λ s, getAttr_asString s node_attr)
      | _ => mret origin_value
      end
  | conn :: rest =>
      if from_adjustments "defaultRenderLayer" conn then
        v ← get_value ty conn;
        scan_connections ty node_attr layer rest v
      else if negb (from_adjustments layer conn) then
        scan_connections ty node_attr layer rest origin_value
      else get_value ty conn
  end.

Definition query_by_renderlayer (node attr layer : string) : Maya value :=
  found ← query (ls_renderLayer layer);
  match found with
  | [] => raise (ValueError ("RenderLayer not exists: " +:+ layer))
  | _ :: _ =>
      let node_attr := node +:+ "." +:+ attr in
      present ← query (λ s, objExists s node_attr);
      if negb present then
        raise (AttributeError ("Attribute not exists: " +:+ node_attr))
      else
        current ← query currentRenderLayer;
        if String.eqb layer current then
          query (λ s, getAttr_asString s node_attr)
        else
          ty ← type_ node_attr;
          conns ← query (λ s, or_nil (renderLayer_plugs s node_attr));
          scan_connections ty node_attr layer conns VNone
  end.

(** [ls_renderable_cameras(layer)] with a layer given. *)
Fixpoint filter_renderable (layer : string) (cams : list string)
    : Maya (list string) :=
  match cams with
  | [] => mret []
  | cam :: rest =>
      r ← query_by_renderlayer cam "renderable" layer;
      keep ← filter_renderable layer rest;
      mret (if truthy r then cam :: keep else keep)
  end.

End Resolver.

(** ** Listing commands over the DAG *)

(** The nodes a listing command works on: the named ones, or every node
    when it is given no name. *)
Definition dag_select (nodes : list string) (s : Scene) : list DagNode :=
  match nodes with
  | [] => dag s
  | _ => nodes ≫= λ n, filter (λ d, dag_path d = n) (dag s)
  end.

(** [cmds.ls(nodes, long=True)] *)
Definition ls_long (nodes : list string) (s : Scene) : list string :=
  dag_path <$> dag_select nodes s.

(** [cmds.ls(nodes, type=ty, long=True)], with [noIntermediate=True] when
    [noIntermediate] is set. *)
Definition ls_type (nodes : list string) (ty : string) (noIntermediate : bool)
    (s : Scene) : list string :=
  dag_path <$>
    filter (λ d, dag_type d = ty ∧ (noIntermediate → dag_intermediate d = false))
           (dag_select nodes s).

(** A listing command answers [None] rather than an empty list. *)
Definition none_if_empty {A} (l : list A) : option (list A) :=
  match l with [] => None | _ => Some l end.

(** The objects a command works on: the selection when it is given none. *)
Definition targets (nodes : list string) (s : Scene) : list string :=
  match nodes with [] => selection s | _ => nodes end.

(** [cmds.listRelatives(nodes, allDescendents=True)]: the nodes below
    [n] are those whose full path extends [n]. *)
Definition listRelatives_allDescendents (nodes : list string) (s : Scene)
    : option (list string) :=
  none_if_empty
    (targets nodes s ≫= λ n,
       dag_path <$> filter (λ d, startswith (n +:+ "|") (dag_path d)) (dag s)).

(** The full path of the parent of the node at [path], if it has one. *)
Definition parent_path (path : string) : option string :=
  match rsplit_head "|" path with
  | Some EmptyString => None
  | r => r
  end.

(** [cmds.listRelatives(nodes, parent=True, fullPath=True)] *)
Definition listRelatives_parent (nodes : list string) (s : Scene)
    : option (list string) :=
  none_if_empty (targets nodes s ≫= λ n, option_list (parent_path n)).

(** ** Publish instances and the publish context *)

(** A pyblish instance: a list of member nodes with a name and a [data]
    dictionary. *)
Record Instance : Type := {
  name : string;
  members : list string;
  data : gmap string value;
}.

Record Context : Type := {
  instances : list Instance;
  cdata : gmap string value;
}.

(** [instance.data[k] = v] *)
Definition data_set (k : string) (v : value) : SE Instance () := λ i,
  ({| name := name i; members := members i; data := <[k:=v]> (data i) |}, Ok ()).

(** [instance.data[k]] *)
Definition data_get (k : string) : SE Instance value := λ i,
  (i, match data i !! k with Some v => Ok v | None => Raise (KeyError k) end).

(** [instance.data.update(d)] *)
Definition data_update (d : gmap string value) : SE Instance () := λ i,
  ({| name := name i; members := members i; data := d ∪ data i |}, Ok ()).

(** [instance[:]] *)
Definition get_members : SE Instance (list string) := λ i, (i, Ok (members i)).

(** [instance[:] = l] *)
Definition set_members (l : list string) : SE Instance () := λ i,
  ({| name := name i; members := l; data := data i |}, Ok ()).

(** [instance += l] *)
Definition extend_members (l : list string) : SE Instance () := λ i,
  ({| name := name i; members := members i ++ l; data := data i |}, Ok ()).

(** [instance.name] *)
Definition get_name : SE Instance string := λ i, (i, Ok (name i)).

(** [context.data[k] = v] and [context.data[k]] *)
Definition cdata_set (k : string) (v : value) : SE Context () := λ c,
  ({| instances := instances c; cdata := <[k:=v]> (cdata c) |}, Ok ()).
Definition cdata_get (k : string) : SE Context value := λ c,
  (c, match cdata c !! k with Some v => Ok v | None => Raise (KeyError k) end).

(** [d[k]] on a plain dictionary. *)
Definition dict_get (d : gmap string value) (k : string) : result value :=
  match d !! k with Some v => Ok v | None => Raise (KeyError k) end.

(** ** Python operators on values *)

(** ["literal" + v] *)
Definition str_add (lit : string) (v : value) : result value :=
  match v with
  | VStr t => Ok (VStr (lit +:+ t))
  | _ => Raise (TypeError "cannot concatenate 'str' and non-str objects")
  end.

(** [v += t] for a string [t]: strings are concatenated, a list is
    extended with the characters of [t]. *)
Definition iadd_str (v : value) (t : string) : result value :=
  match v with
  | VStr u => Ok (VStr (u +:+ t))
  | VList l => Ok (VList (l ++ ((λ c, VStr (String c EmptyString)) <$>
                                  list_ascii_of_string t)))
  | _ => Raise (TypeError "unsupported operand type(s) for +=")
  end.

(** [len(v)] *)
Definition py_len (v : value) : result nat :=
  match v with
  | VStr t => Ok (String.length t)
  | VList l => Ok (length l)
  | VDict d => Ok (length d)
  | _ => Raise (TypeError "object has no len()")
  end.

(** [v >= q] for a number [q], with Python 2's ordering of unlike types:
    [None] below the numbers, the numbers below everything else. *)
Definition ge_number (v : value) (q : Q) : bool :=
  match v with
  | VNone => false
  | VBool b => Qle_bool q (if b then 1 else 0)
  | VInt z => Qle_bool q (inject_Z z)
  | VFloat x => Qle_bool q x
  | VStr _ | VList _ | VDict _ => true
  end.

(** [d[k] = v] on an [OrderedDict]: a key keeps the place of its first
    insertion. *)
Fixpoint odict_set (k : string) (v : value) (d : list (string * value))
    : list (string * value) :=
  match d with
  | [] => [(k, v)]
  | (k', v') :: d' =>
      if String.eqb k' k then (k', v) :: d' else (k', v') :: odict_set k v d'
  end.

(** [sorted(l, key=key)]: Python's sort is stable; insertion from the right
    keeps equal keys in their order of arrival. *)
Fixpoint insert_by {A} (key : A → Z) (x : A) (l : list A) : list A :=
  match l with
  | [] => [x]
  | y :: l' => if (key x <=? key y)%Z then x :: y :: l' else y :: insert_by key x l'
  end.

Fixpoint sorted {A} (key : A → Z) (l : list A) : list A :=
  match l with
  | [] => []
  | x :: l' => insert_by key x (sorted key l')
  end.

(** ** [collect_renderlayers.py] *)

(** [publish_on_lock(instance)]: block the instance if the scene is not
    locked. *)
Definition publish_on_lock : SE (Scene * Instance) () :=
  locked ← on_fst (query is_locked);
  if negb locked then
    on_snd (data_set "optional" (VBool false));;
    on_snd (data_set "publish" (VBool false))
  else mret ().

(** [set_extraction_type(instance)] *)
Definition set_extraction_type : SE (Scene * Instance) () :=
  paths ← on_snd (data_get "outputPaths");
  n ← lift (py_len paths);
  if (1 <? n)%nat then on_snd (data_set "extractType" (VStr "imageSequenceSet"))
  else on_snd (data_set "extractType" (VStr "imageSequence")).

(** The contractor assignment shared by the three variants. *)
Definition assign_contractor (contractor : string) : SE (Scene * Instance) () :=
  enable ← on_snd (data_get "deadlineEnable");
  if truthy enable then
    on_snd (data_set "useContractor" (VBool true));;
    on_snd (data_set "publishContractor" (VStr contractor))
  else mret ().

(** [hierarchy = instance[:]] then
    [hierarchy += cmds.listRelatives(instance, allDescendents=True)]:
    adding [None] to a list raises. *)
Definition instance_hierarchy : SE (Scene * Instance) (list string) :=
  hierarchy ← on_snd get_members;
  below ← on_fst (query (listRelatives_allDescendents hierarchy));
  match below with
  | Some l => mret (hierarchy ++ l)
  | None => raise (TypeError "'NoneType' object is not iterable")
  end.

Section Collector.
Context (env : PyEnv).

(** [self.get_render_attr(attr, layer)] *)
Definition get_render_attr (attr layer : string) : Maya value :=
  query_by_renderlayer env "defaultRenderGlobals" attr layer.

Definition pipeline_attrs : list string :=
  ["asset"; "subset"; "renderType"; "deadlineEnable"; "deadlinePool";
   "deadlineGroup"; "deadlinePriority"].

(** The dictionary comprehension of [get_pipeline_attr], over the keys
    still to be queried. *)
Fixpoint query_attrs (node layer : string) (keys : list string)
    : Maya (gmap string value) :=
  match keys with
  | [] => mret ∅
  | k :: rest =>
      v ← query_by_renderlayer env node k layer;
      d ← query_attrs node layer rest;
      mret (<[k:=v]> d)
  end.

(** [self.get_pipeline_attr(layer)]; [self.instance_node] is what the
    placeholder instance held under ["objectName"], and joining anything
    but a string to ["."] raises once the layer has been looked up. *)
Definition get_pipeline_attr (instance_node : value) (layer : string)
    : Maya (gmap string value) :=
  match instance_node with
  | VStr node => query_attrs node layer pipeline_attrs
  | _ =>
      found ← query (ls_renderLayer layer);
      match found with
      | [] => raise (ValueError ("RenderLayer not exists: " +:+ layer))
      | _ :: _ => raise (TypeError "unsupported operand type(s) for +")
      end
  end.

(** [lib.ls_renderable_cameras(layer)] *)
Definition ls_renderable_cameras (layer : string) : Maya (list string) :=
  layer' ← (if String.eqb layer "" then query currentRenderLayer else mret layer);
  cams ← query (ls_type [] "camera" false);
  filter_renderable env layer' cams.

(** The channel names the renderer of the instance reports. *)
Definition aov_names_of (renderer layer : value) (s : Scene) : list string :=
  match renderer with
  | VStr r =>
      if String.eqb r "vray" then get_vray_element_names env s layer
      else if String.eqb r "arnold" then get_arnold_aov_names env s layer
      else []
  | _ => []
  end.

(** The [for aov in aov_names] loop of [collect_output_paths]. *)
Fixpoint compose_paths (s : Scene) (layer output_dir : value)
    (aov_names : list string) (paths : list (string * value))
    : result (list (string * value)) :=
  match aov_names with
  | [] => Ok paths
  | aov :: rest =>
      let output_prefix := compose_render_filename env s layer (Some aov) in
      match output_dir with
      | VStr dir =>
          let output_path := dir +:+ "/" +:+ output_prefix in
          compose_paths s layer output_dir rest
            (odict_set aov (VStr (replace_backslash output_path)) paths)
      | _ => Raise (TypeError "unsupported operand type(s) for +")
      end
  end.

(** [self.collect_output_paths(instance)]; [cdata] is
    [instance.context.data]. *)
Definition collect_output_paths (cdata : gmap string value)
    : SE (Scene * Instance) () :=
  renderer ← on_snd (data_get "renderer");
  layer ← on_snd (data_get "renderlayer");
  aov_names ← on_fst (query (aov_names_of renderer layer));
  let aov_names := aov_names ++ [""] in
  output_dir ← lift (dict_get cdata "outputDir");
  paths ← on_fst (λ s, (s, compose_paths s layer output_dir aov_names []));
  on_snd (data_set "outputPaths" (VDict paths)).

(** The cameras of the instance that are renderable in the layer; the two
    lists are intersected as sets. *)
Definition collect_renderable_cameras (layer : string)
    : SE (Scene * Instance) () :=
  hierarchy ← instance_hierarchy;
  instance_cam ← on_fst (query (ls_type hierarchy "camera" false));
  renderable_cam ← on_fst (ls_renderable_cameras layer);
  let render_cam :=
    elements ((list_to_set instance_cam : gset string) ∩ list_to_set renderable_cam) in
  on_snd (data_set "renderCam" (VStrs render_cam)).

(** [instance.data["subset"] += "." + instance.name] *)
Definition update_subset : SE (Scene * Instance) () :=
  subset ← on_snd (data_get "subset");
  layername ← on_snd get_name;
  subset' ← lift (iadd_str subset ("." +:+ layername));
  on_snd (data_set "subset" subset').

Definition process_playblast (cdata : gmap string value) (layer : string)
    : SE (Scene * Instance) () :=
  on_snd (data_set "families" (VStrs ["reveries.imgseq.playblast"]));;
  on_snd (data_set "category" (VStr "Playblast"));;
  publish_on_lock;;
  assign_contractor "deadline.maya.script";;
  hierarchy ← instance_hierarchy;
  cams ← on_fst (query (ls_type hierarchy "camera" false));
  on_snd (data_set "renderCam" (VStrs cams)).

Definition process_turntable (cdata : gmap string value) (layer : string)
    : SE (Scene * Instance) () :=
  update_subset;;
  on_snd (data_set "families" (VStrs ["reveries.imgseq.turntable"]));;
  renderer ← on_snd (data_get "renderer");
  category ← lift (str_add "Turntable: " renderer);
  on_snd (data_set "category" category);;
  publish_on_lock;;
  assign_contractor "deadline.maya.render";;
  collect_renderable_cameras layer;;
  collect_output_paths cdata;;
  set_extraction_type.

Definition process_batchrender (cdata : gmap string value) (layer : string)
    : SE (Scene * Instance) () :=
  update_subset;;
  on_snd (data_set "families" (VStrs ["reveries.imgseq.batchrender"]));;
  renderer ← on_snd (data_get "renderer");
  category ← lift (str_add "Render: " renderer);
  on_snd (data_set "category" category);;
  assign_contractor "deadline.maya.render";;
  collect_renderable_cameras layer;;
  collect_output_paths cdata;;
  set_extraction_type.

(** [getattr(self, "process_" + instance.data["renderType"])]: the class
    has the three methods above under that prefix and no other. *)
Definition getattr_process (renderType : value)
    : result (gmap string value → string → SE (Scene * Instance) ()) :=
  match renderType with
  | VStr t =>
      if String.eqb t "playblast" then Ok process_playblast
      else if String.eqb t "turntable" then Ok process_turntable
      else if String.eqb t "batchrender" then Ok process_batchrender
      else Raise (AttributeError
        ("'CollectRenderlayers' object has no attribute 'process_" +:+ t +:+ "'"))
  | _ => Raise (TypeError "cannot concatenate 'str' and non-str objects")
  end.

(** The part of [process] under the comment "Collect renderlayer members"
    and "Collect all meshes, for building dependency connections". *)
Definition collect_members (layer : string) : SE (Scene * Instance) () :=
  members ← on_fst (query (λ s, or_nil (renderLayerMembers s layer)));
  long ← on_fst (query (ls_long members));
  on_snd (data_set "renderLayerMember" (VStrs long));;
  descendent ← on_fst (query (λ s, or_nil (listRelatives_allDescendents members s)));
  let members := members ++ descendent in
  meshes ← on_fst (query (ls_type members "mesh" true));
  transforms ← on_fst (query (λ s, or_nil (listRelatives_parent meshes s)));
  on_snd (extend_members transforms).

(** What [process] does with the instance it has just created. *)
Definition fill_instance (cdata : gmap string value)
    (dummy_members : list string) (data : gmap string value) (layer : string)
    : SE (Scene * Instance) () :=
  on_snd (set_members dummy_members);;
  on_snd (data_update data);;
  on_snd (data_set "dependencies" (VDict []));;
  on_snd (data_set "futureDependencies" (VDict []));;
  on_snd (data_set "_privilege_on_lock" (VBool true));;
  on_snd (data_set "family" (VStr "reveries.imgseq"));;
  on_snd (data_set "families" (VList []));;
  renderType ← on_snd (data_get "renderType");
  variate ← lift (getattr_process renderType);
  variate cdata layer;;
  collect_members layer.

(** The instance [context.create_instance(name)] makes. *)
Definition new_instance (layername : string) : Instance :=
  {| name := layername; members := []; data := ∅ |}.

(** [instance = context.create_instance(name)] followed by the statements
    that work on [instance]: the instance is in the context from its
    creation on, with whatever has been done to it when a statement raises. *)
Definition create_instance {A} (layername : string)
    (body : gmap string value → SE (Scene * Instance) A)
    : SE (Scene * Context) A := λ st,
  let '((s', i), r) :=
    body (cdata st.2) (st.1, new_instance layername) in
  ((s', {| instances := instances st.2 ++ [i]; cdata := cdata st.2 |}), r).

(** [layername] as chosen for a layer. *)
Definition layername_of (layer : string) : string :=
  if endswith "defaultRenderLayer" layer then "masterLayer" else layer.

(** The body of the [for layer in sorted(...)] loop. *)
Definition process_layer (instance_node : value) (dummy_members : list string)
    (valid_layers : gset string) (layer : string) : SE (Scene * Context) () :=
  if decide (layer ∈ valid_layers) then
    let layername := layername_of layer in
    renderer ← on_fst (get_render_attr "currentRenderer" layer);
    name_preview ← on_fst (query (λ s, compose_render_filename env s (VStr layer) None));
    let ext := os_path_ext env name_preview in
    startFrame ← on_fst (get_render_attr "startFrame" layer);
    endFrame ← on_fst (get_render_attr "endFrame" layer);
    byFrameStep ← on_fst (get_render_attr "byFrameStep" layer);
    fileNamePrefix ← on_fst (query (λ s, get_render_filename_prefix env s layer));
    let data : gmap string value :=
      <["renderlayer" := VStr layer]> (
      <["startFrame" := startFrame]> (
      <["endFrame" := endFrame]> (
      <["byFrameStep" := byFrameStep]> (
      <["renderer" := renderer]> (
      <["fileNamePrefix" := fileNamePrefix]> (
      <["fileExt" := VStr ext]> ∅)))))) in
    pipeline ← on_fst (get_pipeline_attr instance_node layer);
    let data := pipeline ∪ data in
    create_instance layername (λ cdata, fill_instance cdata dummy_members data layer)
  else mret ().

Fixpoint for_layers (instance_node : value) (dummy_members : list string)
    (valid_layers : gset string) (layers : list string)
    : SE (Scene * Context) () :=
  match layers with
  | [] => mret ()
  | layer :: rest =>
      process_layer instance_node dummy_members valid_layers layer;;
      for_layers instance_node dummy_members valid_layers rest
  end.

(** [family in self.families], with [families = ["reveries.imgseq"]]. *)
Definition in_families (family : value) : bool :=
  match family with
  | VStr f => String.eqb f "reveries.imgseq"
  | _ => false
  end.

(** "Remove all dummy imgseq instances": the loop over [list(context)];
    [kept] are the instances passed over so far. *)
Fixpoint remove_dummies (todo kept : list Instance) (instance_node : value)
    (dummy_members : list string)
    : list Instance * result (value * list string) :=
  match todo with
  | [] => (kept, Ok (instance_node, dummy_members))
  | instance :: rest =>
      match data instance !! "family" with
      | None => (kept ++ instance :: rest, Raise (KeyError "family"))
      | Some family =>
          if in_families family then
            remove_dummies rest kept
              (default VNone (data instance !! "objectName")) (members instance)
          else remove_dummies rest (kept ++ [instance]) instance_node dummy_members
      end
  end.

Definition remove_dummy_instances : SE Context (value * list string) := λ c,
  let '(kept, r) := remove_dummies (instances c) [] VNone [] in
  ({| instances := kept; cdata := cdata c |}, r).

(** The layers the loop runs over, before they are sorted. *)
Definition renderlayers (s : Scene) : list string :=
  filter (λ i, renderable s i ∧ ¬ isNodeReferenced s i) (renderLayers s).

(** [CollectRenderlayers.process(context)] *)
Definition process : SE (Scene * Context) () :=
  '(instance_node, dummy_members) ← on_snd remove_dummy_instances;
  match instance_node with
  | VNone => raise (AssertionError "This is a bug.")
  | _ =>
      connected_layers ← on_fst (query (λ s, or_nil (renderLayerManager_links s)));
      let valid_layers : gset string := list_to_set connected_layers in
      workspace ← on_snd (cdata_get "workspaceDir");
      outputDir ← lift (os_path_join env workspace "renders");
      on_snd (cdata_set "outputDir" (VStr outputDir));;
      on_snd (cdata_set "_has_privileged_instance" (VBool true));;
      on_snd (cdata_set "hasRenderLayers" (VBool (1 <? size valid_layers)%nat));;
      mayaVersion ← on_snd (cdata_get "mayaVersion");
      (if ge_number mayaVersion 2016.5 then
         setup ← on_fst (query mayaHasRenderSetup);
         on_snd (cdata_set "usingRenderSetup" (VBool setup))
       else on_snd (cdata_set "usingRenderSetup" (VBool false)));;
      layers ← on_fst (query (λ s, sorted (displayOrder s) (renderlayers s)));
      for_layers instance_node dummy_members valid_layers layers
  end.

End Collector.

(** ** Reasoning about computations *)

(** [post m st Q]: running [m] from [st] ends in a state and an outcome
    that satisfy [Q]. *)
Definition post {St A} (m : SE St A) (st : St) (Q : St → result A → Prop) : Prop :=
  Q (m st).1 (m st).2.

(** A computation that never changes the state. *)
Definition pure {St A} (m : SE St A) : Prop := ∀ st, (m st).1 = st.


(** ** A session to run the collector on

    Three publishable layers with display orders 3, 1 and 2, one layer
    that is not linked to the layer manager, one that is referenced and
    one that is not renderable; the master layer is active. The
    [renderType] of the placeholder set is overridden per layer. *)

(** Look [k] up in a table of answers. *)
Fixpoint table_get {A} (d : A) (t : list (string * A)) (k : string) : A :=
  match t with
  | [] => d
  | (k', a) :: t' => if String.eqb k' k then a else table_get d t' k
  end.

(** Python's [bool(v)]. *)
Definition py_bool (v : value) : value := VBool (truthy v).

Definition example_env : PyEnv := {|
  py_eval := λ name, if String.eqb name "bool" then Some py_bool else None;
  os_path_join := λ a b,
    match a with
    | VStr a => Ok (a +:+ "/" +:+ b)
    | _ => Raise (TypeError "join() argument must be str")
    end;
  os_path_ext := λ _, ".exr";
  compose_render_filename := λ _ layer aov,
    let l := match layer with VStr l => l | _ => "" end in
    match aov with
    | Some (String c a) => l +:+ "\" +:+ l +:+ "." +:+ String c a +:+ ".####.exr"
    | _ => l +:+ "\" +:+ l +:+ ".####.exr"
    end;
  get_render_filename_prefix := λ _ _, VStr "<RenderLayer>\<RenderLayer>";
  get_vray_element_names := λ _ _, [];
  get_arnold_aov_names := λ _ _, ["diffuse"; "specular"];
|}.

Definition example_values : list (string * value) :=
  [ ("defaultRenderGlobals.currentRenderer", VStr "arnold");
    ("defaultRenderGlobals.startFrame", VInt 1);
    ("defaultRenderGlobals.endFrame", VInt 24);
    ("defaultRenderGlobals.byFrameStep", VInt 1);
    ("imgseq_SET.asset", VStr "hero");
    ("imgseq_SET.subset", VStr "imgseqDefault");
    ("imgseq_SET.renderType", VStr "playblast");
    ("imgseq_SET.deadlineEnable", VBool true);
    ("imgseq_SET.deadlinePool", VStr "none");
    ("imgseq_SET.deadlineGroup", VStr "none");
    ("imgseq_SET.deadlinePriority", VInt 80);
    ("|cam|camShape.renderable", VBool true);
    ("|persp|perspShape.renderable", VBool false);
    ("defaultRenderLayer.adjustments[0].value", VStr "playblast");
    ("beauty.adjustments[0].value", VStr "batchrender");
    ("preview.adjustments[0].value", VStr "turntable");
    ("stale.adjustments[0].value", VStr "render");
    ("defaultRenderLayer.adjustments[1].value", VFloat 0);
    ("beauty.adjustments[1].value", VFloat 1) ].

Definition example_session (layers links : list string) : Scene := {|
  objExists := λ plug, bool_decide (plug ∈ example_values.*1);
  renderable := λ layer, negb (String.eqb layer "off");
  displayOrder := table_get 0%Z
    [("beauty", 3%Z); ("defaultRenderLayer", 1%Z); ("preview", 2%Z);
     ("stale", 4%Z); ("ref:shot", 5%Z); ("off", 6%Z)];
  getAttr_asString := table_get VNone example_values;
  getAttr_type := table_get "string"
    [("imgseq_SET.renderType", "enum"); ("imgseq_SET.deadlineEnable", "bool");
     ("|cam|camShape.renderable", "bool"); ("|persp|perspShape.renderable", "bool")];
  renderLayer_plugs := table_get None
    [("imgseq_SET.renderType",
      Some ["defaultRenderLayer.adjustments[0].plug"; "beauty.adjustments[0].plug";
            "preview.adjustments[0].plug"; "stale.adjustments[0].plug"]);
     ("|persp|perspShape.renderable",
      Some ["defaultRenderLayer.adjustments[1].plug"; "beauty.adjustments[1].plug"])];
  renderLayerManager_links := Some links;
  renderLayers := layers;
  currentRenderLayer := "defaultRenderLayer";
  isNodeReferenced := λ node, String.eqb node "ref:shot";
  renderLayerMembers := λ _, Some ["|grp"];
  dag :=
    [ {| dag_path := "|grp"; dag_type := "transform"; dag_intermediate := false |};
      {| dag_path := "|grp|sub"; dag_type := "transform"; dag_intermediate := false |};
      {| dag_path := "|grp|sub|bodyShape"; dag_type := "mesh"; dag_intermediate := false |};
      {| dag_path := "|grp|sub|bodyShapeOrig"; dag_type := "mesh"; dag_intermediate := true |};
      {| dag_path := "|grp|sub|eyeShape"; dag_type := "mesh"; dag_intermediate := false |};
      {| dag_path := "|cam"; dag_type := "transform"; dag_intermediate := false |};
      {| dag_path := "|cam|camShape"; dag_type := "camera"; dag_intermediate := false |};
      {| dag_path := "|persp"; dag_type := "transform"; dag_intermediate := false |};
      {| dag_path := "|persp|perspShape"; dag_type := "camera"; dag_intermediate := false |} ];
  selection := [];
  is_locked := false;
  mayaHasRenderSetup := false;
|}.

Definition example_scene : Scene :=
  example_session
    ["beauty"; "defaultRenderLayer"; "preview"; "stale"; "ref:shot"; "off"]
    ["defaultRenderLayer"; "beauty"; "preview"; "ref:shot"; "off"].

(** The same session after a scene was imported under the namespace
    [shot]: the default layer of that scene came along as an ordinary
    layer of this one. *)
Definition imported_scene : Scene :=
  example_session
    ["defaultRenderLayer"; "shot:defaultRenderLayer"]
    ["defaultRenderLayer"; "shot:defaultRenderLayer"].

(** The context before the collector runs: the placeholder instance made
    for the [imgseq_SET] object set, next to an instance of another
    family. *)
Definition example_context : Context := {|
  instances :=
    [ {| name := "modelDefault"; members := ["|grp"];
         data := {[ "family" := VStr "reveries.model" ]} |};
      {| name := "imgseqDefault"; members := ["|cam"];
         data := {[ "family" := VStr "reveries.imgseq";
                    "objectName" := VStr "imgseq_SET" ]} |} ];
  cdata := {[ "workspaceDir" := VStr "/proj"; "mayaVersion" := VInt 2018 ]};
|}.

(** ** What a step leaves alone *)

(** The session, the name and the members of the instance, and what its
    [data] holds under the key [k]. *)
Definition frame (s : Scene) (n : string) (mm : list string) (k : string)
    (x : option value) (st : Scene * Instance) : Prop :=
  st.1 = s ∧ name st.2 = n ∧ members st.2 = mm ∧ data st.2 !! k = x.

(** [keeps K m]: [m] writes no key of [data] outside [K] and nothing else. *)
Definition keeps {A} (K : list string) (m : SE (Scene * Instance) A) : Prop :=
  ∀ k, k ∉ K → ∀ s n mm x st, frame s n mm k x st → frame s n mm k x (m st).1.

(** The keys of [instance.data] the variants assign. *)
Definition batchrender_keys : list string :=
  ["subset"; "families"; "category"; "useContractor"; "publishContractor";
   "renderCam"; "outputPaths"; "extractType"].
Definition playblast_keys : list string :=
  ["families"; "category"; "optional"; "publish"; "useContractor";
   "publishContractor"; "renderCam"].
Definition turntable_keys : list string :=
  ["optional"; "publish"] ++ batchrender_keys.

(** The transforms [collect_members] adds to the instance of [layer]. *)
Definition dependency_transforms (layer : string) (s : Scene) : list string :=
  let members := or_nil (renderLayerMembers s layer) in
  let descendent := or_nil (listRelatives_allDescendents members s) in
  let meshes := ls_type (members ++ descendent) "mesh" true s in
  or_nil (listRelatives_parent meshes s).

(** The settings gathered for the turntable layer of the example session,
    as [process] hands them to the instance it creates. *)
Definition example_turntable_data : gmap string value :=
  {[ "renderlayer" := VStr "preview"; "renderer" := VStr "arnold";
     "subset" := VStr "imgseqDefault"; "renderType" := VStr "turntable";
     "deadlineEnable" := VBool false ]}.

(** ** What a collection pass is expected to leave *)

(** The layers linked to the render-layer manager. *)
Definition valid_layers (s : Scene) : gset string :=
  list_to_set (or_nil (renderLayerManager_links s)).

(** A layer that is published: linked to the manager, renderable, and not
    from a reference. *)
Definition eligible (s : Scene) (layer : string) : Prop :=
  layer ∈ valid_layers s ∧ renderable s layer ∧ ¬ isNodeReferenced s layer.

(** The layers that get an instance, in the order of the loop. *)
Definition expected_layers (s : Scene) : list string :=
  filter (λ l, l ∈ valid_layers s) (sorted (displayOrder s) (renderlayers s)).

(** The instances in the context that are not placeholders. *)
Definition kept_instances (c : Context) : list Instance :=
  (remove_dummies (instances c) [] VNone []).1.

(** The layer an instance was made for, read from its [data]. *)
Definition renderlayer_of (i : Instance) : option string :=
  match data i !! "renderlayer" with
  | Some (VStr layer) => Some layer
  | _ => None
  end.

(** The instance [i] was created for [layer]. *)
Definition made_from (layer : string) (i : Instance) : Prop :=
  name i = layername_of layer ∧ renderlayer_of i = Some layer.

Definition known_render_types : list string :=
  ["playblast"; "turntable"; "batchrender"].

(** The instance [i] of [layer] went through all of the loop body. *)
Definition finished (env : PyEnv) (s : Scene) (instance_node : value)
    (dummy_members : list string) (layer : string) (i : Instance) : Prop :=
  members i = dummy_members ++ dependency_transforms layer s ∧
  ∃ node t, instance_node = VStr node ∧
    (query_by_renderlayer env node "renderType" layer s).2 = Ok (VStr t) ∧
    t ∈ known_render_types.

(** The keys [fill_instance] assigns, whatever the variant. *)
Definition fill_keys : list string :=
  ["dependencies"; "futureDependencies"; "_privilege_on_lock"; "family";
   "families"; "renderLayerMember"] ++ turntable_keys.


(** ** The pass, step by step *)

(** [context.data] as [process] has set it when the loop starts. *)
Definition pass_cdata (s : Scene) (outputDir : string) (mayaVersion : value)
    (cdata : gmap string value) : gmap string value :=
  <["usingRenderSetup" :=
      VBool (if ge_number mayaVersion 2016.5 then mayaHasRenderSetup s else false)]> (
  <["hasRenderLayers" := VBool (1 <? size (valid_layers s))%nat]> (
  <["_has_privileged_instance" := VBool true]> (
  <["outputDir" := VStr outputDir]> cdata))).

(** The settings [process] gathers for a layer before it creates the
    instance: the dictionary [data] after [data.update(...)]. *)
Definition gather (env : PyEnv) (instance_node : value) (layer : string)
    : Maya (gmap string value) :=
  renderer ← get_render_attr env "currentRenderer" layer;
  name_preview ← query (λ s, compose_render_filename env s (VStr layer) None);
  startFrame ← get_render_attr env "startFrame" layer;
  endFrame ← get_render_attr env "endFrame" layer;
  byFrameStep ← get_render_attr env "byFrameStep" layer;
  fileNamePrefix ← query (λ s, get_render_filename_prefix env s layer);
  pipeline ← get_pipeline_attr env instance_node layer;
  mret (pipeline ∪
        (<["renderlayer" := VStr layer]> (
         <["startFrame" := startFrame]> (
         <["endFrame" := endFrame]> (
         <["byFrameStep" := byFrameStep]> (
         <["renderer" := renderer]> (
         <["fileNamePrefix" := fileNamePrefix]> (
         <["fileExt" := VStr (os_path_ext env name_preview)]> ∅)))))))).

(** The keys of [instance.data] the pass takes from the render globals. *)
Definition render_attrs : list (string * string) :=
  [("renderer", "currentRenderer"); ("startFrame", "startFrame");
   ("endFrame", "endFrame"); ("byFrameStep", "byFrameStep")].

(** [turn env s ctx layer i r]: the turn of the loop for [layer] got to
    create an instance, and left it as [i] with the outcome [r]. *)
Definition turn (env : PyEnv) (s : Scene) (ctx : Context) (layer : string)
    (i : Instance) (r : result ()) : Prop :=
  ∃ instance_node dummy_members workspace outputDir mayaVersion d,
    (remove_dummies (instances ctx) [] VNone []).2 = Ok (instance_node, dummy_members) ∧
    cdata ctx !! "workspaceDir" = Some workspace ∧
    os_path_join env workspace "renders" = Ok outputDir ∧
    cdata ctx !! "mayaVersion" = Some mayaVersion ∧
    layer ∈ valid_layers s ∧
    (gather env instance_node layer s).2 = Ok d ∧
    fill_instance env (pass_cdata s outputDir mayaVersion (cdata ctx)) dummy_members d
      layer (s, new_instance (layername_of layer)) = ((s, i), r).

(** A placeholder: an instance of the family the collector replaces. *)
Definition is_dummy (i : Instance) : bool :=
  match data i !! "family" with
  | Some family => in_families family
  | None => false
  end.

(** ** What the variants leave in [instance.data] *)

(** [data] after the contractor assignment of a variant. *)
Definition with_contractor (enable : value) (contractor : string)
    (d : gmap string value) : gmap string value :=
  if truthy enable then
    <["publishContractor" := VStr contractor]> (<["useContractor" := VBool true]> d)
  else d.

(** [data] after [publish_on_lock]. *)
Definition with_lock (s : Scene) (d : gmap string value) : gmap string value :=
  if is_locked s then d
  else <["publish" := VBool false]> (<["optional" := VBool false]> d).

(** [data] as [fill_instance] has it when it looks the variant up. *)
Definition with_defaults (d : gmap string value) : gmap string value :=
  <["families" := VList []]> (
  <["family" := VStr "reveries.imgseq"]> (
  <["_privilege_on_lock" := VBool true]> (
  <["futureDependencies" := VDict []]> (
  <["dependencies" := VDict []]> d)))).

(** The layer [ls_renderable_cameras] asks about. *)
Definition camera_layer (layer : string) (s : Scene) : string :=
  if String.eqb layer "" then currentRenderLayer s else layer.

(** The camera [cam] resolves as renderable in [layer]. *)
Definition renders (env : PyEnv) (layer : string) (s : Scene) (cam : string) : bool :=
  match (query_by_renderlayer env cam "renderable" layer s).2 with
  | Ok v => truthy v
  | Raise _ => false
  end.

(** The instance [i] with [d] for its [data]. *)
Definition with_data (i : Instance) (d : gmap string value) : Instance :=
  {| name := name i; members := members i; data := d |}.

(** [data] after the first two assignments of [process_playblast]. *)
Definition playblast_head (d : gmap string value) : gmap string value :=
  <["category" := VStr "Playblast"]> (
  <["families" := VStrs ["reveries.imgseq.playblast"]]> d).

(** [data] after [update_subset] and the two assignments that follow it in
    [process_turntable] and [process_batchrender]. *)
Definition render_head (subset' category : value) (families : string)
    (d : gmap string value) : gmap string value :=
  <["category" := category]> (
  <["families" := VStrs [families]]> (
  <["subset" := subset']> d)).

(** The cameras both of the instance and renderable, as a list. *)
Definition shared_cameras (instance_cam renderable_cam : list string) : list string :=
  elements ((list_to_set instance_cam : gset string) ∩ list_to_set renderable_cam).

(** [data] after the last three steps of [process_turntable] and
    [process_batchrender]. *)
Definition with_outputs (cams : list string) (paths : list (string * value))
    (d : gmap string value) : gmap string value :=
  <["extractType" :=
      VStr (if (1 <? length paths)%nat then "imageSequenceSet" else "imageSequence")]> (
  <["outputPaths" := VDict paths]> (
  <["renderCam" := VStrs cams]> d)).

(** What [collect_members] leaves of the instance [i]. *)
Definition with_members (layer : string) (s : Scene) (i : Instance) : Instance :=
  {| name := name i;
     members := members i ++ dependency_transforms layer s;
     data := <["renderLayerMember" :=
                 VStrs (ls_long (or_nil (renderLayerMembers s layer)) s)]> (data i) |}.

(** The example session with the layer ["stale"] linked to the layer
    manager as well: its render type, ["render"], names no variant. *)
Definition stale_scene : Scene :=
  example_session
    ["beauty"; "defaultRenderLayer"; "preview"; "stale"; "ref:shot"; "off"]
    ["defaultRenderLayer"; "beauty"; "preview"; "stale"; "ref:shot"; "off"].

Lemma post_ret {St A} (a : A) (st : St) Q : Q st (Ok a) → post (mret a) st Q.
Proof. done. Qed.

Lemma post_raise {St A} (e : exn) (st : St) (Q : St → result A → Prop) :
  Q st (Raise e) → post (raise e) st Q.
Proof. done. Qed.

Lemma post_lift {St A} (r : result A) (st : St) Q : Q st r → post (lift r) st Q.
Proof. done. Qed.

Lemma post_query {A} (f : Scene → A) (s : Scene) Q :
  Q s (Ok (f s)) → post (query f) s Q.
Proof. done. Qed.

Lemma post_bind {St A B} (m : SE St A) (f : A → SE St B) (st : St) Q :
  post m st (λ st' r,
    match r with Ok a => post (f a) st' Q | Raise e => Q st' (Raise e) end) →
  post (m ≫= f) st Q.
Proof.
  unfold post, mbind, se_bind. destruct (m st) as [st' [a|e]]; simpl; done.
Qed.

Lemma post_on_fst {S X A} (m : SE S A) (st : S * X) Q :
  post m st.1 (λ s' r, Q (s', st.2) r) → post (on_fst m) st Q.
Proof. unfold post, on_fst. destruct (m st.1) as [s' r]; done. Qed.

Lemma post_on_snd {S X A} (m : SE X A) (st : S * X) Q :
  post m st.2 (λ x' r, Q (st.1, x') r) → post (on_snd m) st Q.
Proof. unfold post, on_snd. destruct (m st.2) as [x' r]; done. Qed.

Lemma post_mono {St A} (m : SE St A) (st : St) (Q Q' : St → result A → Prop) :
  post m st Q → (∀ st' r, Q st' r → Q' st' r) → post m st Q'.
Proof. unfold post. auto. Qed.

Lemma post_pure {St A} (m : SE St A) (st : St) Q :
  pure m → (∀ r, r = (m st).2 → Q st r) → post m st Q.
Proof. intros Hp HQ. unfold post. rewrite Hp. by apply HQ. Qed.

Lemma pure_ret {St A} (a : A) : pure (mret a : SE St A).
Proof. done. Qed.

Lemma pure_raise {St A} (e : exn) : pure (raise e : SE St A).
Proof. done. Qed.

Lemma pure_query {A} (f : Scene → A) : pure (query f).
Proof. done. Qed.

Lemma pure_bind {St A B} (m : SE St A) (f : A → SE St B) :
  pure m → (∀ a, pure (f a)) → pure (m ≫= f).
Proof.
  intros Hm Hf st. unfold mbind, se_bind.
  specialize (Hm st). destruct (m st) as [st' [a|e]]; simpl in *; subst; [apply Hf|done].
Qed.

(** The outcome of a bind of state-preserving computations. *)
Lemma bind_pure_result {St A B} (m : SE St A) (f : A → SE St B) (st : St) :
  pure m →
  ((m ≫= f) st).2 =
    match (m st).2 with Ok a => (f a st).2 | Raise e => Raise e end.
Proof.
  intros Hm. unfold mbind, se_bind. specialize (Hm st).
  destruct (m st) as [st' [a|e]]; simpl in *; by subst.
Qed.

Create HintDb pure discriminated.
#[global] Hint Resolve pure_ret pure_raise pure_query : pure.

(** ** The resolver only asks *)

Section ResolverFacts.
Context (env : PyEnv).

Lemma pure_get_value ty conn : pure (get_value ty conn).
Proof. done. Qed.

Lemma pure_scan_connections ty node_attr layer conns origin :
  pure (scan_connections ty node_attr layer conns origin).
Proof.
  revert origin. induction conns as [|conn rest IH]; intros origin; simpl.
  - by destruct origin.
  - destruct (from_adjustments _ conn).
    + apply pure_bind; [apply pure_get_value | intros v; apply IH].
    + destruct (negb _); [apply IH | apply pure_get_value].
Qed.

Lemma pure_query_by_renderlayer node attr layer :
  pure (query_by_renderlayer env node attr layer).
Proof.
  unfold query_by_renderlayer.
  apply pure_bind; [apply pure_query|]. intros [|x found]; [apply pure_raise|].
  apply pure_bind; [apply pure_query|]. intros present.
  destruct (negb present); [apply pure_raise|].
  apply pure_bind; [apply pure_query|]. intros current.
  destruct (String.eqb layer current); [apply pure_query|].
  apply pure_bind; [done|]. intros ty.
  apply pure_bind; [apply pure_query|]. intros conns.
  apply pure_scan_connections.
Qed.

Lemma pure_filter_renderable layer cams : pure (filter_renderable env layer cams).
Proof.
  induction cams as [|cam rest IH]; simpl; [done|].
  apply pure_bind; [apply pure_query_by_renderlayer|]. intros r.
  apply pure_bind; [apply IH|]. intros keep. apply pure_ret.
Qed.

(** What [query_by_renderlayer] returns, read off the session. *)
Lemma query_by_renderlayer_result node attr layer s :
  (query_by_renderlayer env node attr layer s).2 =
    let node_attr := node +:+ "." +:+ attr in
    match ls_renderLayer layer s with
    | [] => Raise (ValueError ("RenderLayer not exists: " +:+ layer))
    | _ :: _ =>
        if negb (objExists s node_attr) then
          Raise (AttributeError ("Attribute not exists: " +:+ node_attr))
        else if String.eqb layer (currentRenderLayer s) then
          Ok (getAttr_asString s node_attr)
        else
          (scan_connections (default (λ v, v) (py_eval env (getAttr_type s node_attr)))
             node_attr layer (or_nil (renderLayer_plugs s node_attr)) VNone s).2
    end.
Proof.
  unfold query_by_renderlayer, mbind, se_bind, query, type_, raise; simpl.
  destruct (ls_renderLayer layer s); [done|].
  destruct (negb _); [done|]. by destruct (String.eqb _ _).
Qed.

Lemma ls_renderLayer_nil layer s : ls_renderLayer layer s = [] ↔ layer ∉ renderLayers s.
Proof.
  unfold ls_renderLayer. split.
  - intros Hnil Hin.
    assert (layer ∈ filter (λ l, l = layer) (renderLayers s)) as Hf
      by (apply list_elem_of_filter; done).
    rewrite Hnil in Hf. by apply not_elem_of_nil in Hf.
  - intros Hnin. destruct (filter _ _) as [|x l] eqn:Hf; [done|].
    assert (x ∈ filter (λ l, l = layer) (renderLayers s)) as Hx
      by (rewrite Hf; left).
    apply list_elem_of_filter in Hx as [-> Hx]. done.
Qed.

End ResolverFacts.

(** ** The resolver: what it returns *)

Section ResolverClaims.
Context (env : PyEnv).

(** Once the value of the default layer is the only thing left to find:
    no plug of [rest] ends the scan. *)
Lemma scan_no_target ty node_attr layer rest origin s :
  (∀ x, x ∈ rest → from_adjustments "defaultRenderLayer" x = false) →
  (∀ x, x ∈ rest → from_adjustments layer x = false) →
  (scan_connections ty node_attr layer rest origin s).2 =
    match origin with
    | VNone => Ok (getAttr_asString s node_attr)
    | _ => Ok origin
    end.
Proof.
  induction rest as [|x rest IH]; intros Hd Hl; simpl.
  - by destruct origin.
  - rewrite (Hd x) by left. rewrite (Hl x) by left. simpl.
    apply IH; intros y Hy; [apply Hd | apply Hl]; by right.
Qed.



(** C3. The resolver has no side effect and is idempotent: whatever it is
    asked, the session it leaves is the session it found, in particular
    the active render layer is the same, and asking again gives the same
    answer. *)
Theorem query_by_renderlayer_no_side_effect node attr layer s :
  let out := query_by_renderlayer env node attr layer s in
  out.1 = s ∧
  currentRenderLayer out.1 = currentRenderLayer s ∧
  query_by_renderlayer env node attr layer out.1 = out.
Proof.
  simpl. pose proof (pure_query_by_renderlayer env node attr layer s) as Hp.
  rewrite Hp. done.
Qed.


(** C4. Where no plug of any layer's adjustments is connected to the
    attribute, the resolver returns the direct reading of the attribute for
    every existing layer, and that is also what it returns once the queried
    layer has been made the active one. *)
Theorem query_by_renderlayer_no_override node attr layer s :
  layer ∈ renderLayers s →
  objExists s (node +:+ "." +:+ attr) = true →
  (∀ conn l, conn ∈ or_nil (renderLayer_plugs s (node +:+ "." +:+ attr)) →
             from_adjustments l conn = false) →
  let direct := getAttr_asString s (node +:+ "." +:+ attr) in
  (query_by_renderlayer env node attr layer s).2 = Ok direct ∧
  (query_by_renderlayer env node attr layer (set_currentRenderLayer layer s).1).2
    = Ok direct.
Proof.
  intros Hin Hex Hno. simpl. rewrite !query_by_renderlayer_result. simpl.
  assert (ls_renderLayer layer s ≠ []) as Hls by (by rewrite ls_renderLayer_nil; intros ?).
  unfold ls_renderLayer in *. simpl.
  destruct (filter _ (renderLayers s)); [done|].
  rewrite Hex. simpl. rewrite String.eqb_refl. split; [|done].
  destruct (String.eqb layer _); [done|].
  rewrite scan_no_target; [done| |]; intros x Hx; by apply Hno.
Qed.


End ResolverClaims.


(** A boolean override is stored as a float; the resolver hands it back
    as a boolean. *)
Example query_by_renderlayer_bool_example :
  adjustment_value example_scene "beauty.adjustments[1].plug" = VFloat 1 ∧
  (query_by_renderlayer example_env "|persp|perspShape" "renderable" "beauty"
     example_scene).2 = Ok (VBool true).
Proof. by vm_compute. Qed.

(** The start frame has no override on the example session. *)
Lemma query_by_renderlayer_no_override_witness :
  (query_by_renderlayer example_env "defaultRenderGlobals" "startFrame" "preview"
     example_scene).2 = Ok (VInt 1) ∧
  (query_by_renderlayer example_env "defaultRenderGlobals" "startFrame" "preview"
     (set_currentRenderLayer "preview" example_scene).1).2 = Ok (VInt 1).
Proof.
  apply (query_by_renderlayer_no_override example_env
           "defaultRenderGlobals" "startFrame" "preview" example_scene).
  - vm_compute. set_solver.
  - reflexivity.
  - intros conn l Hconn. vm_compute in Hconn. by apply not_elem_of_nil in Hconn.
Defined.


(** ** Frame rules *)

Lemma keeps_mono {A} (K K' : list string) (m : SE (Scene * Instance) A) :
  K ⊆ K' → keeps K m → keeps K' m.
Proof. intros Hsub Hm k Hk. apply Hm. intros Hin. apply Hk, Hsub, Hin. Qed.

Lemma keeps_ret {A} K (a : A) : keeps K (mret a).
Proof. by intros k Hk s n mm x st. Qed.

Lemma keeps_raise {A} K (e : exn) : keeps K (raise e : SE _ A).
Proof. by intros k Hk s n mm x st. Qed.

Lemma keeps_lift {A} K (r : result A) : keeps K (lift r).
Proof. by intros k Hk s n mm x st. Qed.

Lemma keeps_bind {A B} K (m : SE (Scene * Instance) A) (f : A → SE _ B) :
  keeps K m → (∀ a, keeps K (f a)) → keeps K (m ≫= f).
Proof.
  intros Hm Hf k Hk s n mm x st Hst. specialize (Hm k Hk s n mm x st Hst).
  unfold mbind, se_bind. destruct (m st) as [st' [a|e]]; simpl in *; [|done].
  by apply Hf.
Qed.

Lemma keeps_on_fst {A} K (m : Maya A) : pure m → keeps K (on_fst m).
Proof.
  intros Hp k Hk s n mm x [s0 i] Hst. unfold on_fst. simpl.
  specialize (Hp s0). destruct (m s0) as [s' r]. simpl in *. by subst.
Qed.

Lemma keeps_data_get K k' : keeps K (on_snd (data_get k')).
Proof. by intros k Hk s n mm x [s0 i]. Qed.

Lemma keeps_get_members K : keeps K (on_snd get_members).
Proof. by intros k Hk s n mm x [s0 i]. Qed.

Lemma keeps_get_name K : keeps K (on_snd get_name).
Proof. by intros k Hk s n mm x [s0 i]. Qed.

Lemma keeps_data_set K k' v : k' ∈ K → keeps K (on_snd (data_set k' v)).
Proof.
  intros Hin k Hk s n mm x [s0 i] (? & ? & ? & Hx). repeat split; try done.
  simpl. rewrite lookup_insert_ne; [done|]. intros ->. done.
Qed.

Lemma post_keeps {A} K (m : SE (Scene * Instance) A) k s n mm x st
    (Q : Scene * Instance → result A → Prop) :
  keeps K m → k ∉ K → frame s n mm k x st →
  (∀ st' r, frame s n mm k x st' → Q st' r) → post m st Q.
Proof. intros Hm Hk Hst HQ. apply HQ. by apply (Hm k Hk). Qed.

Ltac solve_keeps :=
  repeat first
    [ apply keeps_ret | apply keeps_raise | apply keeps_lift
    | apply keeps_data_get | apply keeps_get_members | apply keeps_get_name
    | apply keeps_data_set; set_solver
    | apply keeps_on_fst; solve [eauto with pure]
    | apply keeps_bind; [|intros ?]
    | match goal with
      | |- keeps _ (if ?b then _ else _) => destruct b
      | |- keeps _ (match ?x with _ => _ end) => destruct x
      end ].

Lemma keeps_publish_on_lock : keeps ["optional"; "publish"] publish_on_lock.
Proof. unfold publish_on_lock. solve_keeps. Qed.

Lemma keeps_set_extraction_type : keeps ["extractType"] set_extraction_type.
Proof. unfold set_extraction_type. solve_keeps. Qed.

Lemma keeps_assign_contractor c :
  keeps ["useContractor"; "publishContractor"] (assign_contractor c).
Proof. unfold assign_contractor. solve_keeps. Qed.

Lemma keeps_instance_hierarchy : keeps [] instance_hierarchy.
Proof. unfold instance_hierarchy. solve_keeps. Qed.

Section CollectorFrames.
Context (env : PyEnv).

Lemma pure_ls_renderable_cameras layer : pure (ls_renderable_cameras env layer).
Proof.
  unfold ls_renderable_cameras.
  apply pure_bind; [destruct (String.eqb layer ""); auto with pure|]. intros l.
  apply pure_bind; [apply pure_query|]. intros cams. apply pure_filter_renderable.
Qed.

Lemma pure_compose_paths layer output_dir aov_names :
  pure (λ s, (s, compose_paths env s layer output_dir aov_names [])).
Proof. done. Qed.

Lemma keeps_collect_output_paths cdata :
  keeps ["outputPaths"] (collect_output_paths env cdata).
Proof.
  unfold collect_output_paths. pose proof pure_compose_paths. solve_keeps.
Qed.

Lemma keeps_collect_renderable_cameras layer :
  keeps ["renderCam"] (collect_renderable_cameras env layer).
Proof.
  unfold collect_renderable_cameras. pose proof pure_ls_renderable_cameras.
  apply keeps_bind; [apply (keeps_mono []); [set_solver|apply keeps_instance_hierarchy]|].
  intros hierarchy. solve_keeps.
Qed.

Lemma keeps_update_subset : keeps ["subset"] update_subset.
Proof. unfold update_subset. solve_keeps. Qed.

(** What is left of [process_playblast] once the lock has been looked at. *)
Lemma keeps_playblast_tail :
  keeps ["useContractor"; "publishContractor"; "renderCam"]
    (assign_contractor "deadline.maya.script";;
     hierarchy ← instance_hierarchy;
     cams ← on_fst (query (ls_type hierarchy "camera" false));
     on_snd (data_set "renderCam" (VStrs cams))).
Proof.
  apply keeps_bind;
    [eapply keeps_mono; [|apply keeps_assign_contractor]; set_solver|]. intros _.
  apply keeps_bind;
    [eapply keeps_mono; [|apply keeps_instance_hierarchy]; set_solver|]. intros h.
  solve_keeps.
Qed.

(** What is left of [process_turntable] and of [process_batchrender] once
    the category is set and the lock, for the former, has been looked at. *)
Lemma keeps_render_tail cdata layer :
  keeps ["useContractor"; "publishContractor"; "renderCam"; "outputPaths"; "extractType"]
    (assign_contractor "deadline.maya.render";;
     collect_renderable_cameras env layer;;
     collect_output_paths env cdata;;
     set_extraction_type).
Proof.
  apply keeps_bind;
    [eapply keeps_mono; [|apply keeps_assign_contractor]; set_solver|]. intros _.
  apply keeps_bind;
    [eapply keeps_mono; [|apply keeps_collect_renderable_cameras]; set_solver|]. intros _.
  apply keeps_bind;
    [eapply keeps_mono; [|apply keeps_collect_output_paths]; set_solver|]. intros _.
  eapply keeps_mono; [|apply keeps_set_extraction_type]; set_solver.
Qed.

Lemma keeps_process_playblast cdata layer :
  keeps playblast_keys (process_playblast cdata layer).
Proof.
  unfold process_playblast, playblast_keys.
  apply keeps_bind; [solve_keeps|]. intros _.
  apply keeps_bind; [solve_keeps|]. intros _.
  apply keeps_bind;
    [eapply keeps_mono; [|apply keeps_publish_on_lock]; set_solver|]. intros _.
  eapply keeps_mono; [|apply keeps_playblast_tail]; set_solver.
Qed.

Lemma keeps_process_batchrender cdata layer :
  keeps batchrender_keys (process_batchrender env cdata layer).
Proof.
  unfold process_batchrender, batchrender_keys.
  apply keeps_bind;
    [eapply keeps_mono; [|apply keeps_update_subset]; set_solver|]. intros _.
  apply keeps_bind; [solve_keeps|]. intros _.
  apply keeps_bind; [solve_keeps|]. intros renderer.
  apply keeps_bind; [solve_keeps|]. intros category.
  apply keeps_bind; [solve_keeps|]. intros _.
  eapply keeps_mono; [|apply keeps_render_tail]; set_solver.
Qed.

Lemma keeps_process_turntable cdata layer :
  keeps turntable_keys (process_turntable env cdata layer).
Proof.
  unfold process_turntable, turntable_keys, batchrender_keys.
  apply keeps_bind;
    [eapply keeps_mono; [|apply keeps_update_subset]; set_solver|]. intros _.
  apply keeps_bind; [solve_keeps|]. intros _.
  apply keeps_bind; [solve_keeps|]. intros renderer.
  apply keeps_bind; [solve_keeps|]. intros category.
  apply keeps_bind; [solve_keeps|]. intros _.
  apply keeps_bind;
    [eapply keeps_mono; [|apply keeps_publish_on_lock]; set_solver|]. intros _.
  eapply keeps_mono; [|apply keeps_render_tail]; set_solver.
Qed.

(** Every variant leaves the session, the name, the members and the keys
    it does not assign as they are. *)
Lemma keeps_variate renderType variate cdata layer :
  getattr_process env renderType = Ok variate →
  keeps turntable_keys (variate cdata layer).
Proof.
  unfold getattr_process. destruct renderType as [| | | |t| |]; try done.
  repeat case_match; intros [= <-].
  - eapply keeps_mono; [|apply keeps_process_playblast].
    unfold playblast_keys, turntable_keys, batchrender_keys. set_solver.
  - apply keeps_process_turntable.
  - eapply keeps_mono; [|apply keeps_process_batchrender].
    unfold turntable_keys. set_solver.
Qed.

(** [collect_members] only asks the session, and always returns. *)
Lemma collect_members_run layer s i :
  collect_members layer (s, i) =
    ((s, {| name := name i;
            members := members i ++ dependency_transforms layer s;
            data := <["renderLayerMember" :=
                        VStrs (ls_long (or_nil (renderLayerMembers s layer)) s)]> (data i) |}),
     Ok ()).
Proof. reflexivity. Qed.

End CollectorFrames.

(** ** Output paths *)



Section OutputPaths.
Context (env : PyEnv).



End OutputPaths.


(** ** Filling an instance *)

Section FillInstance.
Context (env : PyEnv).

(** The instance as [fill_instance] has it when it looks the variant up. *)
Lemma fill_instance_run cdata dummy_members d layer s i :
  let i1 := {| name := name i; members := dummy_members;
               data := <["families" := VList []]> (
                       <["family" := VStr "reveries.imgseq"]> (
                       <["_privilege_on_lock" := VBool true]> (
                       <["futureDependencies" := VDict []]> (
                       <["dependencies" := VDict []]> (d ∪ data i))))) |} in
  fill_instance env cdata dummy_members d layer (s, i) =
    match (d ∪ data i) !! "renderType" with
    | None => ((s, i1), Raise (KeyError "renderType"))
    | Some renderType =>
        match getattr_process env renderType with
        | Raise e => ((s, i1), Raise e)
        | Ok variate => (variate cdata layer;; collect_members layer) (s, i1)
        end
    end.
Proof.
  simpl. unfold fill_instance.
  unfold mbind at 1 2 3 4 5 6 7 8 9. unfold se_bind, on_snd, set_members, data_update, data_set,
    data_get, lift. simpl.
  rewrite !lookup_insert_ne by done.
  destruct ((d ∪ data i) !! "renderType") as [rt|]; [|done].
  by destruct (getattr_process env rt).
Qed.

(** A variant followed by [collect_members]. *)
Lemma variate_then_collect {A} K (variate : SE (Scene * Instance) A) layer s i1 :
  keeps K variate →
  let out := (variate;; collect_members layer) (s, i1) in
  out.1.1 = s ∧ name out.1.2 = name i1 ∧
  (∀ k, k ∉ K → k ≠ "renderLayerMember" → data out.1.2 !! k = data i1 !! k) ∧
  (out.2 = Ok () → members out.1.2 = members i1 ++ dependency_transforms layer s).
Proof.
  intros Hk. simpl. unfold mbind, se_bind.
  assert (∀ k, k ∉ K → frame s (name i1) (members i1) k (data i1 !! k) (variate (s, i1)).1)
    as Hframe by (intros k Hin; by apply (Hk k Hin)).
  destruct (variate (s, i1)) as [[s2 i2] [a|e]]; simpl in *.
  - assert (∀ k, k ∉ K → s2 = s ∧ name i2 = name i1 ∧ members i2 = members i1) as Hfix
      by (intros k Hin; destruct (Hframe k Hin) as (? & ? & ? & _); done).
    assert (s2 = s ∧ name i2 = name i1 ∧ members i2 = members i1) as (-> & Hn & Hm).
    { apply (Hfix (fresh K)), infinite_is_fresh. }
    repeat split; try done.
    + intros k Hin Hne. rewrite lookup_insert_ne by done. by destruct (Hframe k Hin) as (_ & _ & _ & ?).
    + intros _. by rewrite Hm.
  - assert (s2 = s ∧ name i2 = name i1) as (-> & Hn).
    { destruct (Hframe (fresh K) (infinite_is_fresh K)) as (? & ? & _). done. }
    repeat split; try done.
    intros k Hin Hne. by destruct (Hframe k Hin) as (_ & _ & _ & ?).
Qed.

(** An unlocked scene: [process_playblast] sets the two flags to [False]
    before anything that can raise, and nothing after resets them. *)
Lemma playblast_gate cdata layer s i1 k :
  is_locked s = false → k = "optional" ∨ k = "publish" →
  let st' := (process_playblast cdata layer (s, i1)).1 in
  st'.1 = s ∧ data st'.2 !! k = Some (VBool false).
Proof.
  intros Hlocked Hk. simpl.
  change (post (process_playblast cdata layer) (s, i1)
            (λ st' _, st'.1 = s ∧ data st'.2 !! k = Some (VBool false))).
  unfold process_playblast.
  apply post_bind, post_on_snd. unfold post at 1. simpl.
  apply post_bind, post_on_snd. unfold post at 1. simpl.
  apply post_bind. unfold publish_on_lock.
  apply post_bind, post_on_fst, post_query. simpl. rewrite Hlocked. simpl.
  apply post_bind, post_on_snd. unfold post at 1. simpl.
  apply post_on_snd. unfold post at 1. simpl.
  eapply (post_keeps _ _ k s _ _ (Some (VBool false))); [apply keeps_playblast_tail| | |].
  - destruct Hk as [-> | ->]; set_solver.
  - repeat split. simpl. destruct Hk as [-> | ->]; by simplify_map_eq.
  - by intros st' r (? & _ & _ & ?).
Qed.

(** An unlocked scene: [process_turntable] has set the two flags to
    [False] whenever it returns. *)
Lemma turntable_gate cdata layer s i1 k :
  is_locked s = false → k = "optional" ∨ k = "publish" →
  let out := process_turntable env cdata layer (s, i1) in
  out.2 = Ok () → data out.1.2 !! k = Some (VBool false).
Proof.
  intros Hlocked Hk. simpl.
  change (post (process_turntable env cdata layer) (s, i1)
            (λ st' r, r = Ok () → data st'.2 !! k = Some (VBool false))).
  unfold process_turntable.
  apply post_bind. unfold update_subset.
  apply post_bind, post_on_snd. unfold post at 1. simpl.
  destruct (data i1 !! "subset") as [subset|]; [|done].
  apply post_bind, post_on_snd. unfold post at 1. simpl.
  apply post_bind, post_lift.
  destruct (iadd_str subset _) as [subset'|]; [|done].
  apply post_on_snd. unfold post at 1. simpl.
  apply post_bind, post_on_snd. unfold post at 1. simpl.
  apply post_bind, post_on_snd. unfold post at 1. simpl.
  rewrite !lookup_insert_ne by done.
  destruct (data i1 !! "renderer") as [renderer|]; [|done].
  apply post_bind, post_lift.
  destruct (str_add _ renderer) as [category|]; [|done].
  apply post_bind, post_on_snd. unfold post at 1. simpl.
  apply post_bind. unfold publish_on_lock.
  apply post_bind, post_on_fst, post_query. simpl. rewrite Hlocked. simpl.
  apply post_bind, post_on_snd. unfold post at 1. simpl.
  apply post_on_snd. unfold post at 1. simpl.
  eapply (post_keeps _ _ k s _ _ (Some (VBool false))); [apply keeps_render_tail| | |].
  - destruct Hk as [-> | ->]; set_solver.
  - repeat split. simpl. destruct Hk as [-> | ->]; by simplify_map_eq.
  - by intros st' r (? & _ & _ & ?).
Qed.

End FillInstance.

Section LockGate.
Context (env : PyEnv).

(** C2, as the collector has it. In a scene that is not locked, the
    instance of a playblast layer ends with ["optional"] and ["publish"]
    set to [False], and so does the instance of a turntable layer whenever
    its processing returns; the instance of a batchrender layer keeps under
    both keys what the gathered settings held there. *)
Theorem publish_lock_gate cdata dummy_members d layer s i t k :
  d !! "renderType" = Some (VStr t) →
  is_locked s = false →
  k = "optional" ∨ k = "publish" →
  let out := fill_instance env cdata dummy_members d layer (s, i) in
  (t = "playblast" → data out.1.2 !! k = Some (VBool false)) ∧
  (t = "turntable" → out.2 = Ok () → data out.1.2 !! k = Some (VBool false)) ∧
  (t = "batchrender" → data out.1.2 !! k = (d ∪ data i) !! k).
Proof.
  intros Ht Hlocked Hk. simpl. rewrite fill_instance_run.
  rewrite (lookup_union_Some_l _ _ _ _ Ht).
  assert (k ≠ "renderLayerMember") as Hne by (by destruct Hk as [-> | ->]).
  split; [|split]; intros ->; simpl.
  - unfold mbind, se_bind.
    pose proof (playblast_gate cdata layer s
      {| name := name i; members := dummy_members;
         data := <["families" := VList []]> (
                 <["family" := VStr "reveries.imgseq"]> (
                 <["_privilege_on_lock" := VBool true]> (
                 <["futureDependencies" := VDict []]> (
                 <["dependencies" := VDict []]> (d ∪ data i))))) |} k Hlocked Hk)
      as [_ Hgate].
    simpl in Hgate. destruct (process_playblast _ _ _) as [[s2 i2] [[]|e]]; simpl in *;
      [|done].
    by rewrite lookup_insert_ne.
  - unfold mbind, se_bind.
    pose proof (turntable_gate env cdata layer s
      {| name := name i; members := dummy_members;
         data := <["families" := VList []]> (
                 <["family" := VStr "reveries.imgseq"]> (
                 <["_privilege_on_lock" := VBool true]> (
                 <["futureDependencies" := VDict []]> (
                 <["dependencies" := VDict []]> (d ∪ data i))))) |} k Hlocked Hk)
      as Hgate.
    simpl in Hgate. destruct (process_turntable _ _ _ _) as [[s2 i2] [[]|e]]; simpl in *;
      [|done].
    intros _. rewrite lookup_insert_ne by done. by apply Hgate.
  - edestruct (variate_then_collect batchrender_keys
                 (process_batchrender env cdata layer) layer s)
      as (_ & _ & Hdata & _); [apply keeps_process_batchrender|].
    rewrite Hdata; [|destruct Hk as [-> | ->]; unfold batchrender_keys; set_solver|done].
    simpl. destruct Hk as [-> | ->]; by rewrite !lookup_insert_ne.
Qed.

End LockGate.

(** The three variants on the example session, which is not locked. *)
Lemma publish_lock_gate_witness :
  data (fill_instance example_env {[ "outputDir" := VStr "/proj/renders" ]} ["|cam"]
          (<["renderType" := VStr "playblast"]> example_turntable_data) "preview"
          (example_scene, new_instance "preview")).1.2 !! "publish"
    = Some (VBool false) ∧
  data (fill_instance example_env {[ "outputDir" := VStr "/proj/renders" ]} ["|cam"]
          example_turntable_data "preview"
          (example_scene, new_instance "preview")).1.2 !! "publish"
    = Some (VBool false) ∧
  data (fill_instance example_env {[ "outputDir" := VStr "/proj/renders" ]} ["|cam"]
          (<["renderType" := VStr "batchrender"]> example_turntable_data) "preview"
          (example_scene, new_instance "preview")).1.2 !! "publish"
    = None.
Proof.
  split; [|split].
  - refine (proj1 (publish_lock_gate example_env _ _ _ _ _ _ "playblast" "publish"
                     _ _ _) _); [reflexivity | reflexivity | by right | reflexivity].
  - refine (proj1 (proj2 (publish_lock_gate example_env _ _ _ _ _ _ "turntable" "publish"
                     _ _ _)) _ _);
      [reflexivity | reflexivity | by right | reflexivity | by vm_compute].
  - etrans;
      [refine (proj2 (proj2 (publish_lock_gate example_env _ _ _ _ _ _ "batchrender"
                        "publish" _ _ _)) _);
         [reflexivity | reflexivity | by right | reflexivity]
      | by vm_compute].
Defined.

(** C2 as stated fails for the turntable variant: on the example session,
    which is not locked, the instance of the turntable layer ends with
    ["publish"] set to [False], a key the gathered settings do not hold. *)
Lemma turntable_lock_gate_counterexample :
  ¬ (∀ env cdata dummy_members d layer s i k,
       d !! "renderType" = Some (VStr "turntable") →
       is_locked s = false →
       k = "optional" ∨ k = "publish" →
       data (fill_instance env cdata dummy_members d layer (s, i)).1.2 !! k
         = (d ∪ data i) !! k).
Proof.
  intros H.
  specialize (H example_env {[ "outputDir" := VStr "/proj/renders" ]} ["|cam"]
                example_turntable_data "preview" example_scene
                (new_instance "preview") "publish").
  assert (Some (VBool false) = (None : option value)) as Habs.
  { etrans; [|etrans; [apply H; [reflexivity | reflexivity | by right]|]];
      by vm_compute. }
  discriminate Habs.
Qed.

(** ** One layer of the loop *)

Section Loop.
Context (env : PyEnv).

Lemma getattr_process_known renderType variate :
  getattr_process env renderType = Ok variate →
  ∃ t, renderType = VStr t ∧ t ∈ known_render_types.
Proof.
  unfold getattr_process, known_render_types.
  destruct renderType as [| | | |t| |]; try done.
  destruct (String.eqb_spec t "playblast") as [->|_]; [intros _; eexists; split; [done|set_solver]|].
  destruct (String.eqb_spec t "turntable") as [->|_]; [intros _; eexists; split; [done|set_solver]|].
  destruct (String.eqb_spec t "batchrender") as [->|_]; [intros _; eexists; split; [done|set_solver]|].
  done.
Qed.

Lemma fill_instance_spec cdata dummy_members d layer s i :
  let out := fill_instance env cdata dummy_members d layer (s, i) in
  out.1.1 = s ∧ name out.1.2 = name i ∧
  (∀ k, k ∉ fill_keys → data out.1.2 !! k = (d ∪ data i) !! k) ∧
  (out.2 = Ok () →
     members out.1.2 = dummy_members ++ dependency_transforms layer s ∧
     ∃ t, (d ∪ data i) !! "renderType" = Some (VStr t) ∧ t ∈ known_render_types).
Proof.
  simpl. rewrite fill_instance_run.
  assert (∀ k, k ∉ fill_keys →
    (<["families" := VList []]> (
     <["family" := VStr "reveries.imgseq"]> (
     <["_privilege_on_lock" := VBool true]> (
     <["futureDependencies" := VDict []]> (
     <["dependencies" := VDict []]> (d ∪ data i))))) : gmap string value) !! k
    = (d ∪ data i) !! k) as Hi1.
  { intros k Hk. unfold fill_keys in Hk.
    rewrite !lookup_insert_ne; [done|..]; intros <-; apply Hk; set_solver. }
  destruct ((d ∪ data i) !! "renderType") as [rt|] eqn:Hrt; [|by repeat split].
  destruct (getattr_process env rt) as [variate|e] eqn:Hv; [|by repeat split].
  destruct (getattr_process_known _ _ Hv) as (t & -> & Ht).
  edestruct (variate_then_collect turntable_keys (variate cdata layer) layer s)
    as (Hs & Hn & Hdata & Hm); [by eapply keeps_variate|].
  split; [exact Hs|]. split; [exact Hn|]. split.
  - intros k Hk. rewrite Hdata.
    + by apply Hi1.
    + intros Hin. apply Hk. unfold fill_keys. set_solver.
    + intros ->. apply Hk. unfold fill_keys. set_solver.
  - intros Hok. split; [by apply Hm|]. by exists t.
Qed.

Lemma pure_query_attrs node layer keys : pure (query_attrs env node layer keys).
Proof.
  induction keys as [|k rest IH]; simpl; [done|].
  apply pure_bind; [apply pure_query_by_renderlayer|]. intros v.
  apply pure_bind; [apply IH|]. intros d. apply pure_ret.
Qed.

Lemma pure_get_pipeline_attr instance_node layer :
  pure (get_pipeline_attr env instance_node layer).
Proof.
  unfold get_pipeline_attr.
  destruct instance_node; try apply pure_query_attrs;
    (apply pure_bind; [apply pure_query|]; intros [|? ?]; apply pure_raise).
Qed.

Lemma query_attrs_result node layer keys s d :
  (query_attrs env node layer keys s).2 = Ok d →
  (∀ k, k ∈ keys → ∃ v, d !! k = Some v ∧
          (query_by_renderlayer env node k layer s).2 = Ok v) ∧
  (∀ k, k ∉ keys → d !! k = None).
Proof.
  revert d. induction keys as [|k0 rest IH]; simpl; intros d.
  - intros [= <-]. split; [by intros k Hk%elem_of_nil|done].
  - rewrite bind_pure_result by apply pure_query_by_renderlayer.
    destruct (query_by_renderlayer env node k0 layer s).2 as [v|] eqn:Hv; [|done].
    rewrite bind_pure_result by apply pure_query_attrs.
    destruct (query_attrs env node layer rest s).2 as [d'|] eqn:Hd'; [|done].
    simpl. intros [= <-]. destruct (IH d' eq_refl) as [Hin Hnin]. split.
    + intros k Hk. destruct (decide (k = k0)) as [->|Hne].
      * exists v. by rewrite lookup_insert_eq.
      * rewrite lookup_insert_ne by done. apply Hin.
        apply elem_of_cons in Hk as [?|?]; done.
    + intros k Hk. apply not_elem_of_cons in Hk as [Hne Hk].
      rewrite lookup_insert_ne by done. by apply Hnin.
Qed.

Lemma get_pipeline_attr_result instance_node layer s pipeline :
  (get_pipeline_attr env instance_node layer s).2 = Ok pipeline →
  pipeline !! "renderlayer" = None ∧
  ∃ node v, instance_node = VStr node ∧ pipeline !! "renderType" = Some v ∧
    (query_by_renderlayer env node "renderType" layer s).2 = Ok v.
Proof.
  unfold get_pipeline_attr. destruct instance_node as [| | | |node| |];
    try (rewrite bind_pure_result by apply pure_query; simpl;
         by destruct (ls_renderLayer layer s)).
  intros Hd. apply query_attrs_result in Hd as [Hin Hnin]. split.
  - apply Hnin. unfold pipeline_attrs. set_solver.
  - destruct (Hin "renderType") as (v & ? & ?); [unfold pipeline_attrs; set_solver|].
    by exists node, v.
Qed.

(** What one turn of the loop does to the context. *)
Lemma process_layer_spec instance_node dummy_members valid layer s ctx :
  let out := process_layer env instance_node dummy_members valid layer (s, ctx) in
  out.1.1 = s ∧ cdata out.1.2 = cdata ctx ∧
  (layer ∉ valid → out.1.2 = ctx ∧ out.2 = Ok ()) ∧
  (layer ∈ valid →
     (instances out.1.2 = instances ctx ∧ ∃ e, out.2 = Raise e) ∨
     (∃ i, instances out.1.2 = instances ctx ++ [i] ∧ made_from layer i ∧
           (out.2 = Ok () → finished env s instance_node dummy_members layer i))).
Proof.
  simpl. unfold process_layer. destruct (decide (layer ∈ valid)) as [Hin|Hnin];
    [|by repeat split].
  match goal with |- context [?m (s, ctx)] =>
    change (post m (s, ctx) (λ st' r,
      st'.1 = s ∧ cdata st'.2 = cdata ctx ∧
      (layer ∉ valid → st'.2 = ctx ∧ r = Ok ()) ∧
      (layer ∈ valid →
         (instances st'.2 = instances ctx ∧ ∃ e, r = Raise e) ∨
         (∃ i, instances st'.2 = instances ctx ++ [i] ∧ made_from layer i ∧
               (r = Ok () → finished env s instance_node dummy_members layer i)))))
  end.
  assert (∀ e : exn,
    (s, ctx).1 = s ∧ cdata (s, ctx).2 = cdata ctx ∧
    (layer ∉ valid → (s, ctx).2 = ctx ∧ (Raise e : result ()) = Ok ()) ∧
    (layer ∈ valid →
       (instances (s, ctx).2 = instances ctx ∧ ∃ e', (Raise e : result ()) = Raise e') ∨
       (∃ i, instances (s, ctx).2 = instances ctx ++ [i] ∧ made_from layer i ∧
             ((Raise e : result ()) = Ok () →
              finished env s instance_node dummy_members layer i)))) as Hraise.
  { intros e. repeat split; try done. intros _. left. eauto. }
  apply post_bind, post_on_fst, post_pure; [apply pure_query_by_renderlayer|].
  intros [renderer|e] _; [|apply Hraise].
  apply post_bind, post_on_fst, post_query. simpl.
  apply post_bind, post_on_fst, post_pure; [apply pure_query_by_renderlayer|].
  intros [startFrame|e] _; [|apply Hraise].
  apply post_bind, post_on_fst, post_pure; [apply pure_query_by_renderlayer|].
  intros [endFrame|e] _; [|apply Hraise].
  apply post_bind, post_on_fst, post_pure; [apply pure_query_by_renderlayer|].
  intros [byFrameStep|e] _; [|apply Hraise].
  apply post_bind, post_on_fst, post_query. simpl.
  apply post_bind, post_on_fst, post_pure; [apply pure_get_pipeline_attr|].
  intros [pipeline|e] Hpipe; [|apply Hraise].
  symmetry in Hpipe. apply get_pipeline_attr_result in Hpipe
    as (Hrl & node & v & -> & Hrt & Hv).
  unfold post, create_instance. simpl.
  match goal with |- context [fill_instance env ?c ?dm ?d layer ?st] =>
    pose proof (fill_instance_spec c dm d layer s (new_instance (layername_of layer)))
      as (Hs & Hn & Hdata & Hok);
    destruct (fill_instance env c dm d layer st) as [[s' i'] r'] eqn:Hfill
  end.
  simpl in *. split; [done|]. split; [done|]. split; [done|]. intros _. right.
  exists i'. split; [done|]. split.
  - split; [done|]. unfold renderlayer_of. rewrite Hdata.
    + rewrite (right_id_L ∅ (∪)). rewrite lookup_union_r by done.
      by rewrite lookup_insert_eq.
    + unfold fill_keys, turntable_keys, batchrender_keys. set_solver.
  - intros Hr. destruct (Hok Hr) as (Hm & t & Ht & Hknown). split; [done|].
    exists node, t. split; [done|]. split; [|done].
    rewrite (right_id_L ∅ (∪)), (lookup_union_Some_l _ _ _ _ Hrt) in Ht.
    by injection Ht as ->.
Qed.

(** What the loop does to the context: it appends one instance for each
    linked layer it gets to, in the order of the list. *)
Lemma for_layers_spec instance_node dummy_members valid layers s ctx :
  let out := for_layers env instance_node dummy_members valid layers (s, ctx) in
  out.1.1 = s ∧
  ∃ done created,
    instances out.1.2 = instances ctx ++ created ∧
    Forall2 made_from done created ∧
    done `prefix_of` filter (λ l, l ∈ valid) layers ∧
    (out.2 = Ok () →
       done = filter (λ l, l ∈ valid) layers ∧
       Forall2 (finished env s instance_node dummy_members) done created).
Proof.
  simpl. revert ctx. induction layers as [|layer rest IH]; intros ctx; simpl.
  - split; [done|]. exists [], []. rewrite app_nil_r. by repeat split.
  - unfold mbind, se_bind.
    pose proof (process_layer_spec instance_node dummy_members valid layer s ctx)
      as (Hs & _ & Hskip & Hmake). simpl in *.
    destruct (process_layer env instance_node dummy_members valid layer (s, ctx))
      as [[s1 ctx1] [[]|e]]; simpl in *; subst s1.
    + destruct (IH ctx1) as (Hs1 & done & created & Hinst & Hmade & Hpre & Hok).
      split; [done|]. destruct (decide (layer ∈ valid)) as [Hin|Hnin].
      * destruct (Hmake Hin) as [[_ [e' ?]]|(i & Hi & Hmi & Hfin)]; [done|].
        exists (layer :: done), (i :: created). rewrite filter_cons_True by done.
        split; [by rewrite Hinst, Hi, <- app_assoc|].
        split; [by constructor|]. split; [by apply prefix_cons|].
        intros Hr. destruct (Hok Hr) as [-> Hall]. split; [done|].
        constructor; [by apply Hfin|done].
      * destruct (Hskip Hnin) as [-> _]. rewrite filter_cons_False by done.
        exists done, created. split; [done|]. split; [done|]. split; [done|]. exact Hok.
    + split; [done|]. destruct (decide (layer ∈ valid)) as [Hin|Hnin].
      * rewrite filter_cons_True by done.
        destruct (Hmake Hin) as [[Hi _]|(i & Hi & Hmi & _)].
        -- exists [], []. rewrite app_nil_r. repeat split; try done.
           apply prefix_nil.
        -- exists [layer], [i]. split; [done|]. split; [constructor; [done|constructor]|].
           split; [|done]. apply prefix_cons, prefix_nil.
      * by destruct (Hskip Hnin) as [_ ?].
Qed.

(** The pass raised before the loop: nothing was created. *)
Ltac raise_case :=
  simpl; split; [done|]; exists [], []; rewrite app_nil_r;
  split; [done|]; split; [constructor|]; split; [apply prefix_nil|done].

(** What a collection pass leaves: the instances that were no
    placeholders, followed by one instance for each layer it got to. *)
Lemma process_spec s ctx :
  let out := process env (s, ctx) in
  out.1.1 = s ∧
  ∃ done created,
    instances out.1.2 = kept_instances ctx ++ created ∧
    Forall2 made_from done created ∧
    done `prefix_of` expected_layers s ∧
    (out.2 = Ok () →
       done = expected_layers s ∧
       ∃ instance_node dummy_members,
         (remove_dummies (instances ctx) [] VNone []).2 = Ok (instance_node, dummy_members) ∧
         Forall2 (finished env s instance_node dummy_members) done created).
Proof.
  simpl.
  unfold process, kept_instances.
  match goal with |- context [?m (s, ctx)] =>
    change (post m (s, ctx) (λ st' r,
      st'.1 = s ∧
      ∃ done created,
        instances st'.2 = (remove_dummies (instances ctx) [] VNone []).1 ++ created ∧
        Forall2 made_from done created ∧
        done `prefix_of` expected_layers s ∧
        (r = Ok () →
           done = expected_layers s ∧
           ∃ instance_node dummy_members,
             (remove_dummies (instances ctx) [] VNone []).2
               = Ok (instance_node, dummy_members) ∧
             Forall2 (finished env s instance_node dummy_members) done created)))
  end.
  apply post_bind, post_on_snd. unfold post at 1, remove_dummy_instances. simpl.
  destruct (remove_dummies (instances ctx) [] VNone []) as [kept [[node dm]|e]] eqn:Hrm;
    simpl; [|raise_case].
  assert (node ≠ VNone →
    post (connected_layers ← on_fst (query (λ s0, or_nil (renderLayerManager_links s0)));
          let valid_layers : gset string := list_to_set connected_layers in
          workspace ← on_snd (cdata_get "workspaceDir");
          outputDir ← lift (os_path_join env workspace "renders");
          on_snd (cdata_set "outputDir" (VStr outputDir));;
          on_snd (cdata_set "_has_privileged_instance" (VBool true));;
          on_snd (cdata_set "hasRenderLayers" (VBool (1 <? size valid_layers)%nat));;
          mayaVersion ← on_snd (cdata_get "mayaVersion");
          (if ge_number mayaVersion 2016.5 then
             setup ← on_fst (query mayaHasRenderSetup);
             on_snd (cdata_set "usingRenderSetup" (VBool setup))
           else on_snd (cdata_set "usingRenderSetup" (VBool false)));;
          layers ← on_fst (query (λ s0, sorted (displayOrder s0) (renderlayers s0)));
          for_layers env node dm valid_layers layers)
      (s, {| instances := kept; cdata := cdata ctx |})
      (λ st' r,
        st'.1 = s ∧
        ∃ done created,
          instances st'.2 = kept ++ created ∧
          Forall2 made_from done created ∧
          done `prefix_of` expected_layers s ∧
          (r = Ok () →
             done = expected_layers s ∧
             ∃ instance_node dummy_members,
               Ok (node, dm) = Ok (instance_node, dummy_members) ∧
               Forall2 (finished env s instance_node dummy_members) done created)))
    as Hmain.
  { intros _.
    apply post_bind, post_on_fst, post_query. simpl.
    apply post_bind, post_on_snd. unfold post at 1. simpl.
    destruct (cdata ctx !! "workspaceDir") as [workspace|]; [|raise_case].
    apply post_bind, post_lift.
    destruct (os_path_join env workspace "renders") as [outputDir|]; [|raise_case].
    apply post_bind, post_on_snd. unfold post at 1. simpl.
    apply post_bind, post_on_snd. unfold post at 1. simpl.
    apply post_bind, post_on_snd. unfold post at 1. simpl.
    apply post_bind, post_on_snd. unfold post at 1. simpl.
    destruct (_ !! "mayaVersion") as [mayaVersion|]; [|raise_case].
    apply post_bind.
    assert (∀ b c, post (on_snd (cdata_set "usingRenderSetup" (VBool b)) : SE (Scene * Context) ())
                     (s, c)
              (λ st' r, st'.1 = s ∧ instances st'.2 = instances c ∧ r = Ok ())) as Hset
      by done.
    eapply post_mono.
    { instantiate (1 := λ st' r, st'.1 = s ∧ instances st'.2 = kept ∧ r = Ok ()).
      destruct (ge_number mayaVersion 2016.5); [|apply Hset].
      apply post_bind, post_on_fst, post_query. simpl. apply Hset. }
    intros [s' c'] r (Hs' & Hc' & ->). simpl in *. subst s'.
    apply post_bind, post_on_fst, post_query. simpl.
    unfold post.
    pose proof (for_layers_spec node dm
      (list_to_set (or_nil (renderLayerManager_links s)))
      (sorted (displayOrder s) (renderlayers s)) s c')
      as (Hs & done & created & Hinst & Hmade & Hpre & Hok).
    simpl in *. split; [done|]. exists done, created. rewrite <- Hc'.
    split; [done|]. split; [done|]. split; [exact Hpre|].
    intros Hr. destruct (Hok Hr) as [Hdone Hfin]. split; [exact Hdone|].
    by exists node, dm. }
  destruct node; try (apply Hmain; done). unfold post. raise_case.
Qed.

End Loop.

(** ** Sorting by key *)

Section Sorted.
Context {A : Type} (key : A → Z).

Lemma insert_by_Permutation x l : insert_by key x l ≡ₚ x :: l.
Proof.
  induction l as [|y l IH]; simpl; [done|].
  destruct (key x <=? key y)%Z; [done|]. rewrite IH. apply Permutation_swap.
Qed.

Lemma sorted_Permutation l : sorted key l ≡ₚ l.
Proof.
  induction l as [|x l IH]; simpl; [done|].
  by rewrite insert_by_Permutation, IH.
Qed.

Lemma insert_by_sorted x l :
  StronglySorted (λ a b, (key a ≤ key b)%Z) l →
  StronglySorted (λ a b, (key a ≤ key b)%Z) (insert_by key x l).
Proof.
  induction 1 as [|y l Hl IH Hy]; simpl; [by repeat constructor|].
  destruct (Z.leb_spec (key x) (key y)) as [Hle|Hlt].
  - constructor; [by constructor|]. constructor; [done|].
    eapply Forall_impl; [exact Hy|]. simpl. lia.
  - constructor; [done|].
    rewrite insert_by_Permutation. constructor; [lia|done].
Qed.

Lemma sorted_StronglySorted l :
  StronglySorted (λ a b, (key a ≤ key b)%Z) (sorted key l).
Proof.
  induction l as [|x l IH]; simpl; [constructor|]. by apply insert_by_sorted.
Qed.

(** Stability: elements of equal key stay in their order of arrival. *)
Lemma insert_by_stable z x l :
  filter (λ a, key a = z) (insert_by key x l) = filter (λ a, key a = z) (x :: l).
Proof.
  induction l as [|y l IH]; simpl; [done|].
  destruct (Z.leb_spec (key x) (key y)) as [Hle|Hlt]; [done|].
  rewrite (filter_cons _ y), IH, !filter_cons.
  repeat case_decide; try done. lia.
Qed.

Lemma sorted_stable z l :
  filter (λ a, key a = z) (sorted key l) = filter (λ a, key a = z) l.
Proof.
  induction l as [|x l IH]; simpl; [done|].
  by rewrite insert_by_stable, !filter_cons, IH.
Qed.

Lemma StronglySorted_sublist (R : relation A) l1 l2 :
  sublist l1 l2 → StronglySorted R l2 → StronglySorted R l1.
Proof.
  intros Hsub Hs. revert l1 Hsub.
  induction Hs as [|x l2 Hs IH Hx]; intros l1 Hsub.
  - apply sublist_nil_r in Hsub as ->. constructor.
  - apply sublist_cons_r in Hsub as [Hsub|(l1' & -> & Hsub)]; [by apply IH|].
    constructor; [by apply IH|].
    eapply Forall_forall. intros y Hy. eapply Forall_forall; [exact Hx|].
    by eapply elem_of_sublist.
Qed.

Lemma prefix_filter (P : A → Prop) `{∀ x, Decision (P x)} l1 l2 :
  l1 `prefix_of` l2 → filter P l1 `prefix_of` filter P l2.
Proof. intros [k ->]. rewrite filter_app. by eexists. Qed.

End Sorted.

(** ** Members for dependency tracking *)





(** ** The collection pass *)

Lemma made_from_renderlayers done created :
  Forall2 made_from done created → renderlayer_of <$> created = Some <$> done.
Proof.
  induction 1 as [|layer i done created [_ Hi] _ IH]; [done|].
  rewrite !fmap_cons, Hi. by f_equal.
Qed.

Lemma made_from_count layer done created :
  Forall2 made_from done created →
  length (filter (λ i, renderlayer_of i = Some layer) created) =
  length (filter (λ l, l = layer) done).
Proof.
  induction 1 as [|l i done created [_ Hi] _ IH]; [done|].
  rewrite !filter_cons, Hi.
  destruct (decide (l = layer)) as [->|Hne].
  - rewrite decide_True by done. simpl. by rewrite IH.
  - rewrite decide_False by congruence. done.
Qed.

Lemma NoDup_count (x : string) l :
  NoDup l →
  length (filter (λ y, y = x) l) = if decide (x ∈ l) then 1%nat else 0%nat.
Proof.
  induction 1 as [|y l Hy Hl IH]; [done|].
  rewrite filter_cons. destruct (decide (y = x)) as [->|Hne].
  - rewrite decide_True by left. simpl. rewrite IH, decide_False; done.
  - rewrite IH. destruct (decide (x ∈ l)) as [Hin|Hnin].
    + rewrite decide_True; [done|by right].
    + rewrite decide_False; [done|]. intros [?|?]%elem_of_cons; done.
Qed.

Lemma filter_comm {A} (P Q : A → Prop)
    `{!∀ x, Decision (P x), !∀ x, Decision (Q x)} (l : list A) :
  filter P (filter Q l) = filter Q (filter P l).
Proof. rewrite !list_filter_filter. apply list_filter_iff. tauto. Qed.

Lemma prefix_sublist {A} (l1 l2 : list A) : l1 `prefix_of` l2 → l1 `sublist_of` l2.
Proof. intros [k ->]. by apply sublist_inserts_r. Qed.

Lemma elem_of_expected_layers s layer :
  layer ∈ expected_layers s ↔ layer ∈ renderLayers s ∧ eligible s layer.
Proof.
  unfold expected_layers, eligible, renderlayers.
  rewrite list_elem_of_filter, sorted_Permutation, list_elem_of_filter. tauto.
Qed.

Lemma NoDup_expected_layers s : NoDup (renderLayers s) → NoDup (expected_layers s).
Proof.
  intros Hnd. unfold expected_layers, renderlayers.
  apply NoDup_filter. rewrite sorted_Permutation. by apply NoDup_filter.
Qed.

Lemma expected_layers_sorted s :
  StronglySorted (λ a b, (displayOrder s a ≤ displayOrder s b)%Z) (expected_layers s).
Proof.
  unfold expected_layers. eapply StronglySorted_sublist;
    [apply sublist_filter | apply sorted_StronglySorted].
Qed.

Lemma expected_layers_stable s z :
  filter (λ l, displayOrder s l = z) (expected_layers s) =
  filter (λ l, displayOrder s l = z)
    (filter (λ l, l ∈ valid_layers s) (renderlayers s)).
Proof.
  unfold expected_layers.
  by rewrite filter_comm, sorted_stable, filter_comm.
Qed.

Section Pass.
Context (env : PyEnv).

(** C5. The instances a collection pass creates come in ascending order
    of the [displayOrder] of their layers, layers of equal [displayOrder]
    in the order in which [cmds.ls] enumerates them; a pass that returns
    has created them for all the layers to publish. *)
Theorem emission_order s ctx :
  let out := process env (s, ctx) in
  let key := displayOrder s in
  let publishable := filter (λ l, l ∈ valid_layers s) (renderlayers s) in
  ∃ done created,
    instances out.1.2 = kept_instances ctx ++ created ∧
    renderlayer_of <$> created = Some <$> done ∧
    StronglySorted (λ a b, (key a ≤ key b)%Z) done ∧
    (∀ z, filter (λ l, key l = z) done `prefix_of` filter (λ l, key l = z) publishable) ∧
    (out.2 = Ok () →
       done ≡ₚ publishable ∧
       ∀ z, filter (λ l, key l = z) done = filter (λ l, key l = z) publishable).
Proof.
  simpl. destruct (process_spec env s ctx) as (_ & done & created & Hinst & Hmade & Hpre & Hok).
  exists done, created. split; [done|]. split; [by apply made_from_renderlayers|].
  split; [|split].
  - eapply StronglySorted_sublist; [by apply prefix_sublist|apply expected_layers_sorted].
  - intros z. rewrite <- expected_layers_stable. by apply prefix_filter.
  - intros Hr. destruct (Hok Hr) as [-> _]. split.
    + unfold expected_layers. by rewrite sorted_Permutation.
    + apply expected_layers_stable.
Qed.

(** C10, as the collector has it. Every instance a collection pass creates
    is named ["masterLayer"] when the identifier of its layer ends with
    ["defaultRenderLayer"], and by the identifier of its layer otherwise. *)
Theorem master_layer_renaming s ctx :
  let out := process env (s, ctx) in
  ∃ done created,
    instances out.1.2 = kept_instances ctx ++ created ∧
    done `prefix_of` expected_layers s ∧
    (out.2 = Ok () → done = expected_layers s) ∧
    Forall2 (λ layer i,
      renderlayer_of i = Some layer ∧
      name i = if endswith "defaultRenderLayer" layer then "masterLayer" else layer)
      done created.
Proof.
  simpl. destruct (process_spec env s ctx) as (_ & done & created & Hinst & Hmade & Hpre & Hok).
  exists done, created. split; [done|]. split; [done|]. split; [by intros Hr; apply Hok|].
  eapply Forall2_impl; [exact Hmade|]. by intros layer i [Hn Hl].
Qed.

(** C6. In a scene whose render layers are listed once each: a pass that
    returns has created exactly one instance for every layer that is
    linked to the layer manager, renderable and not referenced, and none
    for any other layer; a layer that is not renderable or is referenced
    never enters the loop, and the loop passes over a layer that is not
    linked without raising and without touching the context; and when the
    render type resolved for a layer to publish is none of playblast,
    turntable and batchrender, the pass raises. *)
Theorem variant_completeness s ctx :
  NoDup (renderLayers s) →
  let out := process env (s, ctx) in
  (out.2 = Ok () →
     ∃ created,
       instances out.1.2 = kept_instances ctx ++ created ∧
       ∀ layer, layer ∈ renderLayers s →
         (eligible s layer →
            length (filter (λ i, renderlayer_of i = Some layer) created) = 1%nat) ∧
         (¬ eligible s layer →
            length (filter (λ i, renderlayer_of i = Some layer) created) = 0%nat)) ∧
  (∀ layer, layer ∈ sorted (displayOrder s) (renderlayers s) →
     renderable s layer ∧ ¬ isNodeReferenced s layer) ∧
  (∀ layer instance_node dummy_members st,
     layer ∉ valid_layers s →
     process_layer env instance_node dummy_members (valid_layers s) layer st
       = (st, Ok ())) ∧
  (∀ layer node dummy_members,
     (remove_dummies (instances ctx) [] VNone []).2 = Ok (VStr node, dummy_members) →
     layer ∈ renderLayers s → eligible s layer →
     (∀ t, t ∈ known_render_types →
           (query_by_renderlayer env node "renderType" layer s).2 ≠ Ok (VStr t)) →
     ∃ e, out.2 = Raise e).
Proof.
  intros Hnd. simpl.
  destruct (process_spec env s ctx) as (_ & done & created & Hinst & Hmade & Hpre & Hok).
  split; [|split; [|split]].
  - intros Hr. destruct (Hok Hr) as [-> _]. exists created. split; [done|].
    intros layer Hlayer.
    rewrite (made_from_count layer _ _ Hmade),
      (NoDup_count layer _ (NoDup_expected_layers s Hnd)).
    split; intros Hel.
    + rewrite decide_True; [done|]. by apply elem_of_expected_layers.
    + rewrite decide_False; [done|]. intros Hin. apply Hel.
      by apply elem_of_expected_layers in Hin as [_ ?].
  - intros layer Hin. rewrite sorted_Permutation in Hin. unfold renderlayers in Hin.
    by apply list_elem_of_filter in Hin as [? _].
  - intros layer instance_node dummy_members [s0 c0] Hnin.
    unfold process_layer. by rewrite decide_False.
  - intros layer node dm Hrm Hlayer Hel Hunknown.
    destruct (process env (s, ctx)).2 as [[]|e] eqn:Hr; [|by exists e].
    destruct (Hok eq_refl) as (-> & node' & dm' & Hrm' & Hfin).
    rewrite Hrm in Hrm'. injection Hrm' as <- <-.
    assert (layer ∈ expected_layers s) as Hin by (by apply elem_of_expected_layers).
    apply list_elem_of_lookup in Hin as [n Hn].
    destruct (Forall2_lookup_l _ _ _ _ _ Hfin Hn) as (i & _ & _ & node'' & t & Heq & Ht & Hknown).
    injection Heq as <-. by destruct (Hunknown t Hknown).
Qed.


End Pass.

(** ** The pass on the example session *)

(** The layers are enumerated with display orders 3, 1 and 2; their
    instances come out in the order 1, 2, 3. *)
Example emission_order_example :
  let out := process example_env (example_scene, example_context) in
  out.2 = Ok () ∧
  displayOrder example_scene <$> renderlayers example_scene = [3; 1; 2; 4]%Z ∧
  renderlayer_of <$> instances out.1.2 =
    [None; Some "defaultRenderLayer"; Some "preview"; Some "beauty"] ∧
  name <$> instances out.1.2 = ["modelDefault"; "masterLayer"; "preview"; "beauty"].
Proof. by vm_compute. Qed.

(** A group holding two meshes under one transform: every instance gets
    the transform that owns the meshes. *)
Example dependency_member_closure_example :
  let out := process example_env (example_scene, example_context) in
  renderLayerMembers example_scene "beauty" = Some ["|grp"] ∧
  members <$> drop 1 (instances out.1.2) =
    [ ["|cam"; "|grp|sub"; "|grp|sub"]; ["|cam"; "|grp|sub"; "|grp|sub"];
      ["|cam"; "|grp|sub"; "|grp|sub"] ].
Proof. by vm_compute. Qed.

Lemma NoDup_example_layers : NoDup (renderLayers example_scene).
Proof. apply (bool_decide_unpack _). by vm_compute. Qed.

Lemma variant_completeness_witness :
  let out := process example_env (example_scene, example_context) in
  ∃ created,
    instances out.1.2 = kept_instances example_context ++ created ∧
    length (filter (λ i, renderlayer_of i = Some "beauty") created) = 1%nat ∧
    length (filter (λ i, renderlayer_of i = Some "stale") created) = 0%nat.
Proof.
  destruct (variant_completeness example_env example_scene example_context
              NoDup_example_layers) as (Hone & _).
  destruct Hone as (created & Hinst & Hcount); [by vm_compute|].
  exists created. split; [exact Hinst|]. split.
  - apply (Hcount "beauty").
    + apply (bool_decide_unpack _). by vm_compute.
    + split; [|split].
      * apply (bool_decide_unpack _). by vm_compute.
      * by vm_compute.
      * by vm_compute.
  - apply (Hcount "stale").
    + apply (bool_decide_unpack _). by vm_compute.
    + intros [Hin _].
      assert (bool_decide ("stale" ∈ valid_layers example_scene) = false) as Hb
        by (by vm_compute).
      by apply bool_decide_eq_false in Hb.
Defined.


(** C10 as stated fails for a layer that is not the default layer but
    whose identifier ends like it: after an import under the namespace
    [shot], the instance of ["shot:defaultRenderLayer"] is named
    ["masterLayer"] too. *)
Lemma master_layer_renaming_counterexample :
  ¬ (∀ env s ctx i layer,
       i ∈ instances (process env (s, ctx)).1.2 →
       renderlayer_of i = Some layer →
       (layer = "defaultRenderLayer" → name i = "masterLayer") ∧
       (layer ≠ "defaultRenderLayer" → name i = layer)).
Proof.
  intros H.
  set (out := process example_env (imported_scene, example_context)).
  destruct (instances out.1.2 !! 1%nat) as [i|] eqn:Hi; [|by vm_compute in Hi].
  destruct (H example_env imported_scene example_context i "shot:defaultRenderLayer")
    as [_ Hname].
  - by eapply list_elem_of_lookup_2.
  - vm_compute in Hi. by injection Hi as <-.
  - assert (name i = "masterLayer") as Hmaster
      by (vm_compute in Hi; by injection Hi as <-).
    rewrite Hmaster in Hname. by specialize (Hname ltac:(done)).
Qed.

(** ** The pass, step by step *)

Section PassRun.
Context (env : PyEnv).

Lemma pure_gather instance_node layer : pure (gather env instance_node layer).
Proof.
  unfold gather, get_render_attr.
  repeat (apply pure_bind;
          [first [apply pure_query_by_renderlayer | apply pure_query
                 | apply pure_get_pipeline_attr]|intros ?]).
  apply pure_ret.
Qed.

(** One turn of the loop: gather, then create and fill. *)
Lemma process_layer_run instance_node dummy_members valid layer s ctx :
  layer ∈ valid →
  process_layer env instance_node dummy_members valid layer (s, ctx) =
    match (gather env instance_node layer s).2 with
    | Raise e => ((s, ctx), Raise e)
    | Ok d =>
        let out := fill_instance env (cdata ctx) dummy_members d layer
                     (s, new_instance (layername_of layer)) in
        ((out.1.1, {| instances := instances ctx ++ [out.1.2]; cdata := cdata ctx |}),
         out.2)
    end.
Proof.
  intros Hin. unfold process_layer, gather, get_render_attr.
  rewrite decide_True by done.
  unfold mbind, se_bind, on_fst, query, mret, se_ret, create_instance. simpl.
  repeat match goal with
  | |- context [query_by_renderlayer env ?n ?a ?l s] =>
      let H := fresh in let s1 := fresh "s" in
      pose proof (pure_query_by_renderlayer env n a l s) as H;
      destruct (query_by_renderlayer env n a l s) as [s1 [?|?]];
      simpl in H; subst s1; simpl; [|done]
  | |- context [get_pipeline_attr env ?n ?l s] =>
      let H := fresh in let s1 := fresh "s" in
      pose proof (pure_get_pipeline_attr env n l s) as H;
      destruct (get_pipeline_attr env n l s) as [s1 [?|?]];
      simpl in H; subst s1; simpl; [|done]
  end.
  by destruct (fill_instance _ _ _ _ _ _) as [[s' i'] r'].
Qed.

(** The pass up to the loop. *)
Lemma process_run s ctx :
  process env (s, ctx) =
    let kept := kept_instances ctx in
    let c0 := {| instances := kept; cdata := cdata ctx |} in
    match (remove_dummies (instances ctx) [] VNone []).2 with
    | Raise e => ((s, c0), Raise e)
    | Ok (instance_node, dummy_members) =>
        match instance_node with
        | VNone => ((s, c0), Raise (AssertionError "This is a bug."))
        | _ =>
            match cdata ctx !! "workspaceDir" with
            | None => ((s, c0), Raise (KeyError "workspaceDir"))
            | Some workspace =>
                match os_path_join env workspace "renders" with
                | Raise e => ((s, c0), Raise e)
                | Ok outputDir =>
                    match cdata ctx !! "mayaVersion" with
                    | None =>
                        ((s, {| instances := kept;
                                cdata :=
                                  <["hasRenderLayers" := VBool (1 <? size (valid_layers s))%nat]> (
                                  <["_has_privileged_instance" := VBool true]> (
                                  <["outputDir" := VStr outputDir]> (cdata ctx))) |}),
                         Raise (KeyError "mayaVersion"))
                    | Some mayaVersion =>
                        for_layers env instance_node dummy_members (valid_layers s)
                          (sorted (displayOrder s) (renderlayers s))
                          (s, {| instances := kept;
                                 cdata := pass_cdata s outputDir mayaVersion (cdata ctx) |})
                    end
                end
            end
        end
    end.
Proof.
  unfold process, kept_instances, pass_cdata, valid_layers.
  unfold mbind at 1. unfold se_bind, on_snd at 1, remove_dummy_instances. simpl.
  destruct (remove_dummies (instances ctx) [] VNone []) as [kept [[node dm]|e]];
    simpl; [|done].
  assert (∀ st : Scene * Context, st = (s, {| instances := kept; cdata := cdata ctx |}) →
    (connected_layers ← on_fst (query (λ s0, or_nil (renderLayerManager_links s0)));
     let valid_layers : gset string := list_to_set connected_layers in
     workspace ← on_snd (cdata_get "workspaceDir");
     outputDir ← lift (os_path_join env workspace "renders");
     on_snd (cdata_set "outputDir" (VStr outputDir));;
     on_snd (cdata_set "_has_privileged_instance" (VBool true));;
     on_snd (cdata_set "hasRenderLayers" (VBool (1 <? size valid_layers)%nat));;
     mayaVersion ← on_snd (cdata_get "mayaVersion");
     (if ge_number mayaVersion 2016.5 then
        setup ← on_fst (query mayaHasRenderSetup);
        on_snd (cdata_set "usingRenderSetup" (VBool setup))
      else on_snd (cdata_set "usingRenderSetup" (VBool false)));;
     layers ← on_fst (query (λ s0, sorted (displayOrder s0) (renderlayers s0)));
     for_layers env node dm valid_layers layers) st =
    match cdata ctx !! "workspaceDir" with
    | None => (st, Raise (KeyError "workspaceDir"))
    | Some workspace =>
        match os_path_join env workspace "renders" with
        | Raise e => (st, Raise e)
        | Ok outputDir =>
            match cdata ctx !! "mayaVersion" with
            | None =>
                ((s, {| instances := kept;
                        cdata :=
                          <["hasRenderLayers" :=
                              VBool (1 <? size (list_to_set (or_nil (renderLayerManager_links s))
                                               : gset string))%nat]> (
                          <["_has_privileged_instance" := VBool true]> (
                          <["outputDir" := VStr outputDir]> (cdata ctx))) |}),
                 Raise (KeyError "mayaVersion"))
            | Some mayaVersion =>
                for_layers env node dm (list_to_set (or_nil (renderLayerManager_links s)))
                  (sorted (displayOrder s) (renderlayers s))
                  (s, {| instances := kept;
                         cdata :=
                           <["usingRenderSetup" :=
                               VBool (if ge_number mayaVersion 2016.5
                                      then mayaHasRenderSetup s else false)]> (
                           <["hasRenderLayers" :=
                               VBool (1 <? size (list_to_set (or_nil (renderLayerManager_links s))
                                                : gset string))%nat]> (
                           <["_has_privileged_instance" := VBool true]> (
                           <["outputDir" := VStr outputDir]> (cdata ctx)))) |})
            end
        end
    end) as Hmain.
  { intros st ->.
    unfold mbind, se_bind, on_snd, on_fst, query, lift, cdata_get, cdata_set. simpl.
    destruct (cdata ctx !! "workspaceDir") as [workspace|]; [|done].
    destruct (os_path_join env workspace "renders") as [outputDir|]; [|done].
    rewrite !lookup_insert_ne by done.
    destruct (cdata ctx !! "mayaVersion") as [mayaVersion|]; [|done].
    by destruct (ge_number mayaVersion 2016.5). }
  destruct node; try (by apply Hmain). done.
Qed.

(** The loop leaves the context data alone and appends, for each linked
    layer it gets to, the instance [fill_instance] leaves. *)
Lemma for_layers_turns (P : string → Instance → result () → Prop)
    instance_node dummy_members valid layers s c ctx :
  cdata ctx = c →
  (∀ layer d, layer ∈ valid →
     (gather env instance_node layer s).2 = Ok d →
     ∀ i r, fill_instance env c dummy_members d layer
              (s, new_instance (layername_of layer)) = ((s, i), r) →
            P layer i r) →
  let out := for_layers env instance_node dummy_members valid layers (s, ctx) in
  cdata out.1.2 = c ∧
  ∃ created,
    instances out.1.2 = instances ctx ++ created ∧
    (out.2 = Ok () →
       Forall2 (λ layer i, P layer i (Ok ())) (filter (λ l, l ∈ valid) layers) created) ∧
    Forall (λ i, ∃ layer r, P layer i r) created.
Proof.
  intros Hc HP. simpl. revert ctx Hc.
  induction layers as [|layer rest IH]; intros ctx Hc; simpl.
  - split; [done|]. exists []. rewrite app_nil_r. by repeat split.
  - unfold mbind, se_bind.
    destruct (decide (layer ∈ valid)) as [Hin|Hnin].
    + rewrite process_layer_run by done. rewrite filter_cons_True by done.
      destruct (gather env instance_node layer s).2 as [d|e] eqn:Hd.
      * pose proof (fill_instance_spec env (cdata ctx) dummy_members d layer s
                      (new_instance (layername_of layer))) as (Hs & _).
        simpl in Hs.
        destruct (fill_instance env (cdata ctx) dummy_members d layer
                    (s, new_instance (layername_of layer))) as [[s' i] r] eqn:Hfill.
        simpl in *. subst s'. rewrite Hc in Hfill.
        pose proof (HP layer d Hin Hd i r Hfill) as Hi.
        destruct r as [[]|e]; simpl.
        -- destruct (IH {| instances := instances ctx ++ [i]; cdata := cdata ctx |} Hc)
             as (Hc' & created & Hinst & Hok & Hall). simpl in *.
           split; [done|]. exists (i :: created).
           split; [by rewrite Hinst, <- app_assoc|]. split.
           ++ intros Hr. constructor; [done|by apply Hok].
           ++ constructor; [by eauto|done].
        -- split; [done|]. exists [i]. split; [done|]. split; [done|].
           constructor; [by eauto|constructor].
      * simpl. split; [done|]. exists []. rewrite app_nil_r. by repeat split.
    + unfold process_layer. rewrite decide_False by done. simpl.
      rewrite filter_cons_False by done. by apply IH.
Qed.

(** What a pass creates, turn by turn. *)
Lemma process_turns s ctx :
  let out := process env (s, ctx) in
  ∃ created,
    instances out.1.2 = kept_instances ctx ++ created ∧
    (out.2 = Ok () →
       Forall2 (λ layer i, turn env s ctx layer i (Ok ())) (expected_layers s) created) ∧
    Forall (λ i, ∃ layer r, turn env s ctx layer i r) created.
Proof.
  simpl. rewrite process_run. simpl.
  assert (∀ c e, ∃ created,
    instances ((s, {| instances := kept_instances ctx; cdata := c |}),
               (Raise e : result ())).1.2 = kept_instances ctx ++ created ∧
    ((Raise e : result ()) = Ok () →
       Forall2 (λ layer i, turn env s ctx layer i (Ok ())) (expected_layers s) created) ∧
    Forall (λ i, ∃ layer r, turn env s ctx layer i r) created) as Hraise.
  { intros c e. exists []. simpl. rewrite app_nil_r. by repeat split. }
  destruct (remove_dummies (instances ctx) [] VNone []).2 as [[node dm]|e] eqn:Hrm;
    [|apply Hraise].
  assert (node ≠ VNone →
    ∃ created,
      instances
        (match cdata ctx !! "workspaceDir" with
         | None => ((s, {| instances := kept_instances ctx; cdata := cdata ctx |}),
                    Raise (KeyError "workspaceDir"))
         | Some workspace =>
             match os_path_join env workspace "renders" with
             | Raise e => ((s, {| instances := kept_instances ctx; cdata := cdata ctx |}),
                           Raise e)
             | Ok outputDir =>
                 match cdata ctx !! "mayaVersion" with
                 | None =>
                     ((s, {| instances := kept_instances ctx;
                             cdata :=
                               <["hasRenderLayers" := VBool (1 <? size (valid_layers s))%nat]> (
                               <["_has_privileged_instance" := VBool true]> (
                               <["outputDir" := VStr outputDir]> (cdata ctx))) |}),
                      Raise (KeyError "mayaVersion"))
                 | Some mayaVersion =>
                     for_layers env node dm (valid_layers s)
                       (sorted (displayOrder s) (renderlayers s))
                       (s, {| instances := kept_instances ctx;
                              cdata := pass_cdata s outputDir mayaVersion (cdata ctx) |})
                 end
             end
         end).1.2 = kept_instances ctx ++ created ∧
      ((match cdata ctx !! "workspaceDir" with
         | None => ((s, {| instances := kept_instances ctx; cdata := cdata ctx |}),
                    Raise (KeyError "workspaceDir"))
         | Some workspace =>
             match os_path_join env workspace "renders" with
             | Raise e => ((s, {| instances := kept_instances ctx; cdata := cdata ctx |}),
                           Raise e)
             | Ok outputDir =>
                 match cdata ctx !! "mayaVersion" with
                 | None =>
                     ((s, {| instances := kept_instances ctx;
                             cdata :=
                               <["hasRenderLayers" := VBool (1 <? size (valid_layers s))%nat]> (
                               <["_has_privileged_instance" := VBool true]> (
                               <["outputDir" := VStr outputDir]> (cdata ctx))) |}),
                      Raise (KeyError "mayaVersion"))
                 | Some mayaVersion =>
                     for_layers env node dm (valid_layers s)
                       (sorted (displayOrder s) (renderlayers s))
                       (s, {| instances := kept_instances ctx;
                              cdata := pass_cdata s outputDir mayaVersion (cdata ctx) |})
                 end
             end
         end).2 = Ok () →
       Forall2 (λ layer i, turn env s ctx layer i (Ok ())) (expected_layers s) created) ∧
      Forall (λ i, ∃ layer r, turn env s ctx layer i r) created) as Hmain.
  { intros _.
    destruct (cdata ctx !! "workspaceDir") as [workspace|] eqn:Hw; [|apply Hraise].
    destruct (os_path_join env workspace "renders") as [outputDir|] eqn:Hj; [|apply Hraise].
    destruct (cdata ctx !! "mayaVersion") as [mayaVersion|] eqn:Hv; [|apply Hraise].
    edestruct (for_layers_turns (turn env s ctx) node dm (valid_layers s)
                 (sorted (displayOrder s) (renderlayers s)) s
                 (pass_cdata s outputDir mayaVersion (cdata ctx))
                 {| instances := kept_instances ctx;
                    cdata := pass_cdata s outputDir mayaVersion (cdata ctx) |})
      as (_ & created & Hinst & Hok & Hall); [done| |by exists created].
    intros layer d Hin Hd i r Hfill.
    by exists node, dm, workspace, outputDir, mayaVersion, d. }
  destruct node; try (apply Hmain; done). apply Hraise.
Qed.

End PassRun.

(** ** Placeholders *)

Lemma is_dummy_family i family :
  data i !! "family" = Some family → is_dummy i = in_families family.
Proof. unfold is_dummy. by intros ->. Qed.

Lemma remove_dummies_none todo kept node dm :
  Forall (λ i, is_Some (data i !! "family")) todo →
  Forall (λ i, is_dummy i = false) todo →
  remove_dummies todo kept node dm = (kept ++ todo, Ok (node, dm)).
Proof.
  revert kept. induction todo as [|i rest IH]; intros kept Hfam Hno; simpl.
  - by rewrite app_nil_r.
  - apply Forall_cons in Hfam as [[family Hf] Hfam].
    apply Forall_cons in Hno as [Hi Hno].
    rewrite Hf. rewrite (is_dummy_family _ _ Hf) in Hi. rewrite Hi.
    rewrite IH by done. by rewrite <- app_assoc.
Qed.

Lemma remove_dummies_families todo kept node dm :
  Forall (λ i, is_Some (data i !! "family")) todo →
  ∃ node' dm',
    remove_dummies todo kept node dm =
      (kept ++ filter (λ i, is_dummy i = false) todo, Ok (node', dm')).
Proof.
  revert kept node dm. induction todo as [|i rest IH]; intros kept node dm Hfam.
  - simpl. rewrite app_nil_r. eauto.
  - apply Forall_cons in Hfam as [[family Hf] Hfam]. simpl. rewrite Hf.
    pose proof (is_dummy_family _ _ Hf) as Hd.
    destruct (in_families family).
    + rewrite filter_cons_False by (by rewrite Hd). apply IH, Hfam.
    + rewrite filter_cons_True by done.
      destruct (IH (kept ++ [i]) node dm Hfam) as (n' & d' & ->).
      rewrite <- app_assoc. eauto.
Qed.

Lemma remove_dummies_last pre i post kept node dm :
  Forall (λ i, is_Some (data i !! "family")) (pre ++ i :: post) →
  is_dummy i = true →
  Forall (λ j, is_dummy j = false) post →
  (remove_dummies (pre ++ i :: post) kept node dm).2 =
    Ok (default VNone (data i !! "objectName"), members i).
Proof.
  revert kept node dm. induction pre as [|j pre IH]; intros kept node dm Hfam Hi Hpost.
  - simpl in *. apply Forall_cons in Hfam as [[family Hf] Hfam].
    rewrite Hf. rewrite (is_dummy_family _ _ Hf) in Hi. rewrite Hi.
    by rewrite remove_dummies_none.
  - simpl in *. apply Forall_cons in Hfam as [[family Hf] Hfam].
    rewrite Hf. destruct (in_families family); by apply IH.
Qed.

Lemma remove_dummies_family_missing pre i post kept node dm :
  Forall (λ i, is_Some (data i !! "family")) pre →
  data i !! "family" = None →
  remove_dummies (pre ++ i :: post) kept node dm =
    (kept ++ filter (λ j, is_dummy j = false) pre ++ i :: post, Raise (KeyError "family")).
Proof.
  revert kept node dm. induction pre as [|j pre IH]; intros kept node dm Hfam Hi.
  - simpl. by rewrite Hi.
  - apply Forall_cons in Hfam as [[family Hf] Hfam]. simpl. rewrite Hf.
    pose proof (is_dummy_family _ _ Hf) as Hd.
    destruct (in_families family).
    + rewrite filter_cons_False by (by rewrite Hd). by apply IH.
    + rewrite filter_cons_True by done. rewrite IH by done.
      by rewrite <- app_assoc.
Qed.

(** X1. A context that holds no placeholder instance: the pass raises
    [AssertionError("This is a bug.")] and leaves the session and the
    context exactly as they were. *)
Theorem process_without_placeholder env s ctx :
  Forall (λ i, is_Some (data i !! "family")) (instances ctx) →
  Forall (λ i, is_dummy i = false) (instances ctx) →
  process env (s, ctx) = ((s, ctx), Raise (AssertionError "This is a bug.")).
Proof.
  intros Hfam Hno. rewrite process_run. unfold kept_instances.
  rewrite remove_dummies_none by done. simpl. by destruct ctx.
Qed.

Lemma process_without_placeholder_witness :
  process example_env
    (example_scene,
     {| instances := [ {| name := "modelDefault"; members := ["|grp"];
                          data := {[ "family" := VStr "reveries.model" ]} |} ];
        cdata := ∅ |}) =
  ((example_scene,
    {| instances := [ {| name := "modelDefault"; members := ["|grp"];
                         data := {[ "family" := VStr "reveries.model" ]} |} ];
       cdata := ∅ |}),
   Raise (AssertionError "This is a bug.")).
Proof.
  apply process_without_placeholder; simpl.
  - constructor; [by eexists|constructor].
  - constructor; [by vm_compute|constructor].
Defined.

(** X2. A placeholder that holds nothing, or [None], under
    ["objectName"]: when it is the last placeholder of the context, the
    pass raises the same [AssertionError], but only after every
    placeholder has been taken out of the context. *)
Theorem process_placeholder_without_node env s ctx pre i post :
  instances ctx = pre ++ i :: post →
  Forall (λ i, is_Some (data i !! "family")) (instances ctx) →
  is_dummy i = true →
  Forall (λ j, is_dummy j = false) post →
  default VNone (data i !! "objectName") = VNone →
  process env (s, ctx) =
    ((s, {| instances := filter (λ j, is_dummy j = false) pre ++ post;
            cdata := cdata ctx |}),
     Raise (AssertionError "This is a bug.")).
Proof.
  intros Hctx Hfam Hi Hpost Hnode. rewrite process_run. unfold kept_instances.
  rewrite Hctx in Hfam |- *.
  rewrite remove_dummies_last by done. rewrite Hnode.
  destruct (remove_dummies_families (pre ++ i :: post) [] VNone [] Hfam)
    as (n' & d' & ->). simpl.
  rewrite filter_app, filter_cons_False by (by rewrite Hi).
  do 3 f_equal. f_equal.
  clear -Hpost. induction Hpost as [|j post Hj _ IH]; [done|].
  by rewrite filter_cons_True, IH.
Qed.

Lemma process_placeholder_without_node_witness :
  process example_env
    (example_scene,
     {| instances := [ {| name := "imgseqDefault"; members := ["|cam"];
                          data := {[ "family" := VStr "reveries.imgseq" ]} |};
                       {| name := "modelDefault"; members := ["|grp"];
                          data := {[ "family" := VStr "reveries.model" ]} |} ];
        cdata := ∅ |}) =
  ((example_scene,
    {| instances := [ {| name := "modelDefault"; members := ["|grp"];
                         data := {[ "family" := VStr "reveries.model" ]} |} ];
       cdata := ∅ |}),
   Raise (AssertionError "This is a bug.")).
Proof.
  refine (eq_trans (process_placeholder_without_node example_env example_scene _ []
           {| name := "imgseqDefault"; members := ["|cam"];
              data := {[ "family" := VStr "reveries.imgseq" ]} |}
           [ {| name := "modelDefault"; members := ["|grp"];
                data := {[ "family" := VStr "reveries.model" ]} |} ] _ _ _ _ _) _).
  - reflexivity.
  - simpl. repeat constructor; by eexists.
  - by vm_compute.
  - constructor; [by vm_compute|constructor].
  - by vm_compute.
  - reflexivity.
Defined.

(** X3. An instance without a ["family"]: the pass raises
    [KeyError("family")] when it reaches it. The placeholders in front of
    it are gone from the context by then; the instance itself and
    everything behind it, placeholders included, are still there. *)
Theorem process_family_missing env s ctx pre i post :
  instances ctx = pre ++ i :: post →
  Forall (λ i, is_Some (data i !! "family")) pre →
  data i !! "family" = None →
  process env (s, ctx) =
    ((s, {| instances := filter (λ j, is_dummy j = false) pre ++ i :: post;
            cdata := cdata ctx |}),
     Raise (KeyError "family")).
Proof.
  intros Hctx Hfam Hi. rewrite process_run. unfold kept_instances.
  rewrite Hctx. by rewrite remove_dummies_family_missing.
Qed.

Lemma process_family_missing_witness :
  process example_env
    (example_scene,
     {| instances := [ {| name := "imgseqDefault"; members := ["|cam"];
                          data := {[ "family" := VStr "reveries.imgseq" ]} |};
                       {| name := "broken"; members := []; data := ∅ |};
                       {| name := "imgseqOther"; members := [];
                          data := {[ "family" := VStr "reveries.imgseq" ]} |} ];
        cdata := ∅ |}) =
  ((example_scene,
    {| instances := [ {| name := "broken"; members := []; data := ∅ |};
                      {| name := "imgseqOther"; members := [];
                         data := {[ "family" := VStr "reveries.imgseq" ]} |} ];
       cdata := ∅ |}),
   Raise (KeyError "family")).
Proof.
  refine (eq_trans (process_family_missing example_env example_scene _
           [ {| name := "imgseqDefault"; members := ["|cam"];
                data := {[ "family" := VStr "reveries.imgseq" ]} |} ]
           {| name := "broken"; members := []; data := ∅ |}
           [ {| name := "imgseqOther"; members := [];
                data := {[ "family" := VStr "reveries.imgseq" ]} |} ] _ _ _) _).
  - reflexivity.
  - repeat constructor; by eexists.
  - reflexivity.
  - reflexivity.
Defined.

(** ** The variants, run to their end *)

Lemma lookup_with_contractor_ne enable contractor d k :
  k ≠ "useContractor" → k ≠ "publishContractor" →
  with_contractor enable contractor d !! k = d !! k.
Proof.
  intros ? ?. unfold with_contractor. destruct (truthy enable); [|done].
  by rewrite !lookup_insert_ne.
Qed.

Lemma lookup_with_lock_ne s d k :
  k ≠ "optional" → k ≠ "publish" → with_lock s d !! k = d !! k.
Proof.
  intros ? ?. unfold with_lock. destruct (is_locked s); [done|].
  by rewrite !lookup_insert_ne.
Qed.

Lemma lookup_with_defaults_ne d k :
  k ∉ ["families"; "family"; "_privilege_on_lock"; "futureDependencies"; "dependencies"] →
  with_defaults d !! k = d !! k.
Proof.
  intros Hk. unfold with_defaults.
  rewrite !lookup_insert_ne; [done|..]; intros <-; apply Hk; set_solver.
Qed.

Lemma assign_contractor_run contractor s i :
  assign_contractor contractor (s, i) =
    match data i !! "deadlineEnable" with
    | None => ((s, i), Raise (KeyError "deadlineEnable"))
    | Some enable =>
        ((s, {| name := name i; members := members i;
                data := with_contractor enable contractor (data i) |}), Ok ())
    end.
Proof.
  unfold assign_contractor, with_contractor, mbind, se_bind, on_snd, data_get, data_set.
  simpl. destruct (data i !! "deadlineEnable") as [enable|]; [|done].
  destruct (truthy enable); [done|]. by destruct i.
Qed.

Lemma publish_on_lock_run s i :
  publish_on_lock (s, i) =
    ((s, {| name := name i; members := members i; data := with_lock s (data i) |}), Ok ()).
Proof.
  unfold publish_on_lock, with_lock, mbind, se_bind, on_snd, on_fst, query, data_set.
  simpl. destruct (is_locked s); [by destruct i|done].
Qed.

Lemma instance_hierarchy_run s i :
  instance_hierarchy (s, i) =
    ((s, i), match listRelatives_allDescendents (members i) s with
             | Some below => Ok (members i ++ below)
             | None => Raise (TypeError "'NoneType' object is not iterable")
             end).
Proof.
  unfold instance_hierarchy, mbind, se_bind, on_snd, on_fst, query, get_members.
  simpl. destruct (listRelatives_allDescendents (members i) s); by destruct i.
Qed.

(** [process_playblast], step by step. *)
Lemma process_playblast_run cdata layer s i :
  process_playblast cdata layer (s, i) =
    let d1 := with_lock s (playblast_head (data i)) in
    match data i !! "deadlineEnable" with
    | None => ((s, with_data i d1), Raise (KeyError "deadlineEnable"))
    | Some enable =>
        let d2 := with_contractor enable "deadline.maya.script" d1 in
        match listRelatives_allDescendents (members i) s with
        | None => ((s, with_data i d2), Raise (TypeError "'NoneType' object is not iterable"))
        | Some below =>
            ((s, with_data i
                   (<["renderCam" := VStrs (ls_type (members i ++ below) "camera" false s)]> d2)),
             Ok ())
        end
    end.
Proof.
  unfold process_playblast, playblast_head, with_data.
  unfold mbind at 1 2. unfold se_bind at 1 2. unfold on_snd at 1 2, data_set at 1 2. simpl.
  unfold mbind at 1. unfold se_bind at 1. rewrite publish_on_lock_run. simpl.
  unfold mbind at 1. unfold se_bind at 1. rewrite assign_contractor_run. simpl.
  rewrite lookup_with_lock_ne, !lookup_insert_ne by done.
  destruct (data i !! "deadlineEnable") as [enable|]; [|done]. simpl.
  unfold mbind at 1. unfold se_bind at 1. rewrite instance_hierarchy_run. simpl.
  by destruct (listRelatives_allDescendents (members i) s) as [below|].
Qed.

Lemma update_subset_run s i :
  update_subset (s, i) =
    match data i !! "subset" with
    | None => ((s, i), Raise (KeyError "subset"))
    | Some subset =>
        match iadd_str subset ("." +:+ name i) with
        | Raise e => ((s, i), Raise e)
        | Ok subset' => ((s, with_data i (<["subset" := subset']> (data i))), Ok ())
        end
    end.
Proof.
  unfold update_subset, mbind, se_bind, on_snd, data_get, get_name, lift, data_set, with_data.
  simpl. destruct (data i !! "subset") as [subset|]; [|by destruct i]. simpl.
  destruct (iadd_str subset ("." +:+ name i)); by destruct i.
Qed.

Section VariantRuns.
Context (env : PyEnv).

Lemma collect_renderable_cameras_run layer s i :
  collect_renderable_cameras env layer (s, i) =
    match listRelatives_allDescendents (members i) s with
    | None => ((s, i), Raise (TypeError "'NoneType' object is not iterable"))
    | Some below =>
        match (ls_renderable_cameras env layer s).2 with
        | Raise e => ((s, i), Raise e)
        | Ok renderable_cam =>
            ((s, with_data i
                   (<["renderCam" :=
                        VStrs (elements
                          ((list_to_set (ls_type (members i ++ below) "camera" false s)
                              : gset string) ∩ list_to_set renderable_cam))]> (data i))),
             Ok ())
        end
    end.
Proof.
  unfold collect_renderable_cameras.
  unfold mbind at 1. unfold se_bind at 1. rewrite instance_hierarchy_run.
  destruct (listRelatives_allDescendents (members i) s) as [below|]; [|done].
  unfold mbind, se_bind, on_fst, on_snd, query, data_set, with_data. simpl.
  pose proof (pure_ls_renderable_cameras env layer s) as Hp.
  destruct (ls_renderable_cameras env layer s) as [s1 [rc|e]]; simpl in *; subst s1;
    [done|by destruct i].
Qed.

Lemma collect_output_paths_run cdata s i :
  collect_output_paths env cdata (s, i) =
    match data i !! "renderer" with
    | None => ((s, i), Raise (KeyError "renderer"))
    | Some renderer =>
        match data i !! "renderlayer" with
        | None => ((s, i), Raise (KeyError "renderlayer"))
        | Some layer =>
            match cdata !! "outputDir" with
            | None => ((s, i), Raise (KeyError "outputDir"))
            | Some output_dir =>
                match compose_paths env s layer output_dir
                        (aov_names_of env renderer layer s ++ [""]) [] with
                | Raise e => ((s, i), Raise e)
                | Ok paths =>
                    ((s, with_data i (<["outputPaths" := VDict paths]> (data i))), Ok ())
                end
            end
        end
    end.
Proof.
  unfold collect_output_paths, mbind, se_bind, on_fst, on_snd, query, data_get, data_set,
    lift, dict_get, with_data. simpl.
  destruct (data i !! "renderer") as [renderer|]; [|by destruct i]. simpl.
  destruct (data i !! "renderlayer") as [lyr|]; [|by destruct i]. simpl.
  destruct (cdata !! "outputDir") as [dir|]; [|by destruct i]. simpl.
  destruct (compose_paths env s lyr dir _ []); by destruct i.
Qed.

End VariantRuns.

Lemma set_extraction_type_run s i :
  set_extraction_type (s, i) =
    match data i !! "outputPaths" with
    | None => ((s, i), Raise (KeyError "outputPaths"))
    | Some paths =>
        match py_len paths with
        | Raise e => ((s, i), Raise e)
        | Ok n =>
            ((s, with_data i
                   (<["extractType" :=
                        VStr (if (1 <? n)%nat then "imageSequenceSet" else "imageSequence")]>
                      (data i))), Ok ())
        end
    end.
Proof.
  unfold set_extraction_type, mbind, se_bind, on_snd, data_get, data_set, lift, with_data.
  simpl. destruct (data i !! "outputPaths") as [paths|]; [|by destruct i]. simpl.
  destruct (py_len paths) as [n|]; [|by destruct i]. simpl.
  by destruct (1 <? n)%nat.
Qed.

Ltac bind_step := unfold mbind at 1; unfold se_bind at 1.

Section VariantEnds.
Context (env : PyEnv).

(** What [process_turntable] and [process_batchrender] share, when it
    returns. *)
Lemma render_tail_inv cdata layer s i st' :
  (assign_contractor "deadline.maya.render";;
   collect_renderable_cameras env layer;;
   collect_output_paths env cdata;;
   set_extraction_type) (s, i) = (st', Ok ()) →
  ∃ enable below rc renderer lyr dir paths,
    data i !! "deadlineEnable" = Some enable ∧
    listRelatives_allDescendents (members i) s = Some below ∧
    (ls_renderable_cameras env layer s).2 = Ok rc ∧
    data i !! "renderer" = Some renderer ∧
    data i !! "renderlayer" = Some lyr ∧
    cdata !! "outputDir" = Some dir ∧
    compose_paths env s lyr dir (aov_names_of env renderer lyr s ++ [""]) [] = Ok paths ∧
    st' = (s, with_data i (
      with_outputs (shared_cameras (ls_type (members i ++ below) "camera" false s) rc) paths (
      with_contractor enable "deadline.maya.render" (data i)))).
Proof.
  bind_step. rewrite assign_contractor_run.
  destruct (data i !! "deadlineEnable") as [enable|] eqn:He; [|done].
  bind_step. rewrite collect_renderable_cameras_run. simpl.
  destruct (listRelatives_allDescendents (members i) s) as [below|] eqn:Hb; [|done].
  destruct (ls_renderable_cameras env layer s).2 as [rc|] eqn:Hrc; [|done].
  bind_step. rewrite collect_output_paths_run. simpl.
  rewrite !lookup_insert_ne, !lookup_with_contractor_ne by done.
  destruct (data i !! "renderer") as [renderer|] eqn:Hr; [|done].
  destruct (data i !! "renderlayer") as [lyr|] eqn:Hl; [|done].
  destruct (cdata !! "outputDir") as [dir|] eqn:Hd; [|done].
  destruct (compose_paths env s lyr dir _ []) as [paths|] eqn:Hp; [|done].
  rewrite set_extraction_type_run. simpl. rewrite lookup_insert_eq. simpl.
  intros [= <-]. by exists enable, below, rc, renderer, lyr, dir, paths.
Qed.

(** [process_batchrender], when it returns. *)
Lemma process_batchrender_inv cdata layer s i st' :
  process_batchrender env cdata layer (s, i) = (st', Ok ()) →
  ∃ subset subset' renderer category enable below rc lyr dir paths,
    data i !! "subset" = Some subset ∧
    iadd_str subset ("." +:+ name i) = Ok subset' ∧
    data i !! "renderer" = Some renderer ∧
    str_add "Render: " renderer = Ok category ∧
    data i !! "deadlineEnable" = Some enable ∧
    listRelatives_allDescendents (members i) s = Some below ∧
    (ls_renderable_cameras env layer s).2 = Ok rc ∧
    data i !! "renderlayer" = Some lyr ∧
    cdata !! "outputDir" = Some dir ∧
    compose_paths env s lyr dir (aov_names_of env renderer lyr s ++ [""]) [] = Ok paths ∧
    st' = (s, with_data i (
      with_outputs (shared_cameras (ls_type (members i ++ below) "camera" false s) rc) paths (
      with_contractor enable "deadline.maya.render" (
      render_head subset' category "reveries.imgseq.batchrender" (data i))))).
Proof.
  unfold process_batchrender.
  bind_step. rewrite update_subset_run.
  destruct (data i !! "subset") as [subset|] eqn:Hs; [|done].
  destruct (iadd_str subset ("." +:+ name i)) as [subset'|] eqn:Hs'; [|done].
  bind_step. unfold on_snd at 1, data_set at 1. simpl.
  bind_step. unfold on_snd at 1, data_get at 1. simpl.
  rewrite !lookup_insert_ne by done.
  destruct (data i !! "renderer") as [renderer|] eqn:Hr; [|done].
  bind_step. unfold lift at 1.
  destruct (str_add "Render: " renderer) as [category|] eqn:Hc; [|done].
  bind_step. unfold on_snd at 1, data_set at 1. simpl.
  intros Htail. apply render_tail_inv in Htail
    as (enable & below & rc & renderer' & lyr & dir & paths & He & Hb & Hrc & Hr' & Hl & Hd
          & Hp & ->).
  simpl in *. rewrite !lookup_insert_ne in He, Hr', Hl by done.
  rewrite Hr in Hr'. injection Hr' as <-.
  by exists subset, subset', renderer, category, enable, below, rc, lyr, dir, paths.
Qed.

(** [process_turntable], when it returns. *)
Lemma process_turntable_inv cdata layer s i st' :
  process_turntable env cdata layer (s, i) = (st', Ok ()) →
  ∃ subset subset' renderer category enable below rc lyr dir paths,
    data i !! "subset" = Some subset ∧
    iadd_str subset ("." +:+ name i) = Ok subset' ∧
    data i !! "renderer" = Some renderer ∧
    str_add "Turntable: " renderer = Ok category ∧
    data i !! "deadlineEnable" = Some enable ∧
    listRelatives_allDescendents (members i) s = Some below ∧
    (ls_renderable_cameras env layer s).2 = Ok rc ∧
    data i !! "renderlayer" = Some lyr ∧
    cdata !! "outputDir" = Some dir ∧
    compose_paths env s lyr dir (aov_names_of env renderer lyr s ++ [""]) [] = Ok paths ∧
    st' = (s, with_data i (
      with_outputs (shared_cameras (ls_type (members i ++ below) "camera" false s) rc) paths (
      with_contractor enable "deadline.maya.render" (
      with_lock s (
      render_head subset' category "reveries.imgseq.turntable" (data i)))))).
Proof.
  unfold process_turntable.
  bind_step. rewrite update_subset_run.
  destruct (data i !! "subset") as [subset|] eqn:Hs; [|done].
  destruct (iadd_str subset ("." +:+ name i)) as [subset'|] eqn:Hs'; [|done].
  bind_step. unfold on_snd at 1, data_set at 1. simpl.
  bind_step. unfold on_snd at 1, data_get at 1. simpl.
  rewrite !lookup_insert_ne by done.
  destruct (data i !! "renderer") as [renderer|] eqn:Hr; [|done].
  bind_step. unfold lift at 1.
  destruct (str_add "Turntable: " renderer) as [category|] eqn:Hc; [|done].
  bind_step. unfold on_snd at 1, data_set at 1. simpl.
  bind_step. rewrite publish_on_lock_run. simpl.
  intros Htail. apply render_tail_inv in Htail
    as (enable & below & rc & renderer' & lyr & dir & paths & He & Hb & Hrc & Hr' & Hl & Hd
          & Hp & ->).
  simpl in *. rewrite lookup_with_lock_ne, !lookup_insert_ne in He, Hr', Hl by done.
  rewrite Hr in Hr'. injection Hr' as <-.
  by exists subset, subset', renderer, category, enable, below, rc, lyr, dir, paths.
Qed.

(** [fill_instance] on a fresh instance, when it returns. *)
Lemma fill_instance_inv cdata dummy_members d layer s n st' :
  fill_instance env cdata dummy_members d layer (s, new_instance n) = (st', Ok ()) →
  ∃ t variate i1,
    d !! "renderType" = Some (VStr t) ∧
    getattr_process env (VStr t) = Ok variate ∧
    variate cdata layer
      (s, {| name := n; members := dummy_members; data := with_defaults d |}) =
      ((s, i1), Ok ()) ∧
    st' = (s, with_members layer s i1).
Proof.
  rewrite fill_instance_run. simpl. rewrite (right_id_L ∅ (∪)).
  destruct (d !! "renderType") as [rt|] eqn:Hrt; [|done].
  destruct (getattr_process env rt) as [variate|] eqn:Hv; [|done].
  destruct (getattr_process_known env _ _ Hv) as (t & -> & _).
  bind_step.
  pose proof (keeps_variate env _ _ cdata layer Hv "renderType" ltac:(set_solver)
                s n dummy_members (with_defaults d !! "renderType")
                (s, {| name := n; members := dummy_members; data := with_defaults d |})
                ltac:(done)) as (Hs & _).
  fold (with_defaults d).
  destruct (variate cdata layer _) as [[s1 i1] [[]|e]] eqn:Hrun; [|done].
  simpl in Hs. subst s1. rewrite collect_members_run. intros [= <-].
  by exists t, variate, i1.
Qed.

End VariantEnds.

(** ** Listing commands *)

Lemma none_if_empty_Some {A} (l l' : list A) :
  none_if_empty l = Some l' → l = l' ∧ l' ≠ [].
Proof. destruct l; [done|]. by intros [= <-]. Qed.

Lemma none_if_empty_None {A} (l : list A) : none_if_empty l = None → l = [].
Proof. by destruct l. Qed.

Lemma elem_of_ls_type nodes ty s cam :
  nodes ≠ [] →
  cam ∈ ls_type nodes ty false s ↔
    cam ∈ nodes ∧ ∃ node, node ∈ dag s ∧ dag_path node = cam ∧ dag_type node = ty.
Proof.
  intros Hne. unfold ls_type, dag_select. destruct nodes as [|n0 nodes]; [done|].
  rewrite list_elem_of_fmap. split.
  - intros (node & -> & Hin). apply list_elem_of_filter in Hin as [[Hty _] Hin].
    apply list_elem_of_bind in Hin as (m & Hin & Hm).
    apply list_elem_of_filter in Hin as [<- Hin]. split; [done|]. by exists node.
  - intros (Hin & node & Hnode & <- & Hty). exists node. split; [done|].
    apply list_elem_of_filter. split; [by split|].
    apply list_elem_of_bind. exists (dag_path node). split; [|done].
    by apply list_elem_of_filter.
Qed.

Lemma elem_of_ls_type_all ty s cam :
  cam ∈ ls_type [] ty false s ↔
    ∃ node, node ∈ dag s ∧ dag_path node = cam ∧ dag_type node = ty.
Proof.
  unfold ls_type, dag_select. rewrite list_elem_of_fmap. split.
  - intros (node & -> & Hin). apply list_elem_of_filter in Hin as [[Hty _] Hin].
    by exists node.
  - intros (node & Hnode & <- & Hty). exists node. split; [done|].
    apply list_elem_of_filter. by split.
Qed.

Lemma elem_of_descendants nodes s below :
  listRelatives_allDescendents nodes s = Some below →
  below ≠ [] ∧
  ∀ p, p ∈ below ↔
    ∃ m node, m ∈ targets nodes s ∧ node ∈ dag s ∧ dag_path node = p ∧
              startswith (m +:+ "|") p = true.
Proof.
  unfold listRelatives_allDescendents. intros [<- Hne]%none_if_empty_Some.
  split; [done|]. intros p. rewrite list_elem_of_bind. split.
  - intros (m & Hin & Hm). apply list_elem_of_fmap in Hin as (node & -> & Hin).
    apply list_elem_of_filter in Hin as [Hpre Hin]. exists m, node.
    repeat split; try done. by destruct (startswith _ _).
  - intros (m & node & Hm & Hnode & <- & Hpre). exists m. split; [|done].
    apply list_elem_of_fmap. exists node. split; [done|].
    apply list_elem_of_filter. split; [|done]. by rewrite Hpre.
Qed.

Lemma no_descendants nodes s :
  (∀ m node, m ∈ targets nodes s → node ∈ dag s →
             startswith (m +:+ "|") (dag_path node) = false) →
  listRelatives_allDescendents nodes s = None.
Proof.
  intros Hno. destruct (listRelatives_allDescendents nodes s) as [below|] eqn:Hb; [|done].
  apply elem_of_descendants in Hb as [Hne Hin]. destruct below as [|p below]; [done|].
  destruct (proj1 (Hin p)) as (m & node & Hm & Hnode & <- & Hpre); [left|].
  by rewrite (Hno m node) in Hpre.
Qed.

Lemma elem_of_hierarchy_cameras nodes s below cam :
  listRelatives_allDescendents nodes s = Some below →
  cam ∈ ls_type (nodes ++ below) "camera" false s ↔
    (∃ node, node ∈ dag s ∧ dag_path node = cam ∧ dag_type node = "camera") ∧
    (cam ∈ nodes ∨ ∃ m, m ∈ targets nodes s ∧ startswith (m +:+ "|") cam = true).
Proof.
  intros Hb. apply elem_of_descendants in Hb as [Hne Hin].
  rewrite elem_of_ls_type by (by destruct nodes, below).
  rewrite elem_of_app, Hin. split.
  - intros [[Hn|(m & node & Hm & _ & _ & Hpre)] Hcam]; (split; [done|]);
      [by left|right; by exists m].
  - intros [(node & Hnode & Hp & Hty) [Hn|(m & Hm & Hpre)]]; (split; [|by exists node]);
      [by left|right; by exists m, node].
Qed.

Lemma elem_of_shared_cameras instance_cam renderable_cam cam :
  cam ∈ shared_cameras instance_cam renderable_cam ↔
    cam ∈ instance_cam ∧ cam ∈ renderable_cam.
Proof. unfold shared_cameras. rewrite elem_of_elements. set_solver. Qed.

Lemma NoDup_shared_cameras instance_cam renderable_cam :
  NoDup (shared_cameras instance_cam renderable_cam).
Proof. apply NoDup_elements. Qed.

(** ** Ordered dictionaries *)

Lemma odict_set_keys k v d k' :
  k' ∈ (odict_set k v d).*1 ↔ k' = k ∨ k' ∈ d.*1.
Proof.
  induction d as [|[k0 v0] d IH]; simpl.
  - rewrite list_elem_of_singleton. set_solver.
  - destruct (String.eqb_spec k0 k) as [->|Hne]; simpl.
    + set_solver.
    + rewrite !elem_of_cons, IH. set_solver.
Qed.

Lemma odict_set_NoDup k v d : NoDup d.*1 → NoDup (odict_set k v d).*1.
Proof.
  induction d as [|[k0 v0] d IH]; simpl.
  - intros _. apply NoDup_singleton.
  - intros [Hfresh Hnd]%NoDup_cons. destruct (String.eqb_spec k0 k) as [->|Hne]; simpl.
    + by apply NoDup_cons.
    + apply NoDup_cons. split; [|by apply IH].
      rewrite odict_set_keys. intros [->|?]; done.
Qed.

Lemma odict_set_elem_of k v d k' v' :
  (k', v') ∈ odict_set k v d → (k' = k ∧ v' = v) ∨ (k', v') ∈ d.
Proof.
  induction d as [|[k0 v0] d IH]; simpl.
  - intros [= -> ->]%list_elem_of_singleton. by left.
  - destruct (String.eqb_spec k0 k) as [->|Hne].
    + intros [[= -> ->]|Hin]%elem_of_cons; [by left|]. right. by right.
    + intros [[= -> ->]|Hin]%elem_of_cons; [right; left|].
      destruct (IH Hin) as [?|?]; [by left|right; by right].
Qed.

Lemma compose_paths_spec env s lyr dir names paths r :
  compose_paths env s lyr (VStr dir) names paths = Ok r →
  NoDup paths.*1 →
  NoDup r.*1 ∧
  (∀ k, k ∈ r.*1 ↔ k ∈ paths.*1 ∨ k ∈ names) ∧
  (∀ k v, (k, v) ∈ r →
     (k, v) ∈ paths ∨
     (k ∈ names ∧
      v = VStr (replace_backslash
                  (dir +:+ "/" +:+ compose_render_filename env s lyr (Some k))))).
Proof.
  revert paths. induction names as [|aov rest IH]; intros paths; simpl.
  - intros [= <-] Hnd. split; [done|]. split; [|by left].
    intros k. rewrite elem_of_nil. tauto.
  - intros Hr Hnd. apply IH in Hr as (Hnd' & Hkeys & Hvals); [|by apply odict_set_NoDup].
    split; [done|]. split.
    + intros k. rewrite Hkeys, odict_set_keys, elem_of_cons. tauto.
    + intros k v Hin. destruct (Hvals k v Hin) as [Hset|[Hk ->]].
      * apply odict_set_elem_of in Hset as [[-> ->]|?]; [|by left].
        right. split; [left|done].
      * right. split; [by right|done].
Qed.

Lemma compose_paths_dir env s lyr dir aov rest paths r :
  compose_paths env s lyr dir (aov :: rest) paths = Ok r → ∃ dir', dir = VStr dir'.
Proof. destruct dir; try done. by eexists. Qed.

Lemma NoDup_two {A} (l : list A) x y :
  NoDup l → x ∈ l → y ∈ l → x ≠ y → (1 < length l)%nat.
Proof.
  intros Hnd Hx Hy Hne. destruct l as [|a [|b l]]; simpl; [by apply elem_of_nil in Hx| |lia].
  apply list_elem_of_singleton in Hx, Hy. congruence.
Qed.

Lemma NoDup_one {A} (l : list A) a :
  NoDup l → (∀ x, x ∈ l → x = a) → (length l ≤ 1)%nat.
Proof.
  intros Hnd Hall. destruct l as [|x [|y l]]; simpl; [lia..|].
  apply NoDup_cons in Hnd as [Hx _]. exfalso. apply Hx.
  rewrite (Hall x) by left. rewrite <- (Hall y) at 1 by (right; left). left.
Qed.

(** ** What a filled instance holds *)

Ltac lookup_step :=
  first [ rewrite lookup_insert_eq
        | rewrite lookup_insert_ne by done
        | rewrite lookup_with_contractor_ne by done
        | rewrite lookup_with_lock_ne by done
        | rewrite lookup_with_defaults_ne by set_solver ].

Ltac lookup_data :=
  unfold with_members, with_data, with_outputs, render_head, playblast_head; simpl;
  repeat lookup_step.

Section Filled.
Context (env : PyEnv).

(** The three ways [fill_instance] returns on a fresh instance. *)
Lemma fill_instance_cases cdata dummy_members d layer s n st' :
  fill_instance env cdata dummy_members d layer (s, new_instance n) = (st', Ok ()) →
  ∃ t enable below,
    d !! "renderType" = Some (VStr t) ∧
    d !! "deadlineEnable" = Some enable ∧
    listRelatives_allDescendents dummy_members s = Some below ∧
    let i0 := {| name := n; members := dummy_members; data := with_defaults d |} in
    let instance_cam := ls_type (dummy_members ++ below) "camera" false s in
    ((t = "playblast" ∧
      st' = (s, with_members layer s (with_data i0 (
               <["renderCam" := VStrs instance_cam]> (
               with_contractor enable "deadline.maya.script" (
               with_lock s (playblast_head (with_defaults d)))))))) ∨
     (∃ subset subset' renderer category rc lyr dir paths,
        d !! "subset" = Some subset ∧
        iadd_str subset ("." +:+ n) = Ok subset' ∧
        d !! "renderer" = Some renderer ∧
        (ls_renderable_cameras env layer s).2 = Ok rc ∧
        d !! "renderlayer" = Some lyr ∧
        cdata !! "outputDir" = Some dir ∧
        compose_paths env s lyr dir (aov_names_of env renderer lyr s ++ [""]) [] = Ok paths ∧
        ((t = "turntable" ∧ str_add "Turntable: " renderer = Ok category ∧
          st' = (s, with_members layer s (with_data i0 (
                   with_outputs (shared_cameras instance_cam rc) paths (
                   with_contractor enable "deadline.maya.render" (
                   with_lock s (
                   render_head subset' category "reveries.imgseq.turntable"
                     (with_defaults d)))))))) ∨
         (t = "batchrender" ∧ str_add "Render: " renderer = Ok category ∧
          st' = (s, with_members layer s (with_data i0 (
                   with_outputs (shared_cameras instance_cam rc) paths (
                   with_contractor enable "deadline.maya.render" (
                   render_head subset' category "reveries.imgseq.batchrender"
                     (with_defaults d)))))))))).
Proof.
  intros Hrun. apply fill_instance_inv in Hrun as (t & variate & i1 & Ht & Hv & Hrun & ->).
  assert (∀ k, k ∉ ["families"; "family"; "_privilege_on_lock"; "futureDependencies";
                    "dependencies"] → with_defaults d !! k = d !! k) as Hd
    by apply lookup_with_defaults_ne.
  unfold getattr_process in Hv.
  destruct (String.eqb_spec t "playblast") as [->|_].
  { injection Hv as <-. rewrite process_playblast_run in Hrun. simpl in Hrun.
    rewrite Hd in Hrun by set_solver.
    destruct (d !! "deadlineEnable") as [enable|] eqn:He; [|done].
    destruct (listRelatives_allDescendents dummy_members s) as [below|] eqn:Hb; [|done].
    injection Hrun as <-. exists "playblast", enable, below.
    split; [done|]. split; [done|]. split; [done|]. by left. }
  destruct (String.eqb_spec t "turntable") as [->|_].
  { injection Hv as <-. apply process_turntable_inv in Hrun
      as (subset & subset' & renderer & category & enable & below & rc & lyr & dir & paths
          & Hs & Hs' & Hr & Hc & He & Hb & Hrc & Hl & Hdir & Hp & [= ->]).
    simpl in *. rewrite Hd in Hs, Hr, He, Hl by set_solver.
    exists "turntable", enable, below.
    split; [done|]. split; [done|]. split; [done|]. right.
    exists subset, subset', renderer, category, rc, lyr, dir, paths.
    repeat (split; [done|]). by left. }
  destruct (String.eqb_spec t "batchrender") as [->|_]; [|done].
  injection Hv as <-. apply process_batchrender_inv in Hrun
    as (subset & subset' & renderer & category & enable & below & rc & lyr & dir & paths
        & Hs & Hs' & Hr & Hc & He & Hb & Hrc & Hl & Hdir & Hp & [= ->]).
  simpl in *. rewrite Hd in Hs, Hr, He, Hl by set_solver.
  exists "batchrender", enable, below.
  split; [done|]. split; [done|]. split; [done|]. right.
  exists subset, subset', renderer, category, rc, lyr, dir, paths.
  repeat (split; [done|]). by right.
Qed.

Ltac filled_cases Hok :=
  match goal with
  | |- context [fill_instance ?e ?c ?dm ?d ?l ?st] =>
      let Hrun := fresh "Hrun" in
      destruct (fill_instance e c dm d l st) as [st' r] eqn:Hrun;
      simpl in Hok |- *; subst r;
      apply fill_instance_cases in Hrun
        as (t & enable & below & Ht & He & Hb
            & [[-> ->]
              |(subset & subset' & renderer & category & rc & lyr & dir & paths
                & Hs & Hs' & Hr & Hrc & Hl & Hdir & Hp
                & [(-> & Hc & ->)|(-> & Hc & ->)])])
  end.

(** X4. The subset of a filled instance. A playblast instance keeps the
    subset gathered for its layer; a turntable and a batchrender instance
    get the name of the instance appended to it behind a dot. *)
Theorem filled_subset cdata dummy_members d layer s n :
  let out := fill_instance env cdata dummy_members d layer (s, new_instance n) in
  out.2 = Ok () →
  ∃ t, d !! "renderType" = Some (VStr t) ∧
    (t = "playblast" → data out.1.2 !! "subset" = d !! "subset") ∧
    (t ≠ "playblast" →
       ∃ subset subset',
         d !! "subset" = Some subset ∧
         iadd_str subset ("." +:+ n) = Ok subset' ∧
         data out.1.2 !! "subset" = Some subset' ∧
         (∀ u, subset = VStr u → subset' = VStr (u +:+ "." +:+ n))).
Proof.
  intros out Hok. subst out. filled_cases Hok.
  - exists "playblast". split; [done|]. split; [|done]. intros _. by lookup_data.
  - exists "turntable". split; [done|]. split; [done|]. intros _.
    exists subset, subset'. split; [done|]. split; [done|]. split; [by lookup_data|].
    intros u ->. simpl in Hs'. by injection Hs' as <-.
  - exists "batchrender". split; [done|]. split; [done|]. intros _.
    exists subset, subset'. split; [done|]. split; [done|]. split; [by lookup_data|].
    intros u ->. simpl in Hs'. by injection Hs' as <-.
Qed.

(** X5. The shadow family and the category of a filled instance. The
    only entry of ["families"] is ["reveries.imgseq."] followed by the
    render type; the category is ["Playblast"] for a playblast, and
    ["Turntable: "] or ["Render: "] followed by the renderer, which is then
    a string, for the other two. *)
Theorem filled_category cdata dummy_members d layer s n :
  let out := fill_instance env cdata dummy_members d layer (s, new_instance n) in
  out.2 = Ok () →
  ∃ t, d !! "renderType" = Some (VStr t) ∧
    data out.1.2 !! "families" = Some (VStrs ["reveries.imgseq." +:+ t]) ∧
    (t = "playblast" → data out.1.2 !! "category" = Some (VStr "Playblast")) ∧
    (t = "turntable" →
       ∃ r, d !! "renderer" = Some (VStr r) ∧
            data out.1.2 !! "category" = Some (VStr ("Turntable: " +:+ r))) ∧
    (t = "batchrender" →
       ∃ r, d !! "renderer" = Some (VStr r) ∧
            data out.1.2 !! "category" = Some (VStr ("Render: " +:+ r))).
Proof.
  intros out Hok. subst out. filled_cases Hok.
  - exists "playblast". split; [done|]. split; [by lookup_data|].
    split; [intros _; by lookup_data|]. by split.
  - exists "turntable". split; [done|]. split; [by lookup_data|].
    split; [done|]. split; [|done]. intros _.
    destruct renderer as [| | | |r| |]; try done. injection Hc as <-.
    exists r. split; [done|]. by lookup_data.
  - exists "batchrender". split; [done|]. split; [by lookup_data|].
    split; [done|]. split; [done|]. intros _.
    destruct renderer as [| | | |r| |]; try done. injection Hc as <-.
    exists r. split; [done|]. by lookup_data.
Qed.

(** X6. The contractor of a filled instance. With a true
    ["deadlineEnable"] the instance ends with ["useContractor"] set and
    with ["deadline.maya.script"] for a playblast, ["deadline.maya.render"]
    for the other two, under ["publishContractor"]; otherwise both keys
    hold what the gathered settings held there. *)
Theorem filled_contractor cdata dummy_members d layer s n :
  let out := fill_instance env cdata dummy_members d layer (s, new_instance n) in
  out.2 = Ok () →
  ∃ t enable,
    d !! "renderType" = Some (VStr t) ∧ d !! "deadlineEnable" = Some enable ∧
    (truthy enable = true →
       data out.1.2 !! "useContractor" = Some (VBool true) ∧
       data out.1.2 !! "publishContractor" =
         Some (VStr (if String.eqb t "playblast" then "deadline.maya.script"
                     else "deadline.maya.render"))) ∧
    (truthy enable = false →
       data out.1.2 !! "useContractor" = d !! "useContractor" ∧
       data out.1.2 !! "publishContractor" = d !! "publishContractor").
Proof.
  intros out Hok. subst out.
  filled_cases Hok; eexists _, enable; (split; [done|]); (split; [done|]);
    unfold with_members, with_data, with_outputs, render_head, playblast_head,
      with_contractor; simpl;
    (split; intros ->; split; by repeat lookup_step).
Qed.

(** X7. The cameras of a playblast instance: every camera that is a
    member of the placeholder or lies below one, renderable or not. *)
Theorem filled_playblast_cameras cdata dummy_members d layer s n :
  d !! "renderType" = Some (VStr "playblast") →
  let out := fill_instance env cdata dummy_members d layer (s, new_instance n) in
  out.2 = Ok () →
  ∃ cams,
    data out.1.2 !! "renderCam" = Some (VStrs cams) ∧
    ∀ cam, cam ∈ cams ↔
      (∃ node, node ∈ dag s ∧ dag_path node = cam ∧ dag_type node = "camera") ∧
      (cam ∈ dummy_members ∨
       ∃ m, m ∈ targets dummy_members s ∧ startswith (m +:+ "|") cam = true).
Proof.
  intros Hplay out Hok. subst out.
  filled_cases Hok; rewrite Hplay in Ht; try done.
  exists (ls_type (dummy_members ++ below) "camera" false s).
  split; [by lookup_data|]. intros cam. by apply elem_of_hierarchy_cameras.
Qed.

(** X8. The cameras of a turntable and of a batchrender instance: the
    cameras that are a member of the placeholder or lie below one and that
    [ls_renderable_cameras] lists for the layer, each of them once. *)
Theorem filled_render_cameras cdata dummy_members d layer s n :
  d !! "renderType" ≠ Some (VStr "playblast") →
  let out := fill_instance env cdata dummy_members d layer (s, new_instance n) in
  out.2 = Ok () →
  ∃ cams renderable_cam,
    (ls_renderable_cameras env layer s).2 = Ok renderable_cam ∧
    data out.1.2 !! "renderCam" = Some (VStrs cams) ∧
    NoDup cams ∧
    ∀ cam, cam ∈ cams ↔
      cam ∈ renderable_cam ∧
      (∃ node, node ∈ dag s ∧ dag_path node = cam ∧ dag_type node = "camera") ∧
      (cam ∈ dummy_members ∨
       ∃ m, m ∈ targets dummy_members s ∧ startswith (m +:+ "|") cam = true).
Proof.
  intros Hplay out Hok. subst out.
  filled_cases Hok; [done|..];
    (exists (shared_cameras (ls_type (dummy_members ++ below) "camera" false s) rc), rc;
     split; [done|]; split; [by lookup_data|]; split; [apply NoDup_shared_cameras|];
     intros cam; rewrite elem_of_shared_cameras, elem_of_hierarchy_cameras by done; tauto).
Qed.

(** X9. The output paths of a turntable and of a batchrender instance,
    whatever the renderer reports. The keys of ["outputPaths"] are the
    channel names the renderer reports and the empty name, each of them
    once; every value is the output directory, a slash and the file name
    composed for the layer and the channel, with the backslashes replaced;
    and ["extractType"] is ["imageSequenceSet"] exactly when the renderer
    reports a channel name that is not empty. *)
Theorem filled_output_paths cdata dummy_members d layer s n :
  d !! "renderType" ≠ Some (VStr "playblast") →
  let out := fill_instance env cdata dummy_members d layer (s, new_instance n) in
  out.2 = Ok () →
  ∃ renderer lyr dir paths,
    d !! "renderer" = Some renderer ∧ d !! "renderlayer" = Some lyr ∧
    cdata !! "outputDir" = Some (VStr dir) ∧
    data out.1.2 !! "outputPaths" = Some (VDict paths) ∧
    NoDup paths.*1 ∧
    (∀ aov, aov ∈ paths.*1 ↔ aov = "" ∨ aov ∈ aov_names_of env renderer lyr s) ∧
    (∀ aov v, (aov, v) ∈ paths →
       v = VStr (replace_backslash
                   (dir +:+ "/" +:+ compose_render_filename env s lyr (Some aov)))) ∧
    data out.1.2 !! "extractType" =
      Some (VStr (if bool_decide (Exists (λ aov, aov ≠ "") (aov_names_of env renderer lyr s))
                  then "imageSequenceSet" else "imageSequence")).
Proof.
  intros Hplay out Hok. subst out.
  assert (∀ renderer lyr dir paths,
    compose_paths env s lyr dir (aov_names_of env renderer lyr s ++ [""]) [] = Ok paths →
    ∃ dir', dir = VStr dir' ∧
      NoDup paths.*1 ∧
      (∀ aov, aov ∈ paths.*1 ↔ aov = "" ∨ aov ∈ aov_names_of env renderer lyr s) ∧
      (∀ aov v, (aov, v) ∈ paths →
         v = VStr (replace_backslash
                     (dir' +:+ "/" +:+ compose_render_filename env s lyr (Some aov)))) ∧
      (1 <? length paths)%nat =
        bool_decide (Exists (λ aov, aov ≠ "") (aov_names_of env renderer lyr s)))
    as Hpaths.
  { intros renderer lyr dir paths Hp.
    assert (∃ dir', dir = VStr dir') as [dir' ->].
    { destruct (aov_names_of env renderer lyr s); by eapply compose_paths_dir. }
    exists dir'. split; [done|].
    apply compose_paths_spec in Hp as (Hnd & Hkeys & Hvals); [|apply NoDup_nil_2].
    assert (∀ aov, aov ∈ paths.*1 ↔ aov = "" ∨ aov ∈ aov_names_of env renderer lyr s)
      as Hkeys'.
    { intros aov. rewrite Hkeys, elem_of_app, list_elem_of_singleton, elem_of_nil. tauto. }
    split; [done|]. split; [done|]. split.
    { intros aov v Hin. destruct (Hvals aov v Hin) as [?%elem_of_nil|[_ ?]]; done. }
    rewrite <- (length_fmap fst paths).
    destruct (decide (Exists (λ aov, aov ≠ "") (aov_names_of env renderer lyr s)))
      as [Hex|Hex].
    - rewrite bool_decide_eq_true_2 by done. apply Nat.ltb_lt.
      apply Exists_exists in Hex as (aov & Hin & Hne).
      apply (NoDup_two _ aov ""); [done|apply Hkeys'; by right|apply Hkeys'; by left|done].
    - rewrite bool_decide_eq_false_2 by done. apply Nat.ltb_ge.
      apply (NoDup_one _ ""); [done|]. intros aov [->|Hin]%Hkeys'; [done|].
      destruct (decide (aov = "")) as [->|Hne]; [done|].
      exfalso. apply Hex, Exists_exists. by exists aov. }
  filled_cases Hok; [done|..];
    (destruct (Hpaths _ _ _ _ Hp) as (dir' & -> & Hnd & Hkeys & Hvals & Hlen);
     exists renderer, lyr, dir', paths;
     split; [done|]; split; [done|]; split; [done|]; split; [by lookup_data|];
     split; [done|]; split; [done|]; split; [done|];
     lookup_data; by rewrite Hlen).
Qed.

(** X10. A placeholder whose members have nothing below them in the DAG:
    [fill_instance] never returns, whatever the render type; for a
    playblast with a ["deadlineEnable"] it raises the [TypeError] of adding
    [None] to a list, and leaves the instance with the members of the
    placeholder and without a ["renderCam"] of its own. *)
Theorem filled_without_descendants cdata dummy_members d layer s n :
  (∀ m node, m ∈ targets dummy_members s → node ∈ dag s →
             startswith (m +:+ "|") (dag_path node) = false) →
  let out := fill_instance env cdata dummy_members d layer (s, new_instance n) in
  out.2 ≠ Ok () ∧
  (d !! "renderType" = Some (VStr "playblast") → is_Some (d !! "deadlineEnable") →
   out.2 = Raise (TypeError "'NoneType' object is not iterable") ∧
   members out.1.2 = dummy_members ∧
   data out.1.2 !! "renderCam" = d !! "renderCam").
Proof.
  intros Hno%no_descendants out. split.
  - intros Hok. subst out.
    destruct (fill_instance env cdata dummy_members d layer (s, new_instance n))
      as [st' r] eqn:Hrun.
    simpl in Hok. subst r.
    apply fill_instance_cases in Hrun as (t & enable & below & _ & _ & Hb & _).
    by rewrite Hno in Hb.
  - intros Hplay [enable He]. subst out. rewrite fill_instance_run. simpl.
    rewrite (right_id_L ∅ (∪)), Hplay. simpl.
    match goal with |- context [(process_playblast cdata layer ≫= ?f) ?st] =>
      assert ((process_playblast cdata layer ≫= f) st =
              ((s, with_data st.2
                     (with_contractor enable "deadline.maya.script"
                        (with_lock s (playblast_head (data st.2))))),
               Raise (TypeError "'NoneType' object is not iterable"))) as ->
    end.
    { bind_step. rewrite process_playblast_run. simpl.
      by rewrite !lookup_insert_ne, He, Hno by done. }
    simpl. split; [done|]. split; [done|]. unfold playblast_head. by repeat lookup_step.
Qed.

End Filled.

(** The turntable layer of the example session. *)
Lemma filled_subset_witness :
  let out := fill_instance example_env {[ "outputDir" := VStr "/proj/renders" ]} ["|cam"]
               example_turntable_data "preview" (example_scene, new_instance "preview") in
  out.2 = Ok () ∧
  data out.1.2 !! "subset" = Some (VStr "imgseqDefault.preview").
Proof.
  split; [by vm_compute|].
  destruct (filled_subset example_env {[ "outputDir" := VStr "/proj/renders" ]} ["|cam"]
              example_turntable_data "preview" example_scene "preview")
    as (t & Ht & _ & Hrender); [by vm_compute|].
  destruct Hrender as (subset & subset' & Hs & _ & Hout & Hstr).
  - intros ->. by vm_compute in Ht.
  - rewrite Hout. f_equal. apply (Hstr "imgseqDefault").
    vm_compute in Hs. by injection Hs as <-.
Defined.

Lemma filled_category_witness :
  let out := fill_instance example_env {[ "outputDir" := VStr "/proj/renders" ]} ["|cam"]
               example_turntable_data "preview" (example_scene, new_instance "preview") in
  out.2 = Ok () ∧
  ∃ t, example_turntable_data !! "renderType" = Some (VStr t) ∧
    data out.1.2 !! "families" = Some (VStrs ["reveries.imgseq." +:+ t]) ∧
    (t = "playblast" → data out.1.2 !! "category" = Some (VStr "Playblast")) ∧
    (t = "turntable" →
       ∃ r, example_turntable_data !! "renderer" = Some (VStr r) ∧
            data out.1.2 !! "category" = Some (VStr ("Turntable: " +:+ r))) ∧
    (t = "batchrender" →
       ∃ r, example_turntable_data !! "renderer" = Some (VStr r) ∧
            data out.1.2 !! "category" = Some (VStr ("Render: " +:+ r))).
Proof.
  split; [by vm_compute|].
  apply (filled_category example_env {[ "outputDir" := VStr "/proj/renders" ]} ["|cam"]
           example_turntable_data "preview" example_scene "preview").
  by vm_compute.
Defined.

Lemma filled_contractor_witness :
  let d := <["deadlineEnable" := VBool true]> example_turntable_data in
  let out := fill_instance example_env {[ "outputDir" := VStr "/proj/renders" ]} ["|cam"]
               d "preview" (example_scene, new_instance "preview") in
  out.2 = Ok () ∧
  ∃ t enable,
    d !! "renderType" = Some (VStr t) ∧ d !! "deadlineEnable" = Some enable ∧
    (truthy enable = true →
       data out.1.2 !! "useContractor" = Some (VBool true) ∧
       data out.1.2 !! "publishContractor" =
         Some (VStr (if String.eqb t "playblast" then "deadline.maya.script"
                     else "deadline.maya.render"))) ∧
    (truthy enable = false →
       data out.1.2 !! "useContractor" = d !! "useContractor" ∧
       data out.1.2 !! "publishContractor" = d !! "publishContractor").
Proof.
  split; [by vm_compute|].
  apply (filled_contractor example_env {[ "outputDir" := VStr "/proj/renders" ]} ["|cam"]
           (<["deadlineEnable" := VBool true]> example_turntable_data) "preview"
           example_scene "preview").
  by vm_compute.
Defined.

(** A playblast of the group that holds both cameras of the example
    session. *)
Lemma filled_playblast_cameras_witness :
  let d := <["renderType" := VStr "playblast"]> example_turntable_data in
  let out := fill_instance example_env ∅ ["|cam"; "|persp"] d "preview"
               (example_scene, new_instance "preview") in
  out.2 = Ok () ∧
  data out.1.2 !! "renderCam" = Some (VStrs ["|cam|camShape"; "|persp|perspShape"]) ∧
  ∃ cams,
    data out.1.2 !! "renderCam" = Some (VStrs cams) ∧
    ∀ cam, cam ∈ cams ↔
      (∃ node, node ∈ dag example_scene ∧ dag_path node = cam ∧ dag_type node = "camera") ∧
      (cam ∈ ["|cam"; "|persp"] ∨
       ∃ m, m ∈ targets ["|cam"; "|persp"] example_scene ∧
            startswith (m +:+ "|") cam = true).
Proof.
  split; [by vm_compute|]. split; [by vm_compute|].
  apply (filled_playblast_cameras example_env ∅ ["|cam"; "|persp"]
           (<["renderType" := VStr "playblast"]> example_turntable_data) "preview"
           example_scene "preview"); by vm_compute.
Defined.

Lemma filled_render_cameras_witness :
  let out := fill_instance example_env {[ "outputDir" := VStr "/proj/renders" ]}
               ["|cam"; "|persp"] example_turntable_data "preview"
               (example_scene, new_instance "preview") in
  out.2 = Ok () ∧
  data out.1.2 !! "renderCam" = Some (VStrs ["|cam|camShape"]) ∧
  ∃ cams renderable_cam,
    (ls_renderable_cameras example_env "preview" example_scene).2 = Ok renderable_cam ∧
    data out.1.2 !! "renderCam" = Some (VStrs cams) ∧
    NoDup cams ∧
    ∀ cam, cam ∈ cams ↔
      cam ∈ renderable_cam ∧
      (∃ node, node ∈ dag example_scene ∧ dag_path node = cam ∧ dag_type node = "camera") ∧
      (cam ∈ ["|cam"; "|persp"] ∨
       ∃ m, m ∈ targets ["|cam"; "|persp"] example_scene ∧
            startswith (m +:+ "|") cam = true).
Proof.
  split; [by vm_compute|]. split; [by vm_compute|].
  apply (filled_render_cameras example_env {[ "outputDir" := VStr "/proj/renders" ]}
           ["|cam"; "|persp"] example_turntable_data "preview" example_scene "preview");
    by vm_compute.
Defined.

Lemma filled_output_paths_witness :
  let out := fill_instance example_env {[ "outputDir" := VStr "/proj/renders" ]} ["|cam"]
               example_turntable_data "preview" (example_scene, new_instance "preview") in
  out.2 = Ok () ∧
  data out.1.2 !! "extractType" = Some (VStr "imageSequenceSet") ∧
  ∃ renderer lyr dir paths,
    example_turntable_data !! "renderer" = Some renderer ∧
    example_turntable_data !! "renderlayer" = Some lyr ∧
    ({[ "outputDir" := VStr "/proj/renders" ]} : gmap string value) !! "outputDir"
      = Some (VStr dir) ∧
    data out.1.2 !! "outputPaths" = Some (VDict paths) ∧
    NoDup paths.*1 ∧
    (∀ aov, aov ∈ paths.*1 ↔ aov = "" ∨ aov ∈ aov_names_of example_env renderer lyr example_scene) ∧
    (∀ aov v, (aov, v) ∈ paths →
       v = VStr (replace_backslash
                   (dir +:+ "/" +:+
                    compose_render_filename example_env example_scene lyr (Some aov)))) ∧
    data out.1.2 !! "extractType" =
      Some (VStr (if bool_decide (Exists (λ aov, aov ≠ "")
                                    (aov_names_of example_env renderer lyr example_scene))
                  then "imageSequenceSet" else "imageSequence")).
Proof.
  split; [by vm_compute|]. split; [by vm_compute|].
  apply (filled_output_paths example_env {[ "outputDir" := VStr "/proj/renders" ]} ["|cam"]
           example_turntable_data "preview" example_scene "preview"); by vm_compute.
Defined.

(** A placeholder that holds a camera shape only. *)
Lemma filled_without_descendants_witness :
  let d := <["renderType" := VStr "playblast"]> example_turntable_data in
  let out := fill_instance example_env ∅ ["|cam|camShape"] d "preview"
               (example_scene, new_instance "preview") in
  out.2 = Raise (TypeError "'NoneType' object is not iterable") ∧
  members out.1.2 = ["|cam|camShape"] ∧
  data out.1.2 !! "renderCam" = d !! "renderCam".
Proof.
  refine (proj2 (filled_without_descendants example_env ∅ ["|cam|camShape"]
                   (<["renderType" := VStr "playblast"]> example_turntable_data) "preview"
                   example_scene "preview" _) _ _).
  - intros m node Hm Hnode.
    apply list_elem_of_singleton in Hm as ->.
    revert node Hnode. apply Forall_forall. apply (bool_decide_unpack _). by vm_compute.
  - by vm_compute.
  - exists (VBool false). by vm_compute.
Defined.

(** ** The pass as a whole *)

Section WholePass.
Context (env : PyEnv).

(** What [fill_instance] sets before it looks the variant up, and nothing
    after it touches. *)
Lemma fill_instance_constants cdata dummy_members d layer s i k v :
  (k, v) ∈ [("family", VStr "reveries.imgseq"); ("_privilege_on_lock", VBool true);
            ("dependencies", VDict []); ("futureDependencies", VDict [])] →
  data (fill_instance env cdata dummy_members d layer (s, i)).1.2 !! k = Some v.
Proof.
  intros Hkv. rewrite fill_instance_run.
  assert ((k ∉ turntable_keys) ∧ k ≠ "renderLayerMember" ∧
    ((<["families" := VList []]> (
      <["family" := VStr "reveries.imgseq"]> (
      <["_privilege_on_lock" := VBool true]> (
      <["futureDependencies" := VDict []]> (
      <["dependencies" := VDict []]> (d ∪ data i))))) : gmap string value) !! k
       = Some v))
    as (Hk & Hne & Hi1).
  { unfold turntable_keys, batchrender_keys.
    repeat (apply elem_of_cons in Hkv as [[= -> ->]|Hkv];
            [split; [set_solver|]; split; [done|]; by repeat lookup_step|]).
    by apply elem_of_nil in Hkv. }
  destruct ((d ∪ data i) !! "renderType") as [rt|]; [|done].
  destruct (getattr_process env rt) as [variate|] eqn:Hv; [|done].
  edestruct (variate_then_collect turntable_keys (variate cdata layer) layer s)
    as (_ & _ & Hdata & _); [by eapply keeps_variate|].
  by rewrite Hdata.
Qed.

(** The loop stops at the first turn that raises. *)
Lemma for_layers_stops (P : string → Instance → result () → Prop)
    instance_node dummy_members valid layers s c ctx e :
  cdata ctx = c →
  (∀ layer d, layer ∈ valid →
     (gather env instance_node layer s).2 = Ok d →
     ∀ i r, fill_instance env c dummy_members d layer
              (s, new_instance (layername_of layer)) = ((s, i), r) →
            P layer i r) →
  let out := for_layers env instance_node dummy_members valid layers (s, ctx) in
  out.2 = Raise e →
  ∃ done layer finished last,
    (done ++ [layer]) `prefix_of` filter (λ l, l ∈ valid) layers ∧
    instances out.1.2 = instances ctx ++ finished ++ last ∧
    Forall2 (λ layer i, P layer i (Ok ())) done finished ∧
    ((last = [] ∧ (gather env instance_node layer s).2 = Raise e) ∨
     (∃ i, last = [i] ∧ P layer i (Raise e))).
Proof.
  intros Hc HP. simpl. revert ctx Hc.
  induction layers as [|layer rest IH]; intros ctx Hc; simpl; [done|].
  unfold mbind, se_bind.
  destruct (decide (layer ∈ valid)) as [Hin|Hnin].
  - rewrite process_layer_run by done. rewrite filter_cons_True by done.
    destruct (gather env instance_node layer s).2 as [d|e'] eqn:Hd.
    + pose proof (fill_instance_spec env (cdata ctx) dummy_members d layer s
                    (new_instance (layername_of layer))) as (Hs & _).
      simpl in Hs.
      destruct (fill_instance env (cdata ctx) dummy_members d layer
                  (s, new_instance (layername_of layer))) as [[s' i] r] eqn:Hfill.
      simpl in *. subst s'. rewrite Hc in Hfill.
      pose proof (HP layer d Hin Hd i r Hfill) as Hi.
      destruct r as [[]|e']; simpl.
      * intros Hr.
        destruct (IH {| instances := instances ctx ++ [i]; cdata := cdata ctx |} Hc Hr)
          as (done & layer' & finished & last & Hpre & Hinst & Hall & Hlast).
        simpl in *. exists (layer :: done), layer', (i :: finished), last.
        split; [by apply prefix_cons|]. split; [by rewrite Hinst, <- app_assoc|].
        split; [by constructor|done].
      * intros [= ->]. exists [], layer, [], [i].
        split; [apply prefix_cons, prefix_nil|]. split; [done|].
        split; [constructor|]. right. by exists i.
    + simpl. intros [= ->]. exists [], layer, [], [].
      split; [apply prefix_cons, prefix_nil|]. rewrite app_nil_r.
      split; [done|]. split; [constructor|]. by left.
  - unfold process_layer. rewrite decide_False by done. simpl.
    rewrite filter_cons_False by done. by apply IH.
Qed.

(** The settings gathered for a layer. *)
Lemma gather_result instance_node layer s d :
  (gather env instance_node layer s).2 = Ok d →
  ∃ node, instance_node = VStr node ∧
    (∀ key attr, (key, attr) ∈ render_attrs →
       ∃ v, (query_by_renderlayer env "defaultRenderGlobals" attr layer s).2 = Ok v ∧
            d !! key = Some v) ∧
    (∀ k, k ∈ pipeline_attrs →
       ∃ v, (query_by_renderlayer env node k layer s).2 = Ok v ∧ d !! k = Some v) ∧
    d !! "renderlayer" = Some (VStr layer) ∧
    d !! "fileNamePrefix" = Some (get_render_filename_prefix env s layer) ∧
    d !! "fileExt" =
      Some (VStr (os_path_ext env (compose_render_filename env s (VStr layer) None))) ∧
    (∀ k, is_Some (d !! k) →
       k ∈ pipeline_attrs ++
           ["renderlayer"; "startFrame"; "endFrame"; "byFrameStep"; "renderer";
            "fileNamePrefix"; "fileExt"]).
Proof.
  unfold gather, get_render_attr.
  rewrite bind_pure_result by apply pure_query_by_renderlayer.
  destruct (query_by_renderlayer env _ "currentRenderer" layer s).2 as [renderer|] eqn:Hr;
    [|done].
  rewrite bind_pure_result by apply pure_query. simpl.
  rewrite bind_pure_result by apply pure_query_by_renderlayer.
  destruct (query_by_renderlayer env _ "startFrame" layer s).2 as [startFrame|] eqn:Hsf;
    [|done].
  rewrite bind_pure_result by apply pure_query_by_renderlayer.
  destruct (query_by_renderlayer env _ "endFrame" layer s).2 as [endFrame|] eqn:Hef;
    [|done].
  rewrite bind_pure_result by apply pure_query_by_renderlayer.
  destruct (query_by_renderlayer env _ "byFrameStep" layer s).2 as [byFrameStep|] eqn:Hbf;
    [|done].
  rewrite bind_pure_result by apply pure_query. simpl.
  rewrite bind_pure_result by apply pure_get_pipeline_attr.
  destruct (get_pipeline_attr env instance_node layer s).2 as [pipeline|] eqn:Hp; [|done].
  simpl. intros [= <-].
  assert (∃ node, instance_node = VStr node) as [node ->].
  { apply get_pipeline_attr_result in Hp as (_ & node & _ & -> & _). by exists node. }
  unfold get_pipeline_attr in Hp. apply query_attrs_result in Hp as [Hin Hnin].
  assert (∀ k, k ∉ pipeline_attrs → ∀ m : gmap string value,
            (pipeline ∪ m) !! k = m !! k) as Hright.
  { intros k Hk m. apply lookup_union_r. by apply Hnin. }
  exists node. split; [done|]. split.
  { intros key attr Hka. unfold render_attrs in Hka.
    repeat (apply elem_of_cons in Hka as [[= -> ->]|Hka];
            [eexists; split; [eassumption|];
             rewrite Hright by (unfold pipeline_attrs; set_solver);
             by repeat lookup_step|]).
    by apply elem_of_nil in Hka. }
  split.
  { intros k Hk. destruct (Hin k Hk) as (v & Hv & Hq). exists v. split; [done|].
    by apply lookup_union_Some_l. }
  split; [rewrite Hright by (unfold pipeline_attrs; set_solver); by repeat lookup_step|].
  split; [rewrite Hright by (unfold pipeline_attrs; set_solver); by repeat lookup_step|].
  split; [rewrite Hright by (unfold pipeline_attrs; set_solver); by repeat lookup_step|].
  intros k [v Hv].
  destruct (decide (k ∈ pipeline_attrs)) as [Hk|Hk];
    [unfold pipeline_attrs in Hk; set_solver|].
  rewrite Hright in Hv by done.
  repeat (apply lookup_insert_Some in Hv as [[<- _]|[_ Hv]]; [set_solver|]).
  by rewrite lookup_empty in Hv.
Qed.

End WholePass.

Lemma filter_Forall_id {A} (P : A → Prop) `{∀ x, Decision (P x)} (l : list A) :
  Forall P l → filter P l = l.
Proof.
  induction 1 as [|x l Hx _ IH]; [done|]. by rewrite filter_cons_True, IH.
Qed.

Lemma filter_Forall_nil {A} (P : A → Prop) `{∀ x, Decision (P x)} (l : list A) :
  Forall (λ x, ¬ P x) l → filter P l = [].
Proof.
  induction 1 as [|x l Hx _ IH]; [done|]. by rewrite filter_cons_False.
Qed.

(** Placeholders without a node at the end of the context. *)
Lemma remove_dummies_trailing kept0 created acc dm :
  Forall (λ i, is_Some (data i !! "family") ∧ is_dummy i = false) kept0 →
  Forall (λ i, is_dummy i = true ∧ data i !! "objectName" = None) created →
  ∃ dm', remove_dummies (kept0 ++ created) acc VNone dm = (acc ++ kept0, Ok (VNone, dm')).
Proof.
  intros Hkept Hcreated. revert acc.
  induction Hkept as [|i kept0 [[family Hf] Hi] _ IH]; intros acc; simpl.
  - rewrite app_nil_r. clear -Hcreated. revert dm.
    induction Hcreated as [|i created [Hi Hnode] _ IH]; intros dm; simpl; [by eexists|].
    unfold is_dummy in Hi. destruct (data i !! "family") as [family|]; [|done].
    rewrite Hi, Hnode. simpl. apply IH.
  - rewrite Hf. rewrite (is_dummy_family _ _ Hf) in Hi. rewrite Hi.
    destruct (IH (acc ++ [i])) as [dm' ->]. rewrite <- app_assoc. by eexists.
Qed.

Section PassFacts.
Context (env : PyEnv).

Lemma turn_fill s ctx layer i r :
  turn env s ctx layer i r →
  ∃ instance_node dummy_members cdata d,
    (remove_dummies (instances ctx) [] VNone []).2 = Ok (instance_node, dummy_members) ∧
    (gather env instance_node layer s).2 = Ok d ∧
    fill_instance env cdata dummy_members d layer (s, new_instance (layername_of layer))
      = ((s, i), r).
Proof.
  intros (node & dm & ws & od & mv & d & Hrm & _ & _ & _ & _ & Hd & Hfill).
  by exists node, dm, (pass_cdata s od mv (cdata ctx)), d.
Qed.

(** What every turn that created an instance has left in it. *)
Lemma turn_data s ctx layer i r :
  turn env s ctx layer i r →
  data i !! "family" = Some (VStr "reveries.imgseq") ∧
  data i !! "_privilege_on_lock" = Some (VBool true) ∧
  data i !! "dependencies" = Some (VDict []) ∧
  data i !! "futureDependencies" = Some (VDict []) ∧
  data i !! "objectName" = None.
Proof.
  intros (node & dm & c & d & _ & Hd & Hfill)%turn_fill.
  pose proof (λ k v, fill_instance_constants env c dm d layer s
                       (new_instance (layername_of layer)) k v) as Hconst.
  pose proof (fill_instance_spec env c dm d layer s (new_instance (layername_of layer)))
    as (_ & _ & Hkeep & _).
  rewrite Hfill in Hconst, Hkeep. simpl in *.
  split; [apply Hconst; set_solver|]. split; [apply Hconst; set_solver|].
  split; [apply Hconst; set_solver|]. split; [apply Hconst; set_solver|].
  rewrite Hkeep by (unfold fill_keys, turntable_keys, batchrender_keys; set_solver).
  rewrite (right_id_L ∅ (∪)).
  apply gather_result in Hd as (_ & _ & _ & _ & _ & _ & _ & Hdom).
  destruct (d !! "objectName") as [v|] eqn:Hv; [|done].
  specialize (Hdom "objectName" ltac:(by eexists)).
  unfold pipeline_attrs in Hdom. set_solver.
Qed.

(** X11. Whatever the outcome of a pass, every instance it has created
    carries the family ["reveries.imgseq"], a true ["_privilege_on_lock"],
    and empty ["dependencies"] and ["futureDependencies"]. *)
Theorem created_instances_family s ctx :
  ∃ created,
    instances (process env (s, ctx)).1.2 = kept_instances ctx ++ created ∧
    Forall (λ i, data i !! "family" = Some (VStr "reveries.imgseq") ∧
                 data i !! "_privilege_on_lock" = Some (VBool true) ∧
                 data i !! "dependencies" = Some (VDict []) ∧
                 data i !! "futureDependencies" = Some (VDict [])) created.
Proof.
  destruct (process_turns env s ctx) as (created & Hinst & _ & Hall).
  exists created. split; [done|].
  eapply Forall_impl; [exact Hall|]. intros i (layer & r & Hturn). simpl.
  apply turn_data in Hturn as (? & ? & ? & ? & _). done.
Qed.

(** X12. The collector cannot run twice. The instances a pass creates are
    placeholders without a node for the next one: after a pass that
    returned, a second pass takes everything the first one created out of
    the context again, leaves the instances that were no placeholders to
    begin with, and raises [AssertionError("This is a bug.")]. *)
Theorem second_pass_raises s ctx :
  Forall (λ i, is_Some (data i !! "family")) (instances ctx) →
  let out := process env (s, ctx) in
  out.2 = Ok () →
  process env out.1 =
    ((s, {| instances := filter (λ i, is_dummy i = false) (instances ctx);
            cdata := cdata out.1.2 |}),
     Raise (AssertionError "This is a bug.")).
Proof.
  intros Hfam out Hok.
  destruct (process_turns env s ctx) as (created & Hinst & _ & Hall).
  pose proof (process_spec env s ctx) as (Hs & _). fold out in Hinst, Hs.
  destruct out as [[s' ctx'] r]. simpl in *. subst s'.
  destruct (remove_dummies_families (instances ctx) [] VNone [] Hfam) as (n0 & d0 & Hrm).
  assert (kept_instances ctx = filter (λ i, is_dummy i = false) (instances ctx)) as Hkept
    by (unfold kept_instances; by rewrite Hrm).
  rewrite Hkept in Hinst.
  destruct (remove_dummies_trailing
              (filter (λ i, is_dummy i = false) (instances ctx)) created [] [])
    as [dm' Hrm'].
  { apply Forall_forall. intros i [Hi Hin]%list_elem_of_filter. split; [|done].
    by apply (proj1 (Forall_forall _ _) Hfam). }
  { eapply Forall_impl; [exact Hall|]. intros i (layer & r' & Hturn). simpl.
    apply turn_data in Hturn as (Hf & _ & _ & _ & Hnode). split; [|done].
    by rewrite (is_dummy_family _ _ Hf). }
  rewrite process_run. unfold kept_instances. rewrite Hinst, Hrm'. done.
Qed.

(** X13. The context data after a pass that returned: the output
    directory is the workspace joined with ["renders"]; the pass marks the
    context as holding a privileged instance; ["hasRenderLayers"] tells
    whether more than one layer is linked to the layer manager;
    ["usingRenderSetup"] is what Maya answers from version 2016.5 on and
    [False] before; every other key is as it was. *)
Theorem process_context_data s ctx :
  let out := process env (s, ctx) in
  out.2 = Ok () →
  ∃ workspace outputDir mayaVersion,
    cdata ctx !! "workspaceDir" = Some workspace ∧
    os_path_join env workspace "renders" = Ok outputDir ∧
    cdata ctx !! "mayaVersion" = Some mayaVersion ∧
    cdata out.1.2 !! "outputDir" = Some (VStr outputDir) ∧
    cdata out.1.2 !! "_has_privileged_instance" = Some (VBool true) ∧
    cdata out.1.2 !! "hasRenderLayers" =
      Some (VBool (bool_decide (1 < size (valid_layers s))%nat)) ∧
    cdata out.1.2 !! "usingRenderSetup" =
      Some (VBool (ge_number mayaVersion 2016.5 && mayaHasRenderSetup s)) ∧
    ∀ k, k ∉ ["outputDir"; "_has_privileged_instance"; "hasRenderLayers";
              "usingRenderSetup"] →
         cdata out.1.2 !! k = cdata ctx !! k.
Proof.
  intros out Hok. subst out. rewrite process_run in Hok |- *. simpl in *.
  destruct (remove_dummies (instances ctx) [] VNone []).2 as [[node dm]|]; [|done].
  assert (node ≠ VNone) as Hnode by (by intros ->).
  assert (∀ X Y : Scene * Context * result (),
            match node with VNone => X | _ => Y end = Y) as Hmatch
    by (intros X Y; by destruct node).
  rewrite Hmatch in Hok |- *. clear Hmatch.
  destruct (cdata ctx !! "workspaceDir") as [workspace|] eqn:Hw; [|done].
  destruct (os_path_join env workspace "renders") as [outputDir|] eqn:Hj; [|done].
  destruct (cdata ctx !! "mayaVersion") as [mayaVersion|] eqn:Hv; [|done].
  exists workspace, outputDir, mayaVersion.
  split; [done|]. split; [done|]. split; [done|].
  edestruct (for_layers_turns env (λ _ _ _, True) node dm (valid_layers s)
               (sorted (displayOrder s) (renderlayers s)) s
               (pass_cdata s outputDir mayaVersion (cdata ctx))
               {| instances := kept_instances ctx;
                  cdata := pass_cdata s outputDir mayaVersion (cdata ctx) |})
    as (-> & _); [done|done|].
  unfold pass_cdata.
  split; [by repeat lookup_step|]. split; [by repeat lookup_step|].
  split.
  { repeat lookup_step. do 2 f_equal.
    destruct (1 <? size (valid_layers s))%nat eqn:Hlt.
    - apply Nat.ltb_lt in Hlt. by rewrite bool_decide_eq_true_2.
    - apply Nat.ltb_ge in Hlt. rewrite bool_decide_eq_false_2; [done|lia]. }
  split; [repeat lookup_step; by destruct (ge_number mayaVersion 2016.5)|].
  intros k Hk. rewrite !lookup_insert_ne; [done|..]; intros <-; apply Hk; set_solver.
Qed.

(** X14. A pass that raises stops there. The instances it has created
    are those of the first layers of the loop, in order; all of them but
    possibly the last went through the whole body of the loop; the last
    one, if it did not, is the instance whose processing raised, left in
    the context as it was at that point; no later layer has an instance. *)
Theorem process_stops_at_first_failure s ctx e :
  let out := process env (s, ctx) in
  out.2 = Raise e →
  ∃ done finished last,
    instances out.1.2 = kept_instances ctx ++ finished ++ last ∧
    done `prefix_of` expected_layers s ∧
    Forall2 (λ layer i, turn env s ctx layer i (Ok ())) done finished ∧
    (last = [] ∨
     ∃ layer i, last = [i] ∧ (done ++ [layer]) `prefix_of` expected_layers s ∧
                turn env s ctx layer i (Raise e)).
Proof.
  intros out Hraise. subst out. rewrite process_run in Hraise |- *. simpl in *.
  assert (∀ c (r : result ()), ∃ done finished last,
    instances ((s, {| instances := kept_instances ctx; cdata := c |}), r).1.2
      = kept_instances ctx ++ finished ++ last ∧
    done `prefix_of` expected_layers s ∧
    Forall2 (λ layer i, turn env s ctx layer i (Ok ())) done finished ∧
    (last = [] ∨
     ∃ layer i, last = [i] ∧ (done ++ [layer]) `prefix_of` expected_layers s ∧
                turn env s ctx layer i (Raise e))) as Hbefore.
  { intros c r. exists [], [], []. simpl. rewrite app_nil_r.
    split; [done|]. split; [apply prefix_nil|]. split; [constructor|by left]. }
  destruct (remove_dummies (instances ctx) [] VNone []).2 as [[node dm]|] eqn:Hrm;
    [|apply Hbefore].
  assert (node = VNone ∨ node ≠ VNone) as [->|Hnode]
    by (destruct node; auto); [apply Hbefore|].
  assert (∀ X Y : Scene * Context * result (),
            match node with VNone => X | _ => Y end = Y) as Hmatch
    by (intros X Y; by destruct node).
  rewrite Hmatch in Hraise |- *. clear Hmatch.
  destruct (cdata ctx !! "workspaceDir") as [workspace|] eqn:Hw; [|apply Hbefore].
  destruct (os_path_join env workspace "renders") as [outputDir|] eqn:Hj; [|apply Hbefore].
  destruct (cdata ctx !! "mayaVersion") as [mayaVersion|] eqn:Hv; [|apply Hbefore].
  edestruct (for_layers_stops env (turn env s ctx) node dm (valid_layers s)
               (sorted (displayOrder s) (renderlayers s)) s
               (pass_cdata s outputDir mayaVersion (cdata ctx))
               {| instances := kept_instances ctx;
                  cdata := pass_cdata s outputDir mayaVersion (cdata ctx) |} e)
    as (ldone & layer & finished & last & Hpre & Hinst & Hall & Hlast); [done| |done|].
  { intros layer d Hin Hd i r Hfill.
    by exists node, dm, workspace, outputDir, mayaVersion, d. }
  exists ldone, finished, last. split; [done|]. split.
  { etrans; [|exact Hpre]. by apply prefix_app_r. }
  split; [done|]. destruct Hlast as [[-> _]|(i & -> & Hturn)]; [by left|].
  right. by exists layer, i.
Qed.

(** X15. The settings of a layer, as a pass that returned has recorded
    them in the instance of that layer: the layer itself, the file name
    prefix and extension of its images, and under ["renderer"],
    ["startFrame"], ["endFrame"] and ["byFrameStep"] what the render
    globals resolve to in that layer. *)
Theorem layer_settings_recorded s ctx :
  let out := process env (s, ctx) in
  out.2 = Ok () →
  ∃ created,
    instances out.1.2 = kept_instances ctx ++ created ∧
    Forall2 (λ layer i,
      data i !! "renderlayer" = Some (VStr layer) ∧
      data i !! "fileNamePrefix" = Some (get_render_filename_prefix env s layer) ∧
      data i !! "fileExt" =
        Some (VStr (os_path_ext env (compose_render_filename env s (VStr layer) None))) ∧
      ∀ key attr, (key, attr) ∈ render_attrs →
        ∃ v, (query_by_renderlayer env "defaultRenderGlobals" attr layer s).2 = Ok v ∧
             data i !! key = Some v)
      (expected_layers s) created.
Proof.
  intros out Hok.
  destruct (process_turns env s ctx) as (created & Hinst & Hall & _).
  exists created. split; [done|].
  eapply Forall2_impl; [by apply Hall|]. intros layer i Hturn. simpl in Hturn.
  apply turn_fill in Hturn as (node & dm & c & d & _ & Hd & Hfill).
  pose proof (fill_instance_spec env c dm d layer s (new_instance (layername_of layer)))
    as (_ & _ & Hkeep & _).
  rewrite Hfill in Hkeep. simpl in Hkeep. rewrite (right_id_L ∅ (∪)) in Hkeep.
  apply gather_result in Hd as (_ & _ & Hrender & _ & Hl & Hp & Hx & _).
  assert (∀ k, k ∈ ["renderlayer"; "fileNamePrefix"; "fileExt"; "renderer"; "startFrame";
                    "endFrame"; "byFrameStep"] → k ∉ fill_keys) as Hfree.
  { intros k Hk. unfold fill_keys, turntable_keys, batchrender_keys. set_solver. }
  rewrite !Hkeep by (apply Hfree; set_solver).
  split; [done|]. split; [done|]. split; [done|].
  intros key attr Hka. destruct (Hrender key attr Hka) as (v & Hq & Hv).
  exists v. split; [done|]. rewrite Hkeep; [done|]. apply Hfree.
  unfold render_attrs in Hka. set_solver.
Qed.

(** X16. The pipeline attributes of a layer, as a pass that returned has
    recorded them: the node of the placeholder is a string, and but for
    the subset, which the variants rename, every pipeline attribute of an
    instance holds what that attribute of the node resolves to in the
    layer of the instance. *)
Theorem pipeline_settings_recorded s ctx :
  let out := process env (s, ctx) in
  out.2 = Ok () →
  ∃ instance_node dummy_members created,
    (remove_dummies (instances ctx) [] VNone []).2 = Ok (instance_node, dummy_members) ∧
    instances out.1.2 = kept_instances ctx ++ created ∧
    Forall2 (λ layer i,
      ∃ node, instance_node = VStr node ∧
        ∀ k, k ∈ pipeline_attrs → k ≠ "subset" →
          ∃ v, (query_by_renderlayer env node k layer s).2 = Ok v ∧ data i !! k = Some v)
      (expected_layers s) created.
Proof.
  intros out Hok.
  destruct (process_turns env s ctx) as (created & Hinst & Hall & _).
  pose proof (process_spec env s ctx) as (_ & done & created' & _ & _ & _ & Hspec).
  destruct (Hspec Hok) as (_ & instance_node & dm & Hrm & _).
  exists instance_node, dm, created. split; [done|]. split; [done|].
  eapply Forall2_impl; [by apply Hall|]. intros layer i Hturn. simpl in Hturn.
  apply turn_fill in Hturn as (node' & dm' & c & d & Hrm' & Hd & Hfill).
  rewrite Hrm in Hrm'. injection Hrm' as <- <-.
  pose proof (fill_instance_spec env c dm d layer s (new_instance (layername_of layer)))
    as (_ & _ & Hkeep & _).
  rewrite Hfill in Hkeep. simpl in Hkeep. rewrite (right_id_L ∅ (∪)) in Hkeep.
  apply gather_result in Hd as (node & -> & _ & Hpipe & _).
  exists node. split; [done|]. intros k Hk Hne.
  destruct (Hpipe k Hk) as (v & Hq & Hv). exists v. split; [done|].
  rewrite Hkeep; [done|].
  unfold pipeline_attrs in Hk. unfold fill_keys, turntable_keys, batchrender_keys.
  set_solver.
Qed.


End PassFacts.

(** The pass on the example session, and a second one after it. *)
Lemma second_pass_raises_witness :
  let out := process example_env (example_scene, example_context) in
  out.2 = Ok () ∧
  (process example_env out.1).2 = Raise (AssertionError "This is a bug.") ∧
  name <$> instances (process example_env out.1).1.2 = ["modelDefault"].
Proof.
  assert ((process example_env (example_scene, example_context)).2 = Ok ()) as Hok
    by (by vm_compute).
  split; [exact Hok|].
  rewrite (second_pass_raises example_env example_scene example_context); [|..|exact Hok].
  - split; [done|]. by vm_compute.
  - apply (bool_decide_unpack _). by vm_compute.
Defined.

Lemma process_context_data_witness :
  let out := process example_env (example_scene, example_context) in
  out.2 = Ok () ∧
  ∃ workspace outputDir mayaVersion,
    cdata example_context !! "workspaceDir" = Some workspace ∧
    os_path_join example_env workspace "renders" = Ok outputDir ∧
    cdata example_context !! "mayaVersion" = Some mayaVersion ∧
    cdata out.1.2 !! "outputDir" = Some (VStr outputDir) ∧
    cdata out.1.2 !! "_has_privileged_instance" = Some (VBool true) ∧
    cdata out.1.2 !! "hasRenderLayers" =
      Some (VBool (bool_decide (1 < size (valid_layers example_scene))%nat)) ∧
    cdata out.1.2 !! "usingRenderSetup" =
      Some (VBool (ge_number mayaVersion 2016.5 && mayaHasRenderSetup example_scene)) ∧
    ∀ k, k ∉ ["outputDir"; "_has_privileged_instance"; "hasRenderLayers";
              "usingRenderSetup"] →
         cdata out.1.2 !! k = cdata example_context !! k.
Proof.
  split; [by vm_compute|].
  apply (process_context_data example_env example_scene example_context).
  by vm_compute.
Defined.

(** The session with the layer ["stale"] linked: the pass raises at that
    layer, the last of the loop. *)
Lemma process_stops_at_first_failure_witness :
  let e := AttributeError "'CollectRenderlayers' object has no attribute 'process_render'" in
  let out := process example_env (stale_scene, example_context) in
  out.2 = Raise e ∧
  name <$> instances out.1.2 = ["modelDefault"; "masterLayer"; "preview"; "beauty"; "stale"] ∧
  ∃ done finished last,
    instances out.1.2 = kept_instances example_context ++ finished ++ last ∧
    done `prefix_of` expected_layers stale_scene ∧
    Forall2 (λ layer i, turn example_env stale_scene example_context layer i (Ok ()))
      done finished ∧
    (last = [] ∨
     ∃ layer i, last = [i] ∧ (done ++ [layer]) `prefix_of` expected_layers stale_scene ∧
                turn example_env stale_scene example_context layer i (Raise e)).
Proof.
  split; [by vm_compute|]. split; [by vm_compute|].
  apply (process_stops_at_first_failure example_env stale_scene example_context).
  by vm_compute.
Defined.

Lemma layer_settings_recorded_witness :
  let out := process example_env (example_scene, example_context) in
  out.2 = Ok () ∧
  ∃ created,
    instances out.1.2 = kept_instances example_context ++ created ∧
    Forall2 (λ layer i,
      data i !! "renderlayer" = Some (VStr layer) ∧
      data i !! "fileNamePrefix" =
        Some (get_render_filename_prefix example_env example_scene layer) ∧
      data i !! "fileExt" =
        Some (VStr (os_path_ext example_env
                      (compose_render_filename example_env example_scene (VStr layer) None))) ∧
      ∀ key attr, (key, attr) ∈ render_attrs →
        ∃ v, (query_by_renderlayer example_env "defaultRenderGlobals" attr layer
                example_scene).2 = Ok v ∧
             data i !! key = Some v)
      (expected_layers example_scene) created.
Proof.
  split; [by vm_compute|].
  apply (layer_settings_recorded example_env example_scene example_context).
  by vm_compute.
Defined.

Lemma pipeline_settings_recorded_witness :
  let out := process example_env (example_scene, example_context) in
  out.2 = Ok () ∧
  ∃ instance_node dummy_members created,
    (remove_dummies (instances example_context) [] VNone []).2
      = Ok (instance_node, dummy_members) ∧
    instances out.1.2 = kept_instances example_context ++ created ∧
    Forall2 (λ layer i,
      ∃ node, instance_node = VStr node ∧
        ∀ k, k ∈ pipeline_attrs → k ≠ "subset" →
          ∃ v, (query_by_renderlayer example_env node k layer example_scene).2 = Ok v ∧
               data i !! k = Some v)
      (expected_layers example_scene) created.
Proof.
  split; [by vm_compute|].
  apply (pipeline_settings_recorded example_env example_scene example_context).
  by vm_compute.
Defined.


(** ** The resolver and the cameras *)

(** X18. The scan over the connected plugs looks at the plugs of the
    default layer and of the layer asked for, and at no other: dropping
    every plug that belongs to the adjustments of another layer changes
    nothing. *)
Theorem scan_ignores_other_layers ty node_attr layer conns origin s :
  scan_connections ty node_attr layer conns origin s =
  scan_connections ty node_attr layer
    (filter (λ conn, from_adjustments "defaultRenderLayer" conn = true ∨
                     from_adjustments layer conn = true) conns) origin s.
Proof.
  revert origin s. induction conns as [|conn rest IH]; intros origin s; [done|].
  simpl. destruct (from_adjustments "defaultRenderLayer" conn) eqn:Hd.
  - rewrite filter_cons_True by (by left). simpl. rewrite Hd.
    unfold mbind, se_bind. destruct (get_value ty conn s) as [s' [v|e]]; [|done].
    apply IH.
  - destruct (from_adjustments layer conn) eqn:Hl; simpl.
    + rewrite filter_cons_True by (by right). simpl. by rewrite Hd, Hl.
    + rewrite filter_cons_False by (intros [?|?]; congruence). apply IH.
Qed.

Section Cameras.
Context (env : PyEnv).

Lemma ls_renderable_cameras_result layer s :
  (ls_renderable_cameras env layer s).2 =
    (filter_renderable env (camera_layer layer s) (ls_type [] "camera" false s) s).2.
Proof.
  unfold ls_renderable_cameras, camera_layer.
  destruct (String.eqb layer ""); by rewrite !bind_pure_result by apply pure_query.
Qed.

Lemma filter_renderable_ok layer cams s :
  Forall (λ cam, ∃ v, (query_by_renderlayer env cam "renderable" layer s).2 = Ok v) cams →
  (filter_renderable env layer cams s).2 =
    Ok (filter (λ cam, renders env layer s cam = true) cams).
Proof.
  induction 1 as [|cam rest [v Hv] _ IH]; [done|]. simpl.
  rewrite bind_pure_result by apply pure_query_by_renderlayer. rewrite Hv.
  rewrite bind_pure_result by apply pure_filter_renderable. rewrite IH. simpl.
  assert (renders env layer s cam = truthy v) as Hr by (unfold renders; by rewrite Hv).
  destruct (truthy v);
    [rewrite filter_cons_True by done|rewrite filter_cons_False by (by rewrite Hr)]; done.
Qed.

Lemma filter_renderable_inv layer cams s rc :
  (filter_renderable env layer cams s).2 = Ok rc →
  Forall (λ cam, ∃ v, (query_by_renderlayer env cam "renderable" layer s).2 = Ok v) cams.
Proof.
  revert rc. induction cams as [|cam rest IH]; intros rc; [by constructor|]. simpl.
  rewrite bind_pure_result by apply pure_query_by_renderlayer.
  destruct (query_by_renderlayer env cam "renderable" layer s).2 as [v|] eqn:Hv; [|done].
  rewrite bind_pure_result by apply pure_filter_renderable.
  destruct (filter_renderable env layer rest s).2 as [keep|] eqn:Hk; [|done].
  intros _. constructor; [by exists v|by eapply IH].
Qed.

Lemma filter_renderable_raise layer cam rest s e :
  (query_by_renderlayer env cam "renderable" layer s).2 = Raise e →
  (filter_renderable env layer (cam :: rest) s).2 = Raise e.
Proof.
  intros He. simpl. rewrite bind_pure_result by apply pure_query_by_renderlayer.
  by rewrite He.
Qed.

(** X19. What [ls_renderable_cameras] lists when it returns: the cameras
    of the scene, in the order [cmds.ls] gives them, whose ["renderable"]
    attribute resolves to a true value in the layer asked for, or in the
    active layer when none is given. *)
Theorem renderable_cameras_listed layer s rc :
  (ls_renderable_cameras env layer s).2 = Ok rc →
  let layer' := if String.eqb layer "" then currentRenderLayer s else layer in
  rc = filter (λ cam, renders env layer' s cam = true) (ls_type [] "camera" false s) ∧
  ∀ cam, cam ∈ rc ↔
    (∃ node, node ∈ dag s ∧ dag_path node = cam ∧ dag_type node = "camera") ∧
    ∃ v, (query_by_renderlayer env cam "renderable" layer' s).2 = Ok v ∧ truthy v = true.
Proof.
  rewrite ls_renderable_cameras_result. intros Hrc layer'.
  change layer' with (camera_layer layer s).
  pose proof (filter_renderable_inv _ _ _ _ Hrc) as Hall.
  rewrite (filter_renderable_ok _ _ _ Hall) in Hrc. injection Hrc as <-.
  split; [done|]. intros cam.
  rewrite list_elem_of_filter, elem_of_ls_type_all. unfold renders. split.
  - intros [Hv Hcam]. split; [done|].
    destruct (query_by_renderlayer env cam "renderable" _ s).2 as [v|]; [|done].
    by exists v.
  - intros [Hcam (v & Hv & Ht)]. split; [|done]. by rewrite Hv.
Qed.

(** X20. A layer that does not exist. With no camera in the scene
    [ls_renderable_cameras] returns the empty list all the same; with a
    camera it raises the [ValueError] of the resolver. *)
Theorem renderable_cameras_missing_layer layer s :
  let layer' := if String.eqb layer "" then currentRenderLayer s else layer in
  layer' ∉ renderLayers s →
  (ls_renderable_cameras env layer s).2 =
    match ls_type [] "camera" false s with
    | [] => Ok []
    | _ :: _ => Raise (ValueError ("RenderLayer not exists: " +:+ layer'))
    end.
Proof.
  intros layer' Hmissing. rewrite ls_renderable_cameras_result.
  change (camera_layer layer s) with layer'.
  destruct (ls_type [] "camera" false s) as [|cam rest]; [done|].
  apply filter_renderable_raise. rewrite query_by_renderlayer_result. simpl.
  apply ls_renderLayer_nil in Hmissing. by rewrite Hmissing.
Qed.

(** X21. Asked about no layer, [ls_renderable_cameras] reads every
    camera directly: in a session whose active layer exists and whose
    cameras all have the attribute, it lists the cameras whose
    ["renderable"] attribute is true as the scene stands, whatever the
    adjustments of the layers hold. *)
Theorem renderable_cameras_active_layer s :
  currentRenderLayer s ∈ renderLayers s →
  Forall (λ cam, objExists s (cam +:+ ".renderable") = true) (ls_type [] "camera" false s) →
  (ls_renderable_cameras env "" s).2 =
    Ok (filter (λ cam, truthy (getAttr_asString s (cam +:+ ".renderable")) = true)
          (ls_type [] "camera" false s)).
Proof.
  intros Hcur Hattr. rewrite ls_renderable_cameras_result.
  change (camera_layer "" s) with (currentRenderLayer s).
  assert (∀ cam, objExists s (cam +:+ ".renderable") = true →
            (query_by_renderlayer env cam "renderable" (currentRenderLayer s) s).2 =
              Ok (getAttr_asString s (cam +:+ ".renderable"))) as Hq.
  { intros cam Hex. rewrite query_by_renderlayer_result. simpl.
    change (cam +:+ "." +:+ "renderable") with (cam +:+ ".renderable").
    destruct (ls_renderLayer (currentRenderLayer s) s) eqn:Hls.
    - by apply ls_renderLayer_nil in Hls.
    - by rewrite Hex, String.eqb_refl. }
  rewrite filter_renderable_ok.
  - f_equal. induction Hattr as [|cam rest Hcam _ IH]; [done|].
    assert (renders env (currentRenderLayer s) s cam =
            truthy (getAttr_asString s (cam +:+ ".renderable"))) as Hr
      by (unfold renders; by rewrite (Hq cam Hcam)).
    destruct (truthy (getAttr_asString s (cam +:+ ".renderable"))) eqn:Ht.
    + rewrite !filter_cons_True by done. by rewrite IH.
    + rewrite !filter_cons_False by (by rewrite ?Hr, ?Ht). apply IH.
  - eapply Forall_impl; [exact Hattr|]. intros cam Hcam. eexists. by apply Hq.
Qed.

End Cameras.

Lemma renderable_cameras_listed_witness :
  (ls_renderable_cameras example_env "beauty" example_scene).2 = Ok ["|cam|camShape"; "|persp|perspShape"] ∧
  ∀ cam, cam ∈ ["|cam|camShape"; "|persp|perspShape"] ↔
    (∃ node, node ∈ dag example_scene ∧ dag_path node = cam ∧ dag_type node = "camera") ∧
    ∃ v, (query_by_renderlayer example_env cam "renderable" "beauty" example_scene).2 = Ok v ∧
         truthy v = true.
Proof.
  split; [by vm_compute|].
  apply (renderable_cameras_listed example_env "beauty" example_scene
           ["|cam|camShape"; "|persp|perspShape"]).
  by vm_compute.
Defined.

Lemma renderable_cameras_missing_layer_witness :
  (ls_renderable_cameras example_env "gone" example_scene).2 =
    Raise (ValueError "RenderLayer not exists: gone").
Proof.
  refine (eq_trans (renderable_cameras_missing_layer example_env "gone" example_scene _) _).
  - apply (bool_decide_unpack _). by vm_compute.
  - by vm_compute.
Defined.

Lemma renderable_cameras_active_layer_witness :
  (ls_renderable_cameras example_env "" example_scene).2 = Ok ["|cam|camShape"].
Proof.
  refine (eq_trans (renderable_cameras_active_layer example_env example_scene _ _) _).
  - apply (bool_decide_unpack _). by vm_compute.
  - apply (bool_decide_unpack _). by vm_compute.
  - by vm_compute.
Defined.
